(** * Parallel Monte-Carlo option pricing with IPython: the notebook

    A shallow embedding of [ipythonMLsamples/ParallelMCOptions-cluster.ipynb]:
    the pricing function [price_option], the cells that submit one task per
    (strike, volatility) pair, wait for them, fetch the results and assemble
    the structured array [prices].

    Part I holds the definitions, Part II the lemmas and theorems. *)

From Stdlib Require Import ZArith List Lia.
From Stdlib Require Floats Uint63.
From stdpp Require Import base option list gmap strings.

Set Default Proof Using "Type".
Set Warnings "-inexact-float,-clear-no-such-hyp".

(* ===================================================================== *)
(** * Part I: definitions                                                 *)
(* ===================================================================== *)

(** ** Python exceptions and fallible computations *)

Module Py.

(** The exception classes that the notebook's code can meet;
    [PyException name] is any other class, by its name. [RemoteError] is the
    class in which [IPython.parallel] re-raises, on the client, an exception
    that a task raised on an engine. *)
Inductive exn : Type :=
| ZeroDivisionError
| ValueError
| IndexError
| NameError (name : string)
| TypeError
| PyException (ename : string)
| RemoteError (cause : exn).

Definition class_name (e : exn) : string :=
  match e with
  | ZeroDivisionError => "ZeroDivisionError"
  | ValueError => "ValueError"
  | IndexError => "IndexError"
  | NameError _ => "NameError"
  | TypeError => "TypeError"
  | PyException n => n
  | RemoteError _ => "RemoteError"
  end.

(** A Python expression either has a value or raises. *)
Inductive result (A : Type) : Type :=
| Ok (a : A)
| Raise (e : exn).
Arguments Ok {A} a.
Arguments Raise {A} e.

Definition bind {A B} (m : result A) (k : A -> result B) : result B :=
  match m with
  | Ok a => k a
  | Raise e => Raise e
  end.

End Py.
Import Py.

#[global] Instance result_ret : MRet result := fun A a => Ok a.
#[global] Instance result_bind : MBind result := fun A B k m => Py.bind m k.

(** ** The signs of binary64 numbers *)

Module Binary64.

Import SpecFloat.

(** Not below zero: a zero of either sign, a positive number, [+inf] or
    nan. *)
Definition not_negative (x : spec_float) : bool :=
  match x with
  | S754_infinity true | S754_finite true _ _ => false
  | _ => true
  end.

(** With the sign bit clear, or nan. *)
Definition sign_plus (x : spec_float) : bool :=
  match x with
  | S754_zero false | S754_infinity false | S754_finite false _ _ | S754_nan => true
  | _ => false
  end.

End Binary64.


(** ** The pricing function

    Python floats and [numpy.float64] values are IEEE 754 binary64 numbers:
    [PrimFloat.float], with its rounding, infinities, signed zeros and nan.
    Three things that the function calls are not in the repository and are
    not operations of binary64; they are taken as the [Platform] the
    function runs on: the exponentials of the C library and of [numpy]
    between their underflow and overflow thresholds, the order in which
    [numpy] adds the elements of an array, and the largest array that can
    be allocated. The random draws are an input of the function. *)

Module Pricing.

Import PrimFloat.
Local Open Scope float_scope.

Definition OverflowError : exn := PyException "OverflowError".
Definition MemoryError : exn := PyException "MemoryError".

(** A scalar argument is a Python float or, when it is an element of a
    [numpy] array, a [numpy.float64]; both hold a binary64 number. *)
Inductive scalar : Type :=
| Float (x : float)
| Float64 (x : float).

Definition value (s : scalar) : float :=
  match s with
  | Float x => x
  | Float64 x => x
  end.

Record Platform : Type := {
  (** [exp] of the C library, behind [math.exp], for -746 < x < 710 *)
  libm_exp : float -> float;
  (** the exponential of [numpy], behind [np.exp], for -746 < x < 710 *)
  npy_exp : float -> float;
  (** [np.add.reduce] on a one-dimensional float64 array *)
  add_reduce : list float -> float;
  (** the length of the longest list or array that can be allocated *)
  capacity : Z
}.

(** The sums of an array: its elements added in some order, from nothing
    (the identity 0.0) or from one of them. *)
Inductive sums_to : list float -> float -> Prop :=
| sums_nil : sums_to [] 0
| sums_one (x : float) : sums_to [x] x
| sums_app (a b : list float) (x y : float) :
    sums_to a x -> sums_to b y -> sums_to (a ++ b) (x + y)
| sums_perm (a b : list float) (x : float) :
    a ≡ₚ b -> sums_to a x -> sums_to b x.

(** What every platform has in common: the exponential of a number is a
    number that is not negative, and finite up to 709 (e^709 is below the
    largest number); [np.add.reduce] adds the elements; and the length of
    an array is an integer that binary64 holds exactly. *)
Record ieee (p : Platform) : Prop := {
  libm_exp_number : forall x, is_nan x = false -> is_nan (libm_exp p x) = false;
  libm_exp_sign : forall x, (libm_exp p x <? 0) = false;
  libm_exp_finite : forall x, (x <=? 709) = true -> is_infinity (libm_exp p x) = false;
  add_reduce_sums : forall a, sums_to a (add_reduce p a);
  capacity_exact : (capacity p < 2 ^ 53)%Z
}.

(** The exponential on all of binary64: nan for nan, infinity from 710 on,
    where e^x exceeds the largest number, and 0 up to -746, where e^x is
    below half the smallest one. *)
Definition exp_of (core : float -> float) (x : float) : float :=
  if is_nan x then nan
  else if 710 <=? x then infinity
  else if x <=? -746 then 0
  else core x.

(** [math.exp]: "math range error" when the result overflows, "math domain
    error" when it is nan for an argument that is not. *)
Definition math_exp (p : Platform) (x : float) : result float :=
  let r := exp_of (libm_exp p) x in
  if is_nan r && negb (is_nan x) then Raise ValueError
  else if is_infinity r && is_finite x then Raise OverflowError
  else Ok r.

(** [np.exp] on an array: overflow gives infinity and a warning. *)
Definition np_exp (p : Platform) (a : list float) : list float :=
  map (exp_of (npy_exp p)) a.

(** [math.sqrt]: a negative argument is a math domain error. *)
Definition math_sqrt (x : float) : result float :=
  if x <? 0 then Raise ValueError else Ok (sqrt x).

(** A Python int as a float, rounded to nearest; too large an int is an
    [OverflowError]. *)
Definition float_of_int (n : Z) : result float :=
  if decide (Z.abs n < 2 ^ 63)%Z then
    let x := of_uint63 (Uint63.of_Z (Z.abs n)) in
    Ok (if decide (n < 0)%Z then - x else x)
  else
    let x := FloatOps.SF2Prim (SpecFloat.binary_normalize FloatOps.prec FloatOps.emax n 0 false) in
    if is_infinity x then Raise OverflowError else Ok x.

(** [x / n] on a Python float and a Python int. *)
Definition float_div (x : float) (n : Z) : result float :=
  d ← float_of_int n;
  if d =? 0 then Raise ZeroDivisionError else Ok (x / d).

(** [s ** 2]: a Python float raises when the square overflows, a
    [numpy.float64] gives infinity and a warning. The power of the C
    library is taken as the rounded square. *)
Definition float_pow2 (s : scalar) : result float :=
  match s with
  | Float x =>
      let y := x * x in
      if is_infinity y && is_finite x then Raise OverflowError else Ok y
  | Float64 x => Ok (x * x)
  end.

(** [np.ones(n)] and [np.zeros(n)]: negative dimensions are refused, and
    an array that does not fit is a [MemoryError]. *)
Definition np_full (p : Platform) (x : float) (n : Z) : result (list float) :=
  if decide (n < 0)%Z then Raise ValueError
  else if decide (capacity p < n)%Z then Raise MemoryError
  else Ok (repeat x (Z.to_nat n)).

Definition np_ones (p : Platform) (n : Z) : result (list float) := np_full p 1 n.
Definition np_zeros (p : Platform) (n : Z) : result (list float) := np_full p 0 n.

(** [range(n)], a list in Python 2. *)
Definition range (p : Platform) (n : Z) : result (list nat) :=
  if decide (capacity p < n)%Z then Raise MemoryError
  else Ok (seq 0 (Z.to_nat n)).

(** [np.mean] of a one-dimensional array: the sum over the length; on an
    empty array 0.0/0 is nan (and a warning). *)
Definition np_mean (p : Platform) (a : list float) : float :=
  add_reduce p a / of_uint63 (Uint63.of_Z (Z.of_nat (length a))).

(** [np.maximum(a, b)] on two numbers: [a] when it is nan or [a >= b],
    else [b]. *)
Definition maximum (a b : float) : float :=
  if (b <=? a) || is_nan a then a else b.

(** [np.maximum], [*], [+] on two arrays of one shape. *)
Definition np_maximum (a b : list float) : list float := zip_with maximum a b.
Definition np_mul (a b : list float) : list float := zip_with mul a b.
Definition np_add (a b : list float) : list float := zip_with add a b.

Section Draws.

Variable p : Platform.

(** The random draws: [normal j k] is component [k] of the array that the
    [j]-th call of [np.random.standard_normal] returns. *)
Variable normal : nat -> nat -> float.

Definition standard_normal (j : nat) (paths : Z) : list float :=
  map (normal j) (seq 0 (Z.to_nat paths)).

(** One iteration of [for j in range(days)]. *)
Definition day_step (const1 const2 : float) (paths : Z)
    (st : list float * list float) (j : nat) : list float * list float :=
  let '(stock_price, stock_price_sum) := st in
  let growth_factor :=
    map (mul const1) (np_exp p (map (mul const2) (standard_normal j paths))) in
  let stock_price := np_mul stock_price growth_factor in
  let stock_price_sum := np_add stock_price_sum stock_price in
  (stock_price, stock_price_sum).

Definition price_option (S K : float) (sigma : scalar) (r : float) (days paths : Z)
    : result (float * float * float * float) :=
  h ← float_div 1 days;
  sigma2 ← float_pow2 sigma;
  const1 ← math_exp p ((r - 0.5 * sigma2) * h);
  root ← math_sqrt h;
  let const2 := value sigma * root in
  ones ← np_ones p paths;
  let stock_price := map (mul S) ones in
  stock_price_sum ← np_zeros p paths;
  js ← range p days;
  let '(stock_price, stock_price_sum) :=
    fold_left (day_step const1 const2 paths) js (stock_price, stock_price_sum) in
  d ← float_of_int days;
  let stock_price_avg := map (fun x => x / d) stock_price_sum in
  zeros ← np_zeros p paths;
  r_factor ← math_exp p (- r * h * d);
  let euro_put :=
    r_factor * np_mean p (np_maximum zeros (map (sub K) stock_price)) in
  let asian_put :=
    r_factor * np_mean p (np_maximum zeros (map (sub K) stock_price_avg)) in
  let euro_call :=
    r_factor * np_mean p (np_maximum zeros (map (fun x => x - K) stock_price)) in
  let asian_call :=
    r_factor * np_mean p (np_maximum zeros (map (fun x => x - K) stock_price_avg)) in
  Ok (euro_call, euro_put, asian_call, asian_put).

End Draws.

(** The steps that [price_option] takes before the means, when each of
    them returns. *)
Record steps (p : Platform) (sigma : scalar) (r : float) (days paths : Z)
    (h sigma2 const1 root d r_factor : float) : Prop := {
  step_h : float_div 1 days = Ok h;
  step_sigma2 : float_pow2 sigma = Ok sigma2;
  step_const1 : math_exp p ((r - 0.5 * sigma2) * h) = Ok const1;
  step_root : math_sqrt h = Ok root;
  step_paths : (0 <= paths <= capacity p)%Z;
  step_days : (days <= capacity p)%Z;
  step_d : float_of_int days = Ok d;
  step_r_factor : math_exp p (- r * h * d) = Ok r_factor
}.

(** The arguments that [price_option] gives to [math.exp], at [const1] and
    at [r_factor]. *)
Definition exp_arguments (sigma : scalar) (r : float) (days : Z)
    : result (float * float) :=
  h ← float_div 1 days;
  sigma2 ← float_pow2 sigma;
  d ← float_of_int days;
  Ok ((r - 0.5 * sigma2) * h, - r * h * d).

(** Both arguments are at most 709, where the exponential is finite. *)
Definition exp_in_range (sigma : scalar) (r : float) (days : Z) : bool :=
  match exp_arguments sigma r days with
  | Ok (x1, x2) => (x1 <=? 709) && (x2 <=? 709)
  | Raise _ => false
  end.

(** A platform that meets [ieee], to show that its laws can be met
    together: the sums run from left to right from 0.0 and arrays hold up
    to 2^31 - 1 elements. Between the thresholds of [exp_of] its
    exponentials are the constant 1, which is the exponential of no C
    library. *)
Definition sample_platform : Platform :=
  {| libm_exp := fun _ => 1;
     npy_exp := fun _ => 1;
     add_reduce := fun a => fold_left add a 0;
     capacity := 2 ^ 31 - 1 |}.

(** A price that is not negative: a number [>= 0], [+inf] included, or
    nan. *)
Definition never_negative (x : float) : Prop := is_nan x = true \/ (0 <=? x) = true.

End Pricing.

(** ** The cluster: task submission, completion and retrieval

    The notebook hands its tasks to [IPython.parallel]
    ([view.apply_async], [c.wait], [ar.get]); that scheduler is not part of
    the repository's sources. *)

Module Parallel.

(** The handle that [apply_async] gives back; [msg_id] names the unit. *)
Record AsyncResult : Type := { msg_id : nat }.

Section Cluster.

Context {Args Val : Type}.

(** The function that is shipped with every task. *)
Variable task : Args -> result Val.

(** A terminal state of a unit. *)
Inductive outcome : Type :=
| Done (v : Val)
| Failed (e : exn).

Record WorkUnit : Type := { unit_id : nat; unit_args : Args }.

(** Modelled from the spec: the Scheduler's shared state (section 3 and
    4.1), whose code is not in the repository. [PendingQueue] holds the
    units that were submitted and have not finished, in submission order;
    [ResultTable] maps the id of a finished unit to its outcome;
    [executed] logs every run of a unit on a worker, latest first;
    [next_id] is the next unused unit id. *)
Record Cluster : Type := {
  next_id : nat;
  PendingQueue : list WorkUnit;
  ResultTable : gmap nat outcome;
  executed : list nat
}.

Definition new_cluster : Cluster :=
  {| next_id := 0; PendingQueue := []; ResultTable := ∅; executed := [] |}.

(** Modelled from the spec: [submit] for one unit (section 4.1; the
    notebook calls it as [view.apply_async]). The unit gets a fresh id,
    joins the tail of the queue, and its handle is returned at once: no
    result is awaited. *)
Definition apply_async (a : Args) (c : Cluster) : Cluster * AsyncResult :=
  let id := next_id c in
  ({| next_id := S id;
      PendingQueue := PendingQueue c ++ [{| unit_id := id; unit_args := a |}];
      ResultTable := ResultTable c;
      executed := executed c |},
   {| msg_id := id |}).

(** Modelled from the spec: a Worker executing a unit (section 2 and 4.1).
    A raised exception is caught and becomes the unit's outcome. *)
Definition run_unit (u : WorkUnit) : outcome :=
  match task (unit_args u) with
  | Ok v => Done v
  | Raise e => Failed e
  end.

(** Modelled from the spec: [on_worker_result] (section 4.1). The unit
    [id] leaves the queue, whatever its outcome, and the outcome is
    recorded; a unit that is not outstanding is ignored. Any outstanding
    unit may be the next to finish. *)
Definition complete (id : nat) (c : Cluster) : Cluster :=
  match List.find (fun u => Nat.eqb (unit_id u) id) (PendingQueue c) with
  | None => c
  | Some u =>
      {| next_id := next_id c;
         PendingQueue := filter (fun u' => unit_id u' ≠ id) (PendingQueue c);
         ResultTable := <[id := run_unit u]> (ResultTable c);
         executed := id :: executed c |}
  end.

(** Modelled from the spec: the terminal states of a Handle (section 4.1
    and 9). A handle is terminal when its unit has an outcome, [Done] or
    [Failed]. *)
Definition ready (c : Cluster) (ar : AsyncResult) : bool :=
  match ResultTable c !! msg_id ar with
  | Some _ => true
  | None => false
  end.

(** Modelled from the spec: [wait_all] (section 4.1; the notebook calls it
    as [c.wait]). [arrivals] lists the units in the order in which their
    workers will report; the caller takes them one at a time until every
    given handle is terminal. [None]: the caller is still suspended when
    nothing more arrives. *)
Fixpoint wait (jobs : list AsyncResult) (arrivals : list nat) (c : Cluster)
    : option (Cluster * list nat) :=
  if forallb (ready c) jobs then Some (c, arrivals)
  else match arrivals with
       | [] => None
       | id :: rest => wait jobs rest (complete id c)
       end.

(** Modelled from the spec: inspecting a handle (section 7 and 9; the
    notebook calls it as [ar.get]). It waits for the handle, then returns
    the value of a [Done] unit and raises the error of a [Failed] one,
    wrapped as [RemoteError]. *)
Definition get (ar : AsyncResult) (arrivals : list nat) (c : Cluster)
    : option (Cluster * list nat * result Val) :=
  '(c', rest) ← wait [ar] arrivals c;
  o ← ResultTable c' !! msg_id ar;
  Some (c', rest,
        match o with
        | Done v => Ok v
        | Failed e => Raise (RemoteError e)
        end).

(** The workers report the units [ids], in this order. *)
Definition deliver (ids : list nat) (c : Cluster) : Cluster :=
  fold_left (fun c id => complete id c) ids c.

(** Modelled from the spec: [submit] for a sequence of units (section
    4.1): one [apply_async] per unit, in order, one handle per unit. *)
Definition submit (units : list Args)
    (st : Cluster * list AsyncResult) : Cluster * list AsyncResult :=
  fold_left (fun st a =>
               let '(c, handles) := st in
               let '(c, ar) := apply_async a c in
               (c, handles ++ [ar]))
            units st.

(** The units that the arguments [argss] become when they are submitted
    to a cluster whose next id is [first]. *)
Definition units_from (first : nat) (argss : list Args) : list WorkUnit :=
  zip_with (fun id a => {| unit_id := id; unit_args := a |})
           (seq first (length argss)) argss.

(** The states that a new cluster reaches when the units [units] (unit
    [k] carrying the id [k]) have been submitted and some of them have
    finished. *)
Record consistent (units : list WorkUnit) (c : Cluster) : Prop := {
  ids_in_order : forall k u, units !! k = Some u -> unit_id u = k;
  ids_fresh : next_id c = length units;
  queue_spec :
    PendingQueue c = filter (fun u => ResultTable c !! unit_id u = None) units;
  table_spec :
    forall id o, ResultTable c !! id = Some o ->
                 exists u, units !! id = Some u /\ o = run_unit u;
  log_nodup : NoDup (executed c);
  log_spec : forall id, id ∈ executed c <-> is_Some (ResultTable c !! id)
}.

(** The handles of the units [first], ..., [first + n - 1]. *)
Definition handles_from (first n : nat) : list AsyncResult :=
  map (fun id => {| msg_id := id |}) (seq first n).

(** Each of the units [first], ..., [first + n - 1] is among the reports. *)
Definition covered (first n : nat) (arrivals : list nat) : Prop :=
  Forall (fun id => id ∈ arrivals) (seq first n).

Definition is_failed (o : outcome) : bool :=
  match o with
  | Failed _ => true
  | Done _ => false
  end.

(** The number of [Failed] units in the table. *)
Definition failed_count (c : Cluster) : nat :=
  length (List.filter (fun p : nat * outcome => is_failed p.2)
                      (map_to_list (ResultTable c))).

End Cluster.

Arguments outcome : clear implicits.
Arguments WorkUnit : clear implicits.
Arguments Cluster : clear implicits.
Arguments new_cluster {Args Val}.
Arguments Done {Val} v.
Arguments Failed {Val} e.
Arguments is_failed {Val} o.
Arguments handles_from first n : clear implicits.
Arguments covered first n arrivals : clear implicits.

End Parallel.

(** ** The notebook's cells *)

Module Notebook.

Import Parallel.

(** [for x in l: s = body(s, x)], stopping at the first exception. *)
Fixpoint for_each {A St : Type} (body : St -> A -> result St) (l : list A) (s : St)
    : result St :=
  match l with
  | [] => Ok s
  | x :: rest => s' ← body s x; for_each body rest s'
  end.

(** [enumerate(l)]. *)
Definition enumerate {A : Type} (l : list A) : list (nat * A) :=
  zip (seq 0 (length l)) l.

Section Cells.

(** [F]: the Python floats of the parameters; [P]: the prices in a result. *)
Context {F P : Type}.

(** The 4-tuple (E. call, E. put, A. call, A. put). *)
Definition quote : Type := P * P * P * P.

(** The structured array [prices]: its shape and its records in C order;
    a record that [np.empty] left unwritten is [None]. *)
Record recarray : Type := { shape : list nat; cells : list (option quote) }.

(** The values that the notebook binds to names. *)
Inductive pyval : Type :=
| PyFloat (x : F)
| PyInt (n : Z)
| PyNdarray (a : list F)
| PyTuple (t : quote)
| PyAsyncResult (ar : AsyncResult)
| PyHandles (l : list AsyncResult)
| PyList (l : list quote)
| PyRecarray (a : recarray).

(** The pricing function that the tasks run. *)
Variable price_option : F -> F -> F -> F -> Z -> Z -> result quote.

(** The call of [price_option] on an engine, with the submitted arguments. *)
Definition call_price_option (args : list pyval) : result quote :=
  match args with
  | [PyFloat S0; PyFloat K; PyFloat sigma; PyFloat r; PyInt days; PyInt paths] =>
      price_option S0 K sigma r days paths
  | _ => Raise TypeError
  end.

(** The interactive namespace, the cluster behind the client [c], and the
    order in which the outstanding units will report. *)
Record Notebook : Type := {
  globals : gmap string pyval;
  cluster : Cluster (list pyval) quote;
  network : list nat
}.

(** A cell either finishes, or raises, or never returns ([None]). *)
Definition cell_bind (m : option (result Notebook))
    (k : Notebook -> option (result Notebook)) : option (result Notebook) :=
  match m with
  | Some (Ok nb) => k nb
  | Some (Raise e) => Some (Raise e)
  | None => None
  end.

(** Reading a name. *)
Definition name (x : string) (g : gmap string pyval) : result pyval :=
  match g !! x with
  | Some v => Ok v
  | None => Raise (NameError x)
  end.

Definition as_int (v : pyval) : result Z :=
  match v with PyInt n => Ok n | _ => Raise TypeError end.
Definition as_ndarray (v : pyval) : result (list F) :=
  match v with PyNdarray a => Ok a | _ => Raise TypeError end.
Definition as_handles (v : pyval) : result (list AsyncResult) :=
  match v with PyHandles l => Ok l | _ => Raise TypeError end.
Definition as_list (v : pyval) : result (list quote) :=
  match v with PyList l => Ok l | _ => Raise TypeError end.
Definition as_recarray (v : pyval) : result recarray :=
  match v with PyRecarray a => Ok a | _ => Raise TypeError end.

(** *** Parameters and axes

    [price = ...] to [sigma_vals = np.linspace(...)]: the names that the
    later cells read. [n_strikes] and [n_sigmas] are the lengths of the two
    axes, as [np.linspace] makes them. *)
Definition setup (price rate : F) (days paths : Z)
    (strike_vals sigma_vals : list F) : gmap string pyval :=
  <["sigma_vals" := PyNdarray sigma_vals]>
  (<["strike_vals" := PyNdarray strike_vals]>
  (<["n_sigmas" := PyInt (Z.of_nat (length sigma_vals))]>
  (<["n_strikes" := PyInt (Z.of_nat (length strike_vals))]>
  (<["paths" := PyInt paths]>
  (<["days" := PyInt days]>
  (<["rate" := PyFloat rate]>
  (<["price" := PyFloat price]> ∅))))))).

(** *** Submission

    [ar = view.apply_async(price_option, price, strike, sigma, rate, days,
    paths); async_results.append(ar)]. The cell runs under [%%timeit], so
    [strike], [sigma] and [ar] are local and only [async_results] is
    written to the namespace. *)
Definition submit_sigma (g : gmap string pyval) (strike : F)
    (st : Cluster (list pyval) quote * list AsyncResult) (sigma : F)
    : result (Cluster (list pyval) quote * list AsyncResult) :=
  price ← name "price" g;
  rate ← name "rate" g;
  days ← name "days" g;
  paths ← name "paths" g;
  let '(c, async_results) := st in
  let '(c, ar) :=
    apply_async [price; PyFloat strike; PyFloat sigma; rate; days; paths] c in
  Ok (c, async_results ++ [ar]).

(** [for sigma in sigma_vals: ...] *)
Definition submit_strike (g : gmap string pyval)
    (st : Cluster (list pyval) quote * list AsyncResult) (strike : F)
    : result (Cluster (list pyval) quote * list AsyncResult) :=
  sigma_vals ← name "sigma_vals" g ≫= as_ndarray;
  for_each (submit_sigma g strike) sigma_vals st.

(** [async_results = []; for strike in strike_vals: ...] *)
Definition submit_tasks (g : gmap string pyval) (c : Cluster (list pyval) quote)
    : result (Cluster (list pyval) quote * list AsyncResult) :=
  strike_vals ← name "strike_vals" g ≫= as_ndarray;
  for_each (submit_strike g) strike_vals (c, []).

(** The whole cell, ending with [c.wait(async_results)]. *)
Definition cell_submit (nb : Notebook) : option (result Notebook) :=
  match submit_tasks (globals nb) (cluster nb) with
  | Raise e => Some (Raise e)
  | Ok (c, async_results) =>
      match wait call_price_option async_results (network nb) c with
      | None => None
      | Some (c', rest) =>
          Some (Ok {| globals := <["async_results" := PyHandles async_results]> (globals nb);
                      cluster := c';
                      network := rest |})
      end
  end.

(** *** Retrieval

    [results = [ar.get() for ar in async_results]]: the handles are
    visited in submission order and the first exception ends the
    comprehension. *)
Fixpoint get_all (ars : list AsyncResult) (arrivals : list nat)
    (c : Cluster (list pyval) quote)
    : option (Cluster (list pyval) quote * list nat * result (list quote)) :=
  match ars with
  | [] => Some (c, arrivals, Ok [])
  | ar :: ars' =>
      '(c1, arrivals1, r) ← get call_price_option ar arrivals c;
      match r with
      | Raise e => Some (c1, arrivals1, Raise e)
      | Ok v =>
          '(c2, arrivals2, rs) ← get_all ars' arrivals1 c1;
          Some (c2, arrivals2,
                match rs with Ok l => Ok (v :: l) | Raise e => Raise e end)
      end
  end.

(** In Python 2 the comprehension's variable [ar] stays bound to the last
    handle. *)
Definition bind_last (ars : list AsyncResult) (g : gmap string pyval)
    : gmap string pyval :=
  match last ars with
  | Some ar => <["ar" := PyAsyncResult ar]> g
  | None => g
  end.

Definition cell_results (nb : Notebook) : option (result Notebook) :=
  match name "async_results" (globals nb) ≫= as_handles with
  | Raise e => Some (Raise e)
  | Ok ars =>
      match get_all ars (network nb) (cluster nb) with
      | None => None
      | Some (_, _, Raise e) => Some (Raise e)
      | Some (c', rest, Ok results) =>
          Some (Ok {| globals := <["results" := PyList results]> (bind_last ars (globals nb));
                      cluster := c';
                      network := rest |})
      end
  end.

(** *** Assembly *)

(** [np.empty(n, dtype=[('ecall',float),...])]. *)
Definition np_empty (n : Z) : result recarray :=
  if decide (n < 0)%Z then Raise ValueError
  else Ok {| shape := [Z.to_nat n]; cells := repeat None (Z.to_nat n) |}.

(** [a[i] = t] on the flat array. *)
Definition setitem (a : recarray) (i : nat) (t : quote) : result recarray :=
  if decide (i < length (cells a)) then
    Ok {| shape := shape a; cells := <[i := Some t]> (cells a) |}
  else Raise IndexError.

(** [a.shape = (n, m)]: the size must stay the same (the wildcard [-1] of
    [numpy] is not modelled; a negative dimension is refused). *)
Definition set_shape (a : recarray) (n m : Z) : result recarray :=
  if decide (0 ≤ n ∧ 0 ≤ m ∧ n * m = Z.of_nat (length (cells a)))%Z then
    Ok {| shape := [Z.to_nat n; Z.to_nat m]; cells := cells a |}
  else Raise ValueError.

(** One iteration of [for i, price in enumerate(results): prices[i] =
    tuple(price)]: the loop binds the names [i] and [price]. *)
Definition assemble_step (g : gmap string pyval) (ip : nat * quote)
    : result (gmap string pyval) :=
  let '(i, price) := ip in
  let g := <["price" := PyTuple price]> (<["i" := PyInt (Z.of_nat i)]> g) in
  prices ← name "prices" g ≫= as_recarray;
  prices ← setitem prices i price;
  Ok (<["prices" := PyRecarray prices]> g).

Definition assemble (g : gmap string pyval) : result (gmap string pyval) :=
  n_strikes ← name "n_strikes" g ≫= as_int;
  n_sigmas ← name "n_sigmas" g ≫= as_int;
  prices ← np_empty (n_strikes * n_sigmas);
  let g := <["prices" := PyRecarray prices]> g in
  results ← name "results" g ≫= as_list;
  g ← for_each assemble_step (enumerate results) g;
  prices ← name "prices" g ≫= as_recarray;
  n_strikes ← name "n_strikes" g ≫= as_int;
  n_sigmas ← name "n_sigmas" g ≫= as_int;
  prices ← set_shape prices n_strikes n_sigmas;
  Ok (<["prices" := PyRecarray prices]> g).

Definition cell_assemble (nb : Notebook) : option (result Notebook) :=
  match assemble (globals nb) with
  | Raise e => Some (Raise e)
  | Ok g => Some (Ok {| globals := g; cluster := cluster nb; network := network nb |})
  end.

(** *** The run *)

(** The notebook before the submission cell: the namespace after the
    parameter cells, the cluster [c] behind the client (new, or left by
    earlier submissions), and the reports to come. *)
Definition start (price rate : F) (days paths : Z)
    (strike_vals sigma_vals : list F)
    (c : Cluster (list pyval) quote) (arrivals : list nat) : Notebook :=
  {| globals := setup price rate days paths strike_vals sigma_vals;
     cluster := c;
     network := arrivals |}.

(** Submission, retrieval, assembly. *)
Definition run (nb : Notebook) : option (result Notebook) :=
  cell_bind (cell_bind (cell_submit nb) cell_results) cell_assemble.

(** What the run leaves behind: the namespace, or an exception; [None]
    when it never returns. *)
Definition run_globals (nb : Notebook) : option (result (gmap string pyval)) :=
  match run nb with
  | Some (Ok nb') => Some (Ok (globals nb'))
  | Some (Raise e) => Some (Raise e)
  | None => None
  end.

(** [prices[i][j]] (or [prices[i, j]]) once the array is two-dimensional. *)
Definition grid_cell (a : recarray) (i j : nat) : option quote :=
  match shape a with
  | [n; m] =>
      if decide (i < n ∧ j < m) then mjoin (cells a !! (i * m + j)) else None
  | _ => None
  end.

(** The Grid of a namespace: the array bound to [prices]. *)
Definition Grid (g : gmap string pyval) : option recarray :=
  match g !! "prices" with
  | Some (PyRecarray a) => Some a
  | _ => None
  end.

(** The arguments of the task for one (strike, volatility) pair. *)
Definition task_args (price rate days paths : pyval) (strike sigma : F)
    : list pyval :=
  [price; PyFloat strike; PyFloat sigma; rate; days; paths].

(** The argument lists of the whole grid in row-major order: the strike
    is the outer index, the volatility the inner one. *)
Definition grid_args (price rate days paths : pyval)
    (strike_vals sigma_vals : list F) : list (list pyval) :=
  flat_map (fun strike => map (task_args price rate days paths strike) sigma_vals)
           strike_vals.

End Cells.

Arguments quote : clear implicits.
Arguments recarray : clear implicits.
Arguments pyval : clear implicits.
Arguments Notebook : clear implicits.

End Notebook.

(** ** The two test scenarios of the specification *)

Module Scenario.

Import Parallel Notebook.
Import PrimFloat.

Definition strike_axis : list PrimFloat.float := [90; 100; 110]%float.
Definition sigma_axis : list PrimFloat.float := [0.1; 0.25; 0.4]%float.

(** The stubbed pricing function: it returns (strike, sigma, strike, sigma). *)
Definition stub (S0 K sigma r : PrimFloat.float) (days paths : Z)
    : result (quote PrimFloat.float) :=
  Ok (K, sigma, K, sigma).

(** The stub that raises for one unit, the one at strike 100 and
    volatility 0.25, and is [stub] elsewhere. *)
Definition raising_stub (S0 K sigma r : PrimFloat.float) (days paths : Z)
    : result (quote PrimFloat.float) :=
  if (PrimFloat.eqb K 100 && PrimFloat.eqb sigma 0.25)%bool
  then Raise (PyException "RuntimeError")
  else stub S0 K sigma r days paths.

(** A three-unit run whose second unit raises. *)
Definition second_raises (n : nat) : result nat :=
  if Nat.eqb n 1 then Raise ValueError else Ok n.

Definition three_units : Cluster nat nat * list AsyncResult :=
  submit [0; 1; 2] (new_cluster, []).

(** An order in which two workers may hand back the nine units. *)
Definition two_workers : list nat := [1; 0; 2; 3; 5; 4; 7; 6; 8].

(** The notebook with the scenario's axes and the notebook's fixed
    parameters. *)
Definition scenario (arrivals : list nat) : Notebook PrimFloat.float PrimFloat.float :=
  start 100%float 0.05%float 260 10000 strike_axis sigma_axis new_cluster arrivals.

End Scenario.

(** ** The notebook from its first submission cell to the plots *)

Module Session.

Import Parallel Notebook.

(** The fields of the dtype of [prices], in the order of the dtype:
    [[('ecall',float),('eput',float),('acall',float),('aput',float)]]. *)
Inductive field : Type := ecall | eput | acall | aput.

Section Cells.

Context {F P : Type}.

Variable price_option : F -> F -> F -> F -> Z -> Z -> result (quote P).

(** [len(async_results)]. *)
Definition cell_len (nb : Notebook F P) : result nat :=
  async_results ← name "async_results" (globals nb) ≫= as_handles;
  Ok (length async_results).

(** The cells in the notebook's order: the submission cell on the view of
    engine 0, then the same cell on the view of all engines, retrieval and
    assembly. The two views differ in the engines that may run the units,
    which shows in the order of the reports only. *)
Definition run_all (nb : Notebook F P) : option (result (Notebook F P)) :=
  cell_bind (cell_submit price_option nb) (run price_option).

(** The field [f] of a record: [prices[i] = tuple(price)] fills the fields
    by position. *)
Definition field_of (f : field) (q : quote P) : P :=
  let '(a, b, c, d) := q in
  match f with
  | ecall => a
  | eput => b
  | acall => c
  | aput => d
  end.

(** [prices[f][i][j]], as the plots read it: [prices[f]] has the shape of
    [prices]. *)
Definition field_cell (f : field) (a : recarray P) (i j : nat) : option P :=
  field_of f <$> grid_cell a i j.

End Cells.

Section Engines.

(** The platform of the engines. *)
Variable p : Pricing.Platform.

(** A pricing function of the notebook is the one that the engines run
    when each of its outcomes is an outcome of [price_option] on the
    arguments of the call, for the draws of that call. The strike and the
    volatility of a call are elements of the arrays [strike_vals] and
    [sigma_vals]: [sigma] is a [numpy.float64]. *)
Definition on_engine
    (f : PrimFloat.float -> PrimFloat.float -> PrimFloat.float -> PrimFloat.float
         -> Z -> Z -> result (quote PrimFloat.float)) : Prop :=
  forall S K sigma r days paths, exists normal,
    f S K sigma r days paths
    = Pricing.price_option p normal S K (Pricing.Float64 sigma) r days paths.

End Engines.

End Session.


(* ===================================================================== *)
(** * Part II: lemmas and theorems                                        *)
(* ===================================================================== *)

Lemma bind_Ok {A B : Type} (a : A) (k : A -> result B) : (Ok a ≫= k) = k a.
Proof. reflexivity. Qed.

Lemma bind_Raise {A B : Type} (e : exn) (k : A -> result B) :
  (Raise e ≫= k) = Raise e.
Proof. reflexivity. Qed.

(** ** Binary64 arithmetic *)

Module Binary64Facts.

Import PrimFloat SpecFloat FloatOps FloatAxioms Binary64.
Local Open Scope Z_scope.

(** The result of a rounding has the sign it was given. *)
Lemma binary_round_aux_sign (sx : bool) (mx ex : Z) (lx : location) :
  match binary_round_aux prec emax sx mx ex lx with
  | S754_zero s | S754_infinity s | S754_finite s _ _ => s = sx
  | S754_nan => True
  end.
Proof.
  unfold binary_round_aux.
  destruct (shr_fexp prec emax mx ex lx) as [mrs' e'].
  destruct (shr_fexp prec emax _ e' loc_Exact) as [mrs'' e''].
  destruct (shr_m mrs''); [done | | done].
  by destruct (_ <=? _).
Qed.

Lemma ltb_zero (x : float) :
  PrimFloat.ltb x 0 = negb (not_negative (Prim2SF x)).
Proof.
  rewrite ltb_spec. change (Prim2SF 0) with (S754_zero false).
  destruct (Prim2SF x) as [s | [] | | [] m e]; reflexivity.
Qed.

Lemma ltb_zero_false (x : float) :
  PrimFloat.ltb x 0 = false <-> not_negative (Prim2SF x) = true.
Proof. rewrite ltb_zero. by destruct (not_negative _). Qed.

Lemma leb_ltb_zero (x : float) :
  PrimFloat.leb x 0 = false -> PrimFloat.ltb x 0 = false.
Proof.
  rewrite leb_spec, ltb_spec. unfold SFleb, SFltb.
  by destruct (SFcompare _ _) as [[]|].
Qed.

Lemma is_nan_spec (x : float) :
  is_nan x = match Prim2SF x with S754_nan => true | _ => false end.
Proof.
  unfold is_nan. rewrite eqb_spec. unfold SFeqb.
  assert (Hrefl : forall s m e, SFcompare (S754_finite s m e) (S754_finite s m e) = Some Eq).
  { intros s m e. simpl. rewrite Z.compare_refl, Pos.compare_cont_refl. by destruct s. }
  destruct (Prim2SF x) as [s | [] | | s m e]; try reflexivity.
  by rewrite Hrefl.
Qed.

Lemma leb_zero (x : float) :
  not_negative (Prim2SF x) = true -> is_nan x = true \/ PrimFloat.leb 0 x = true.
Proof.
  rewrite is_nan_spec, leb_spec. change (Prim2SF 0) with (S754_zero false).
  destruct (Prim2SF x) as [s | [] | | [] m e]; try done; auto.
Qed.

Lemma mul_not_negative (x y : float) :
  PrimFloat.ltb x 0 = false -> PrimFloat.ltb y 0 = false ->
  PrimFloat.ltb (x * y) 0 = false.
Proof.
  rewrite !ltb_zero_false, mul_spec. unfold SF64mul, SFmul.
  destruct (Prim2SF x) as [sx | [] | | [] mx ex],
           (Prim2SF y) as [sy | [] | | [] my ey]; try done.
  intros _ _. simpl xorb.
  pose proof (binary_round_aux_sign false (Z.pos (mx * my)) (ex + ey) loc_Exact) as H.
  destruct (binary_round_aux _ _ _ _ _ _); try done; by subst.
Qed.

Lemma add_not_negative (x y : float) :
  PrimFloat.ltb x 0 = false -> PrimFloat.ltb y 0 = false ->
  PrimFloat.ltb (x + y) 0 = false.
Proof.
  rewrite !ltb_zero_false, add_spec. unfold SF64add, SFadd.
  destruct (Prim2SF x) as [[] | [] | | [] mx ex],
           (Prim2SF y) as [[] | [] | | [] my ey]; try done.
  intros _ _. cbn [cond_Zopp].
  set (a := (shl_align mx ex _).1). set (b := (shl_align my ey _).1).
  change (Z.pos a + Z.pos b) with (Z.pos (a + b)). clearbody a b.
  unfold binary_normalize, binary_round.
  destruct (shl_align _ _ _) as [mz ez].
  pose proof (binary_round_aux_sign false (Z.pos mz) ez loc_Exact) as H.
  destruct (binary_round_aux _ _ _ _ _ _); try done; by subst.
Qed.

Lemma div_not_negative (x y : float) :
  PrimFloat.ltb x 0 = false -> sign_plus (Prim2SF y) = true ->
  PrimFloat.ltb (x / y) 0 = false.
Proof.
  rewrite !ltb_zero_false, div_spec. unfold SF64div, SFdiv.
  destruct (Prim2SF x) as [sx | [] | | [] mx ex],
           (Prim2SF y) as [[] | [] | | [] my ey]; try done.
  intros _ _. simpl xorb.
  destruct (SFdiv_core_binary _ _ _ _ _ _) as [[mz ez] lz].
  pose proof (binary_round_aux_sign false mz ez lz) as H.
  destruct (binary_round_aux _ _ _ _ _ _); try done; by subst.
Qed.

Lemma of_uint63_sign_plus (n : PrimInt63.int) :
  sign_plus (Prim2SF (of_uint63 n)) = true.
Proof.
  rewrite of_uint63_spec. unfold binary_normalize.
  pose proof (Uint63.to_Z_bounded n) as Hn.
  destruct (Uint63Axioms.to_Z n) as [|m|m]; [done | | lia].
  unfold binary_round. destruct (shl_align _ _ _) as [mz ez].
  pose proof (binary_round_aux_sign false (Z.pos mz) ez loc_Exact) as H.
  destruct (binary_round_aux _ _ _ _ _ _); try done; by subst.
Qed.

Lemma is_nan_nan (x : float) : is_nan x = true -> x = nan.
Proof.
  rewrite is_nan_spec. intros H. apply Prim2SF_inj.
  change (Prim2SF nan) with S754_nan. by destruct (Prim2SF x).
Qed.




(** *** The order *)

Lemma SFleb_gap (x : spec_float) (a b : positive) (e : Z) :
  (a < b)%positive ->
  SFleb x (S754_finite false a e) = true ->
  SFleb (S754_finite false b e) x = false.
Proof.
  intros Hab. unfold SFleb, SFcompare.
  destruct x as [s | [] | | [] m e']; try done.
  rewrite (Z.compare_antisym e' e).
  destruct (e' ?= e)%Z; try done. cbn [CompOpp].
  change (PosDef.Pos.compare_cont Eq m a) with (m ?= a)%positive.
  change (PosDef.Pos.compare_cont Eq b m) with (b ?= m)%positive.
  destruct (Pos.compare_spec m a), (Pos.compare_spec b m); try done; lia.
Qed.

Lemma leb_not_nan (x y : float) : PrimFloat.leb x y = true -> is_nan x = false.
Proof.
  rewrite leb_spec, is_nan_spec. by destruct (Prim2SF x).
Qed.

Lemma is_finite_not_nan (x : float) : is_finite x = true -> is_nan x = false.
Proof. unfold is_finite. by destruct (is_nan x). Qed.

(** *** Integers as floats *)

Lemma digits2_pos_lower (p : positive) :
  2 ^ (Z.pos (digits2_pos p) - 1) <= Z.pos p.
Proof.
  induction p as [p IH | p IH |]; cbn [digits2_pos].
  - rewrite Pos2Z.inj_succ.
    replace (Z.succ (Z.pos (digits2_pos p)) - 1)
      with (Z.succ (Z.pos (digits2_pos p) - 1)) by lia.
    rewrite Z.pow_succ_r by lia. lia.
  - rewrite Pos2Z.inj_succ.
    replace (Z.succ (Z.pos (digits2_pos p)) - 1)
      with (Z.succ (Z.pos (digits2_pos p) - 1)) by lia.
    rewrite Z.pow_succ_r by lia. lia.
  - simpl. lia.
Qed.

Lemma digits2_pos_small (p : positive) :
  Z.pos p < 2 ^ 53 -> Z.pos (digits2_pos p) <= 53.
Proof.
  intros Hp. pose proof (digits2_pos_lower p) as Hlow.
  destruct (Z_le_gt_dec (Z.pos (digits2_pos p)) 53) as [|Hgt]; [done |].
  assert (2 ^ 53 <= 2 ^ (Z.pos (digits2_pos p) - 1)) by (apply Z.pow_le_mono_r; lia).
  lia.
Qed.

Lemma digits2_pos_iter (p k : positive) :
  digits2_pos (Pos.iter xO p k) = (digits2_pos p + k)%positive.
Proof.
  induction k as [|k IH] using Pos.peano_ind.
  - simpl. lia.
  - rewrite Pos.iter_succ. cbn [digits2_pos]. rewrite IH. lia.
Qed.

(** A mantissa of 53 digits needs no rounding. *)
Lemma shr_fexp_canonical (m : positive) (e : Z) :
  Z.pos (digits2_pos m) = 53 -> -1074 <= e ->
  shr_fexp prec emax (Z.pos m) e loc_Exact
  = ({| shr_m := Z.pos m; shr_r := false; shr_s := false |}, e).
Proof.
  intros Hd He. unfold shr_fexp, Zdigits2, fexp, SpecFloat.emin.
  rewrite Hd. change prec with 53. change emax with 1024.
  replace (Z.max (53 + e - 53) (3 - 1024 - 53) - e) with 0 by lia.
  reflexivity.
Qed.

Lemma binary_round_aux_canonical (s : bool) (m : positive) (e : Z) :
  Z.pos (digits2_pos m) = 53 -> -1074 <= e <= 971 ->
  binary_round_aux prec emax s (Z.pos m) e loc_Exact = S754_finite s m e.
Proof.
  intros Hd He. unfold binary_round_aux.
  rewrite shr_fexp_canonical by (done || lia).
  cbn [shr_m loc_of_shr_record round_nearest_even].
  rewrite shr_fexp_canonical by (done || lia). cbn [shr_m].
  change (emax - prec) with 971.
  destruct (Z.leb_spec e 971); [done | lia].
Qed.

(** A positive integer below 2^53 is a positive number of binary64. *)
Lemma binary_normalize_small (n : Z) :
  1 <= n < 2 ^ 53 ->
  exists m e, binary_normalize prec emax n 0 false = S754_finite false m e.
Proof.
  intros [Hn1 Hn]. destruct n as [|p|p]; [lia | | lia].
  pose proof (digits2_pos_small p Hn) as Hd.
  unfold binary_normalize, binary_round, shl_align, fexp, SpecFloat.emin.
  change prec with 53. change emax with 1024.
  set (d := Z.pos (digits2_pos p)) in *.
  assert (Hd1 : 1 <= d) by (unfold d; lia).
  replace (Z.max (d + 0 - 53) (3 - 1024 - 53) - 0) with (d - 53) by lia.
  replace (Z.max (d + 0 - 53) (3 - 1024 - 53)) with (d - 53) by lia.
  destruct (d - 53) as [|k|k] eqn:Hk; [| lia |].
  - eexists _, _. apply binary_round_aux_canonical; [unfold d in *; lia | lia].
  - eexists _, _. apply binary_round_aux_canonical; [| lia].
    rewrite digits2_pos_iter. unfold d in *. lia.
Qed.

Lemma of_uint63_small (n : Z) :
  1 <= n < 2 ^ 53 ->
  exists m e, Prim2SF (of_uint63 (Uint63.of_Z n)) = S754_finite false m e.
Proof.
  intros Hn. rewrite of_uint63_spec.
  change (Uint63Axioms.to_Z (Uint63.of_Z n)) with (Uint63.to_Z (Uint63.of_Z n)).
  rewrite Uint63.of_Z_spec, Z.mod_small.
  - by apply binary_normalize_small.
  - change Uint63.wB with (2 ^ 63). split; [lia |].
    assert (2 ^ 53 < 2 ^ 63) by (by apply Z.pow_lt_mono_r). lia.
Qed.

End Binary64Facts.

(** ** The pricing function *)

Module PricingFacts.

Import PrimFloat SpecFloat FloatOps FloatAxioms.
Import Binary64 Binary64Facts Pricing.

Implicit Types (p : Platform) (x y : float) (a b : list float) (n : Z).

(** *** The steps that can raise *)

Lemma float_of_int_small n :
  (1 <= n < 2 ^ 53)%Z ->
  exists d m e, float_of_int n = Ok d /\ Prim2SF d = S754_finite false m e.
Proof.
  intros Hn. destruct (of_uint63_small n Hn) as (m & e & Hd).
  assert (2 ^ 53 < 2 ^ 63)%Z by (by apply Z.pow_lt_mono_r).
  unfold float_of_int. rewrite Z.abs_eq by lia.
  rewrite decide_True by lia. rewrite decide_False by lia. eauto.
Qed.

Lemma float_div_zero x : float_div x 0 = Raise ZeroDivisionError.
Proof. reflexivity. Qed.

Lemma float_div_small x n :
  (1 <= n < 2 ^ 53)%Z -> (x <? 0)%float = false ->
  exists d h, float_of_int n = Ok d /\ float_div x n = Ok h /\ (h <? 0)%float = false.
Proof.
  intros Hn Hx. destruct (float_of_int_small n Hn) as (d & m & e & Hd & Hsf).
  exists d, (x / d)%float. split; [done |]. split.
  - unfold float_div. rewrite Hd, bind_Ok.
    rewrite eqb_spec, Hsf. reflexivity.
  - apply div_not_negative; [done | by rewrite Hsf].
Qed.

Lemma math_sqrt_ok x : (x <? 0)%float = false -> math_sqrt x = Ok (sqrt x).
Proof. intros Hx. unfold math_sqrt. by rewrite Hx. Qed.

Lemma float_pow2_cases (s : scalar) :
  float_pow2 s = Raise OverflowError \/ exists y, float_pow2 s = Ok y.
Proof.
  destruct s as [x | x]; simpl; [| by eauto].
  destruct (_ && _); eauto.
Qed.

(** [math.exp] returns a number that is not negative, or raises
    [OverflowError]. *)
Lemma math_exp_cases p x :
  ieee p ->
  math_exp p x = Raise OverflowError
  \/ exists y, math_exp p x = Ok y /\ (y <? 0)%float = false.
Proof.
  intros Hp. unfold math_exp, exp_of.
  destruct (is_nan x) eqn:Hnan; [right; by exists nan |].
  destruct (710 <=? x)%float.
  { change (is_nan infinity) with false. change (is_infinity infinity) with true.
    cbn [andb negb]. destruct (is_finite x); [by left | right; by exists infinity]. }
  destruct (x <=? -746)%float; [right; by exists 0%float |].
  rewrite (libm_exp_number p Hp x Hnan). cbn [andb].
  destruct (_ && _); [by left | right].
  eexists. split; [done |]. apply (libm_exp_sign p Hp).
Qed.

Lemma math_exp_sign p x y :
  ieee p -> math_exp p x = Ok y -> (y <? 0)%float = false.
Proof.
  intros Hp Hy. destruct (math_exp_cases p x Hp) as [H | (y' & H & Hsign)];
    rewrite H in Hy; [done |]. by injection Hy as <-.
Qed.

(** Up to 709 [math.exp] returns, and from 710 on it overflows. *)
Lemma leb_709_710 x : (x <=? 709)%float = true -> (710 <=? x)%float = false.
Proof. rewrite !leb_spec. by apply SFleb_gap. Qed.

Lemma math_exp_in_range p x :
  ieee p -> (x <=? 709)%float = true ->
  math_exp p x = Ok (exp_of (libm_exp p) x).
Proof.
  intros Hp Hx. unfold math_exp. cbv zeta.
  pose proof (leb_not_nan _ _ Hx) as Hnan.
  unfold exp_of. rewrite Hnan, (leb_709_710 x Hx).
  destruct (x <=? -746)%float; [done |].
  by rewrite (libm_exp_number p Hp x Hnan), (libm_exp_finite p Hp x Hx).
Qed.

Lemma math_exp_overflow p x :
  (710 <=? x)%float = true -> is_finite x = true ->
  math_exp p x = Raise OverflowError.
Proof.
  intros Hx Hfin. unfold math_exp, exp_of.
  by rewrite (is_finite_not_nan x Hfin), Hx, Hfin.
Qed.

Lemma exp_arguments_inv (sigma : scalar) (r : float) (days : Z) (x1 x2 : float) :
  exp_arguments sigma r days = Ok (x1, x2) ->
  exists h sigma2 d,
    float_div 1 days = Ok h /\ float_pow2 sigma = Ok sigma2
    /\ float_of_int days = Ok d
    /\ x1 = ((r - 0.5 * sigma2) * h)%float /\ x2 = (- r * h * d)%float.
Proof.
  unfold exp_arguments.
  destruct (float_div 1 days) as [h|]; [| done]. rewrite bind_Ok.
  destruct (float_pow2 sigma) as [sigma2|]; [| done]. rewrite bind_Ok.
  destruct (float_of_int days) as [d|]; [| done]. rewrite bind_Ok.
  intros [= <- <-]. by exists h, sigma2, d.
Qed.

Lemma exp_in_range_inv (sigma : scalar) (r : float) (days : Z) :
  exp_in_range sigma r days = true ->
  exists x1 x2, exp_arguments sigma r days = Ok (x1, x2)
                /\ (x1 <=? 709)%float = true /\ (x2 <=? 709)%float = true.
Proof.
  unfold exp_in_range. destruct (exp_arguments sigma r days) as [[x1 x2]|]; [| done].
  intros [H1 H2]%andb_true_iff. by exists x1, x2.
Qed.

Lemma np_full_ok p x n :
  (0 <= n <= capacity p)%Z -> np_full p x n = Ok (repeat x (Z.to_nat n)).
Proof.
  intros Hn. unfold np_full. rewrite decide_False by lia. by rewrite decide_False by lia.
Qed.

Lemma np_full_inv p x n a :
  np_full p x n = Ok a -> (0 <= n <= capacity p)%Z /\ a = repeat x (Z.to_nat n).
Proof.
  unfold np_full. destruct (decide _); [done |]. destruct (decide _); [done |].
  intros [= <-]. split; [lia | done].
Qed.

Lemma np_full_negative p x n : (n < 0)%Z -> np_full p x n = Raise ValueError.
Proof. intros Hn. unfold np_full. by rewrite decide_True. Qed.

Lemma range_ok p n : (n <= capacity p)%Z -> range p n = Ok (seq 0 (Z.to_nat n)).
Proof. intros Hn. unfold range. by rewrite decide_False by lia. Qed.

Lemma range_inv p n js :
  range p n = Ok js -> (n <= capacity p)%Z /\ js = seq 0 (Z.to_nat n).
Proof.
  unfold range. destruct (decide _); [done |]. intros [= <-]. split; [lia | done].
Qed.

(** *** Sums and means *)



Lemma sums_to_not_negative a y :
  sums_to a y -> Forall (fun x => (x <? 0)%float = false) a -> (y <? 0)%float = false.
Proof.
  induction 1 as [| x | a b x y Ha IHa Hb IHb | a b x Hab Ha IH]; intros Hall.
  - done.
  - by inversion Hall.
  - apply Forall_app in Hall as [Hfa Hfb]. apply add_not_negative; auto.
  - apply IH. by rewrite Hab.
Qed.

(** The left-to-right sum from 0.0 is one of the sums. *)
Lemma sums_to_fold_left a : forall b y,
  sums_to b y -> sums_to (b ++ a) (fold_left add a y).
Proof.
  induction a as [|x a IH]; intros b y Hb; simpl.
  - by rewrite app_nil_r.
  - rewrite (assoc_L (++) b [x] a : b ++ x :: a = (b ++ [x]) ++ a).
    apply IH. apply sums_app; [done | constructor].
Qed.

Lemma maximum_zero x : (maximum 0 x <? 0)%float = false.
Proof.
  unfold maximum. change (is_nan 0) with false. rewrite orb_false_r.
  destruct (x <=? 0)%float eqn:Hx; [done | by apply leb_ltb_zero].
Qed.

Lemma np_maximum_zeros (k : nat) : forall a,
  Forall (fun x => (x <? 0)%float = false) (np_maximum (repeat 0%float k) a).
Proof.
  induction k as [|k IH]; intros [|x a]; simpl; try done.
  constructor; [apply maximum_zero | apply IH].
Qed.

Lemma np_mean_not_negative p a :
  ieee p -> Forall (fun x => (x <? 0)%float = false) a ->
  (np_mean p a <? 0)%float = false.
Proof.
  intros Hp Ha. unfold np_mean. apply div_not_negative.
  - by apply (sums_to_not_negative a); [apply (add_reduce_sums p Hp) |].
  - apply of_uint63_sign_plus.
Qed.


Lemma not_negative_never_negative x : (x <? 0)%float = false -> never_negative x.
Proof. rewrite ltb_zero_false. apply leb_zero. Qed.

Lemma sample_platform_ieee : ieee sample_platform.
Proof.
  split; try done.
  intros a. apply (sums_to_fold_left a [] 0%float). constructor.
Qed.

(** *** The function, step by step *)

Section Function.

Variable p : Platform.
Variable normal : nat -> nat -> float.
Variables (S K : float) (sigma : scalar) (r : float) (days paths : Z).

(** The arrays [stock_price] and [stock_price_sum] after the loop. *)
Abbreviation simulated const1 const2 :=
  (fold_left (day_step p normal const1 const2 paths) (seq 0 (Z.to_nat days))
             (map (mul S) (repeat 1%float (Z.to_nat paths)),
              repeat 0%float (Z.to_nat paths))).

(** The tuple that is returned when no step raises. *)
Abbreviation prices const1 const2 d r_factor :=
  (let zeros := repeat 0%float (Z.to_nat paths) in
   let stock_price := (simulated const1 const2).1 in
   let stock_price_avg := map (fun x => x / d)%float (simulated const1 const2).2 in
   (r_factor * np_mean p (np_maximum zeros (map (fun x => x - K) stock_price)),
    r_factor * np_mean p (np_maximum zeros (map (sub K) stock_price)),
    r_factor * np_mean p (np_maximum zeros (map (fun x => x - K) stock_price_avg)),
    r_factor * np_mean p (np_maximum zeros (map (sub K) stock_price_avg)))%float).

Lemma price_option_run (h sigma2 const1 root d r_factor : float) :
  steps p sigma r days paths h sigma2 const1 root d r_factor ->
  price_option p normal S K sigma r days paths
  = Ok (prices const1 (value sigma * root)%float d r_factor).
Proof.
  intros [Hh Hs2 Hc1 Hroot Hpaths Hdays Hd Hrf]. unfold price_option.
  rewrite Hh, bind_Ok, Hs2, bind_Ok, Hc1, bind_Ok, Hroot, bind_Ok. cbv zeta.
  unfold np_ones, np_zeros. rewrite !np_full_ok by done. rewrite !bind_Ok.
  rewrite range_ok by done. rewrite bind_Ok.
  destruct (fold_left _ _ _) as [stock_price stock_price_sum].
  cbv beta iota. by rewrite Hd, bind_Ok, Hrf, bind_Ok.
Qed.

Lemma price_option_Ok_inv (t : float * float * float * float) :
  price_option p normal S K sigma r days paths = Ok t ->
  exists h sigma2 const1 root d r_factor,
    steps p sigma r days paths h sigma2 const1 root d r_factor
    /\ t = prices const1 (value sigma * root)%float d r_factor.
Proof.
  intros Hrun. pose proof Hrun as Hrun0. unfold price_option in Hrun.
  destruct (float_div 1 days) as [h|] eqn:Hh; [| done]. rewrite bind_Ok in Hrun.
  destruct (float_pow2 sigma) as [sigma2|] eqn:Hs2; [| done]. rewrite bind_Ok in Hrun.
  destruct (math_exp p _) as [const1|] eqn:Hc1; [| done]. rewrite bind_Ok in Hrun.
  destruct (math_sqrt h) as [root|] eqn:Hroot; [| done]. rewrite bind_Ok in Hrun.
  cbv zeta in Hrun.
  destruct (np_ones p paths) as [ones|] eqn:Hones; [| done]. rewrite bind_Ok in Hrun.
  apply np_full_inv in Hones as [Hpaths ->].
  destruct (np_zeros p paths) as [zeros|]; [| done]. rewrite bind_Ok in Hrun.
  destruct (range p days) as [js|] eqn:Hjs; [| done]. rewrite bind_Ok in Hrun.
  apply range_inv in Hjs as [Hdays ->].
  destruct (fold_left _ _ _) as [stock_price stock_price_sum].
  cbv beta iota in Hrun.
  destruct (float_of_int days) as [d|] eqn:Hd; [| done]. rewrite bind_Ok in Hrun.
  destruct (math_exp p (- r * h * d)) as [r_factor|] eqn:Hrf; [| done].
  clear Hrun.
  assert (Hsteps : steps p sigma r days paths h sigma2 const1 root d r_factor)
    by (by split).
  exists h, sigma2, const1, root, d, r_factor. split; [done |].
  rewrite (price_option_run _ _ _ _ _ _ Hsteps) in Hrun0. by injection Hrun0.
Qed.


Lemma price_sign (r_factor : float) (x : float) (a : list float) :
  ieee p -> math_exp p x = Ok r_factor ->
  never_negative
    (r_factor * np_mean p (np_maximum (repeat 0%float (Z.to_nat paths)) a))%float.
Proof.
  intros Hp Hrf. apply not_negative_never_negative, mul_not_negative.
  - by apply (math_exp_sign p x).
  - apply np_mean_not_negative; [done | apply np_maximum_zeros].
Qed.

End Function.

(** *** The draws that the function reads *)




(** [days = 0] divides by zero at the first step. *)
Lemma price_option_zero_days p (normal : nat -> nat -> float)
    (S K : float) (sigma : scalar) (r : float) (paths : Z) :
  price_option p normal S K sigma r 0 paths = Raise ZeroDivisionError.
Proof. reflexivity. Qed.



(** A negative number of paths is refused by [np.ones], when the steps
    before it return. *)
Lemma price_option_negative_paths p (normal : nat -> nat -> float)
    (S K : float) (sigma : scalar) (r : float) (days paths : Z) :
  ieee p -> (1 <= days <= capacity p)%Z -> (paths < 0)%Z ->
  price_option p normal S K sigma r days paths = Raise OverflowError
  \/ price_option p normal S K sigma r days paths = Raise ValueError.
Proof.
  intros Hp Hdays Hpaths. pose proof (capacity_exact p Hp) as Hcap.
  destruct (float_div_small 1 days) as (d & h & Hd & Hh & Hsign); [lia | done |].
  unfold price_option. rewrite Hh, bind_Ok.
  destruct (float_pow2_cases sigma) as [Hs2 | [sigma2 Hs2]]; rewrite Hs2; [by left |].
  rewrite bind_Ok.
  destruct (math_exp_cases p ((r - 0.5 * sigma2) * h)%float Hp)
    as [Hc1 | (const1 & Hc1 & _)]; rewrite Hc1; [by left |].
  rewrite bind_Ok, (math_sqrt_ok h Hsign), bind_Ok. cbv zeta.
  unfold np_ones. rewrite np_full_negative by done. by right.
Qed.

(** No returned price is below zero. *)
Lemma price_option_never_negative p (normal : nat -> nat -> float)
    (S K : float) (sigma : scalar) (r : float) (days paths : Z)
    (ec ep ac ap : float) :
  ieee p ->
  price_option p normal S K sigma r days paths = Ok (ec, ep, ac, ap) ->
  never_negative ec /\ never_negative ep /\ never_negative ac /\ never_negative ap.
Proof.
  intros Hp Hrun.
  destruct (price_option_Ok_inv p normal S K sigma r days paths _ Hrun)
    as (h & sigma2 & const1 & root & d & r_factor & Hsteps & Ht).
  pose proof (step_r_factor _ _ _ _ _ _ _ _ _ _ _ Hsteps) as Hrf.
  injection Ht as -> -> -> ->.
  split_and!; by apply (price_sign p paths r_factor (- r * h * d)%float).
Qed.

(** With both arguments of [math.exp] in range the function returns. *)
Lemma price_option_in_range p (normal : nat -> nat -> float)
    (S K : float) (sigma : scalar) (r : float) (days paths : Z) (x1 x2 : float) :
  ieee p -> (1 <= days <= capacity p)%Z -> (0 <= paths <= capacity p)%Z ->
  exp_arguments sigma r days = Ok (x1, x2) ->
  (x1 <=? 709)%float = true -> (x2 <=? 709)%float = true ->
  exists t, price_option p normal S K sigma r days paths = Ok t.
Proof.
  intros Hp Hdays Hpaths Hargs Hx1 Hx2. pose proof (capacity_exact p Hp) as Hcap.
  destruct (exp_arguments_inv _ _ _ _ _ Hargs)
    as (h & sigma2 & d & Hh & Hs2 & Hd & -> & ->).
  destruct (float_div_small 1 days) as (d' & h' & Hd' & Hh' & Hsign); [lia | done |].
  rewrite Hh in Hh'. injection Hh' as <-.
  assert (Hsteps : steps p sigma r days paths h sigma2
                     (exp_of (libm_exp p) ((r - 0.5 * sigma2) * h)) (sqrt h) d
                     (exp_of (libm_exp p) (- r * h * d))).
  { split; try done; try lia.
    - by apply math_exp_in_range.
    - by apply math_sqrt_ok.
    - by apply math_exp_in_range. }
  rewrite (price_option_run p normal S K _ _ _ _ _ _ _ _ _ _ Hsteps). by eexists.
Qed.







(** X7. A negative number of paths never returns: with [days >= 1] the
    function raises [ValueError] at [np.ones], unless [sigma ** 2] or the
    [math.exp] before it overflowed, which is an [OverflowError]. *)
Theorem negative_paths_raise (p : Platform) (normal : nat -> nat -> float)
    (S K : float) (sigma : scalar) (r : float) (days paths : Z) :
  ieee p -> (1 <= days <= capacity p)%Z -> (paths < 0)%Z ->
  (price_option p normal S K sigma r days paths = Raise OverflowError
   \/ price_option p normal S K sigma r days paths = Raise ValueError)
  /\ ((exists sigma2 const1 h,
         float_div 1 days = Ok h /\ float_pow2 sigma = Ok sigma2
         /\ math_exp p ((r - 0.5 * sigma2) * h)%float = Ok const1) ->
      price_option p normal S K sigma r days paths = Raise ValueError).
Proof.
  intros Hp Hdays Hpaths. split; [by apply price_option_negative_paths |].
  intros (sigma2 & const1 & h & Hh & Hs2 & Hc1).
  destruct (float_div_small 1 days) as (d & h' & _ & Hh' & Hsign);
    [pose proof (capacity_exact p Hp); lia | done |].
  rewrite Hh in Hh'. injection Hh' as <-.
  unfold price_option.
  rewrite Hh, bind_Ok, Hs2, bind_Ok, Hc1, bind_Ok, (math_sqrt_ok h Hsign), bind_Ok.
  cbv zeta. unfold np_ones. by rewrite np_full_negative.
Qed.

Lemma negative_paths_raise_witness :
  (price_option sample_platform (fun _ _ => 0%float) 100 100 (Float 0.25) 0.05 260 (-1)
     = Raise OverflowError
   \/ price_option sample_platform (fun _ _ => 0%float) 100 100 (Float 0.25) 0.05 260 (-1)
      = Raise ValueError)
  /\ price_option sample_platform (fun _ _ => 0%float) 100 100 (Float 0.25) 0.05 260 (-1)
     = Raise ValueError.
Proof.
  destruct (negative_paths_raise sample_platform (fun _ _ => 0%float)
              100 100 (Float 0.25) 0.05 260 (-1) sample_platform_ieee) as [Hany Hvalue];
    [change (capacity sample_platform) with (2 ^ 31 - 1)%Z; lia | lia |].
  split; [exact Hany |]. apply Hvalue.
  by eexists _, _, _.
Defined.

(** X16. When the function overflows. Let [x1] and [x2] be the arguments
    that [math.exp] is given at [const1 = exp((r-0.5*sigma**2)*h)] and at
    [r_factor = exp(-r*h*days)], for [days >= 1] and arrays that fit. If
    both are at most 709 the function returns a tuple. If [x1] is a finite
    number from 710 on, or [x1] is at most 709 and [x2] is a finite number
    from 710 on, it raises [OverflowError]. *)
Theorem overflow_criterion (p : Platform) (normal : nat -> nat -> float)
    (S K : float) (sigma : scalar) (r : float) (days paths : Z) (x1 x2 : float) :
  ieee p -> (1 <= days <= capacity p)%Z -> (0 <= paths <= capacity p)%Z ->
  exp_arguments sigma r days = Ok (x1, x2) ->
  ((x1 <=? 709)%float = true -> (x2 <=? 709)%float = true ->
     exists t, price_option p normal S K sigma r days paths = Ok t)
  /\ ((710 <=? x1)%float = true -> is_finite x1 = true ->
       price_option p normal S K sigma r days paths = Raise OverflowError)
  /\ ((x1 <=? 709)%float = true -> (710 <=? x2)%float = true -> is_finite x2 = true ->
       price_option p normal S K sigma r days paths = Raise OverflowError).
Proof.
  intros Hp Hdays Hpaths Hargs. pose proof (capacity_exact p Hp) as Hcap.
  split; [by apply price_option_in_range |].
  destruct (exp_arguments_inv _ _ _ _ _ Hargs)
    as (h & sigma2 & d & Hh & Hs2 & Hd & -> & ->).
  destruct (float_div_small 1 days) as (d' & h' & Hd' & Hh' & Hsign); [lia | done |].
  rewrite Hh in Hh'. injection Hh' as <-.
  split.
  - intros Hx1 Hfin. unfold price_option.
    by rewrite Hh, bind_Ok, Hs2, bind_Ok, (math_exp_overflow p _ Hx1 Hfin).
  - intros Hx1 Hx2 Hfin. unfold price_option.
    rewrite Hh, bind_Ok, Hs2, bind_Ok, (math_exp_in_range p _ Hp Hx1), bind_Ok.
    rewrite (math_sqrt_ok h Hsign), bind_Ok. cbv zeta.
    unfold np_ones, np_zeros. rewrite !np_full_ok by done. rewrite !bind_Ok.
    rewrite range_ok by lia. rewrite bind_Ok.
    destruct (fold_left _ _ _) as [stock_price stock_price_sum].
    cbv beta iota. by rewrite Hd, bind_Ok, (math_exp_overflow p _ Hx2 Hfin).
Qed.

(** The notebook's parameters, then a rate of 1000 and a rate of -1000 on
    one day. *)
Lemma overflow_criterion_witness :
  (exists t, price_option sample_platform (fun _ _ => 0%float) 100 100 (Float 0.25) 0.05
                          260 10000 = Ok t)
  /\ price_option sample_platform (fun _ _ => 0%float) 100 100 (Float 0.25) 1000 1 10000
     = Raise OverflowError
  /\ price_option sample_platform (fun _ _ => 0%float) 100 100 (Float 0.25) (-1000)
                  1 10000
     = Raise OverflowError.
Proof.
  split; [| split].
  - refine (proj1 (overflow_criterion sample_platform (fun _ _ => 0%float) 100 100
                     (Float 0.25) 0.05 260 10000 _ _ sample_platform_ieee _ _ eq_refl)
                  eq_refl eq_refl);
      change (capacity sample_platform) with (2 ^ 31 - 1)%Z; lia.
  - refine (proj1 (proj2 (overflow_criterion sample_platform (fun _ _ => 0%float)
                     100 100 (Float 0.25) 1000 1 10000 _ _ sample_platform_ieee
                     _ _ eq_refl))
                  eq_refl eq_refl);
      change (capacity sample_platform) with (2 ^ 31 - 1)%Z; lia.
  - refine (proj2 (proj2 (overflow_criterion sample_platform (fun _ _ => 0%float)
                     100 100 (Float 0.25) (-1000) 1 10000 _ _ sample_platform_ieee
                     _ _ eq_refl))
                  eq_refl eq_refl eq_refl);
      change (capacity sample_platform) with (2 ^ 31 - 1)%Z; lia.
Defined.

End PricingFacts.

(** ** The cluster *)

Module ParallelFacts.

Import Parallel.

Section Facts.

Context {Args Val : Type}.
Variable task : Args -> result Val.

Implicit Types (c : Cluster Args Val) (units : list (WorkUnit Args)).
Implicit Types (jobs : list AsyncResult) (arrivals : list nat).

Lemma ready_spec c (ar : AsyncResult) :
  ready c ar = true <-> is_Some (ResultTable c !! msg_id ar).
Proof.
  unfold ready. destruct (ResultTable c !! msg_id ar); split; intros H;
    try done; try (by eexists).
Qed.

Lemma all_ready_spec c jobs :
  forallb (ready c) jobs = true
  <-> forall ar, ar ∈ jobs -> is_Some (ResultTable c !! msg_id ar).
Proof.
  rewrite forallb_forall. split; intros H ar Har.
  - apply ready_spec, H. by apply list_elem_of_In.
  - apply ready_spec, H. by apply list_elem_of_In.
Qed.

Lemma some_not_ready c jobs :
  forallb (ready c) jobs = false -> exists ar, ar ∈ jobs /\ ready c ar = false.
Proof.
  induction jobs as [|ar jobs IH]; [done |]. simpl.
  destruct (ready c ar) eqn:Hr; simpl.
  - intros (ar' & Har' & Hnot)%IH. exists ar'. split; [by right | done].
  - intros _. exists ar. split; [by left | done].
Qed.

(** *** The reachable states *)

Lemma consistent_new : consistent task [] new_cluster.
Proof.
  constructor; simpl; try done.
  - constructor.
  - intros id. split; [by intros ?%elem_of_nil | by intros [? ?]].
Qed.

Lemma table_fresh units c (id : nat) :
  consistent task units c -> length units <= id -> ResultTable c !! id = None.
Proof.
  intros Hc Hid. destruct (ResultTable c !! id) as [o|] eqn:Ho; [| done].
  destruct (table_spec _ _ _ Hc id o Ho) as (u & Hu & _).
  apply lookup_lt_Some in Hu. lia.
Qed.

Lemma consistent_apply_async units c (a : Args) :
  consistent task units c ->
  consistent task (units ++ [{| unit_id := length units; unit_args := a |}])
             (apply_async a c).1.
Proof.
  intros Hc. pose proof (table_fresh units c (length units) Hc (Nat.le_refl _)) as Hnew.
  destruct Hc as [Hord Hfresh Hq Ht Hnd Hlog]. constructor; simpl.
  - intros k u [Hk | [Hlen Hk]]%lookup_app_Some; [by eauto |].
    destruct (k - length units) as [|d] eqn:Hd; simpl in Hk; [| done].
    injection Hk as <-. simpl. lia.
  - rewrite length_app. simpl. lia.
  - rewrite filter_app, <- Hq, Hfresh. f_equal.
    by rewrite filter_singleton_True.
  - intros id o Ho. destruct (Ht id o Ho) as (u & Hu & ->).
    exists u. split; [| done]. by apply lookup_app_l_Some.
  - done.
  - done.
Qed.

(** A pending unit that reports gets its outcome recorded, once. *)
Lemma complete_pending units c (id : nat) (u : WorkUnit Args) :
  consistent task units c ->
  units !! id = Some u -> ResultTable c !! id = None ->
  complete task id c =
    {| next_id := next_id c;
       PendingQueue := filter (fun u' => unit_id u' ≠ id) (PendingQueue c);
       ResultTable := <[id := run_unit task u]> (ResultTable c);
       executed := id :: executed c |}.
Proof.
  intros Hc Hu Hnone. unfold complete.
  assert (Hid : unit_id u = id) by (eapply ids_in_order; eauto).
  destruct (List.find _ _) as [u'|] eqn:Hfind.
  - apply find_some in Hfind as [Hin Heq].
    apply Nat.eqb_eq in Heq.
    apply list_elem_of_In in Hin. rewrite (queue_spec _ _ _ Hc) in Hin.
    apply list_elem_of_filter in Hin as [_ Hin].
    apply list_elem_of_lookup in Hin as [k Hk].
    pose proof (ids_in_order _ _ _ Hc k u' Hk) as Hk'.
    assert (u' = u) as -> by congruence. done.
  - exfalso.
    assert (Hin : In u (PendingQueue c)).
    { apply list_elem_of_In. rewrite (queue_spec _ _ _ Hc).
      apply list_elem_of_filter. split; [by rewrite Hid |].
      by eapply list_elem_of_lookup_2. }
    pose proof (find_none _ _ Hfind u Hin) as Hf. simpl in Hf.
    by apply Nat.eqb_neq in Hf.
Qed.

(** A report for a unit that is not pending changes nothing. *)
Lemma complete_not_pending units c (id : nat) :
  consistent task units c ->
  is_Some (ResultTable c !! id) \/ length units <= id ->
  complete task id c = c.
Proof.
  intros Hc Hid. unfold complete.
  destruct (List.find _ _) as [u'|] eqn:Hfind; [| done].
  exfalso. apply find_some in Hfind as [Hin Heq].
  apply Nat.eqb_eq in Heq.
  apply list_elem_of_In in Hin. rewrite (queue_spec _ _ _ Hc) in Hin.
  apply list_elem_of_filter in Hin as [Hnone Hin].
  apply list_elem_of_lookup in Hin as [k Hk].
  pose proof (ids_in_order _ _ _ Hc k u' Hk) as Hk'.
  apply lookup_lt_Some in Hk.
  destruct Hid as [[o Ho] | Hge]; [congruence | lia].
Qed.

Lemma complete_cases units c (id : nat) :
  consistent task units c ->
  (exists u, units !! id = Some u /\ ResultTable c !! id = None)
  \/ (is_Some (ResultTable c !! id) \/ length units <= id).
Proof.
  intros Hc. destruct (ResultTable c !! id) as [o|] eqn:Ho; [right; left; by eexists |].
  destruct (units !! id) as [u|] eqn:Hu; [left; by eexists |].
  right; right. by apply lookup_ge_None.
Qed.

Lemma consistent_complete units c (id : nat) :
  consistent task units c -> consistent task units (complete task id c).
Proof.
  intros Hc. destruct (complete_cases units c id Hc) as [(u & Hu & Hnone) | Hno].
  2: { by rewrite (complete_not_pending units). }
  rewrite (complete_pending units c id u) by done.
  destruct Hc as [Hord Hfresh Hq Ht Hnd Hlog]. constructor; simpl.
  - done.
  - done.
  - rewrite Hq, list_filter_filter. apply list_filter_iff.
    intros u'. rewrite lookup_insert_None. naive_solver.
  - intros id' o. rewrite lookup_insert. case_decide as Hcase.
    + subst id'. intros [= <-]. by exists u.
    + apply Ht.
  - apply NoDup_cons_2; [| done]. rewrite Hlog, Hnone. by intros [? ?].
  - intros id'. rewrite elem_of_cons, Hlog, lookup_insert.
    case_decide as Hcase; [subst id' | ]; split; intros H; try (by eexists); try (by left).
    + destruct H as [? | H]; [congruence | done].
    + by right.
Qed.

Lemma consistent_deliver units arrivals : forall c,
  consistent task units c -> consistent task units (deliver task arrivals c).
Proof.
  induction arrivals as [|id arrivals IH]; intros c Hc; [done |].
  simpl. apply IH. by apply consistent_complete.
Qed.

(** After a report, the terminal units are those that were terminal and
    the reporting one. *)
Lemma complete_table units c (a id : nat) :
  consistent task units c ->
  is_Some (ResultTable (complete task a c) !! id)
  <-> is_Some (ResultTable c !! id) \/ (id = a /\ a < length units).
Proof.
  intros Hc. destruct (complete_cases units c a Hc) as [(u & Hu & Hnone) | Hno].
  - rewrite (complete_pending units c a u) by done. simpl.
    rewrite lookup_insert. apply lookup_lt_Some in Hu.
    case_decide as Hcase; [subst id |]; split; intros H; try (by eexists); try (by right).
    + by left.
    + destruct H as [H | [? _]]; [done | congruence].
  - rewrite (complete_not_pending units) by done. split; [by left |].
    intros [H | [-> Hlt]]; [done |]. destruct Hno as [H | H]; [done | lia].
Qed.

Lemma deliver_table units arrivals : forall c (id : nat),
  consistent task units c ->
  is_Some (ResultTable (deliver task arrivals c) !! id)
  <-> is_Some (ResultTable c !! id) \/ (id ∈ arrivals /\ id < length units).
Proof.
  induction arrivals as [|a arrivals IH]; intros c id Hc; simpl.
  - split; [by left |]. intros [H | [H%elem_of_nil _]]; done.
  - rewrite IH by (by apply consistent_complete).
    rewrite (complete_table units) by done. rewrite elem_of_cons. naive_solver.
Qed.

(** A recorded outcome is the outcome of the unit's one run, and it is
    never replaced. *)
Lemma table_value units c (id : nat) (u : WorkUnit Args) :
  consistent task units c -> units !! id = Some u ->
  is_Some (ResultTable c !! id) ->
  ResultTable c !! id = Some (run_unit task u).
Proof.
  intros Hc Hu [o Ho]. destruct (table_spec _ _ _ Hc id o Ho) as (u' & Hu' & ->).
  congruence.
Qed.


Lemma failed_count_zero c :
  (forall id o, ResultTable c !! id = Some o -> is_failed o = false) ->
  failed_count c = 0.
Proof.
  intros Hdone. unfold failed_count.
  assert (Hall : Forall (fun p : nat * outcome Val => is_failed p.2 = false)
                        (map_to_list (ResultTable c))).
  { apply Forall_forall. intros [id o] Hin%elem_of_map_to_list. simpl. eauto. }
  induction Hall as [|p l Hp _ IH]; [done |].
  simpl. by rewrite Hp.
Qed.

(** *** Waiting *)

Lemma wait_unfold jobs arrivals c :
  wait task jobs arrivals c =
    if forallb (ready c) jobs then Some (c, arrivals)
    else match arrivals with
         | [] => None
         | id :: rest => wait task jobs rest (complete task id c)
         end.
Proof. by destruct arrivals. Qed.

(** A caller whose handles are all terminal is not suspended. *)
Lemma wait_ready jobs arrivals c :
  forallb (ready c) jobs = true -> wait task jobs arrivals c = Some (c, arrivals).
Proof. intros H. by rewrite wait_unfold, H. Qed.

(** When [wait] returns it has taken a prefix of the reports, every
    handle is terminal, and some handle was not terminal after each
    shorter prefix. *)
Lemma wait_returns jobs arrivals : forall c c' rest,
  wait task jobs arrivals c = Some (c', rest) ->
  exists used,
    arrivals = used ++ rest /\ c' = deliver task used c
    /\ forallb (ready c') jobs = true
    /\ forall n, n < length used ->
                 forallb (ready (deliver task (take n used) c)) jobs = false.
Proof.
  induction arrivals as [|a arrivals IH]; intros c c' rest Hw;
    rewrite wait_unfold in Hw; destruct (forallb (ready c) jobs) eqn:Hready;
    try discriminate.
  - injection Hw as <- <-. exists []. repeat split; try done. simpl. lia.
  - injection Hw as <- <-. exists []. repeat split; try done. simpl. lia.
  - destruct (IH _ _ _ Hw) as (used & -> & -> & Hall & Hmin).
    exists (a :: used). repeat split; try done.
    intros [|n] Hn; simpl; [done |]. apply Hmin. simpl in Hn. lia.
Qed.

(** [wait] returns as soon as the reports taken so far make every handle
    terminal, whatever follows. *)
Lemma wait_no_hang jobs (p q : list nat) : forall c,
  forallb (ready (deliver task p c)) jobs = true ->
  exists c' rest, wait task jobs (p ++ q) c = Some (c', rest).
Proof.
  induction p as [|a p IH]; intros c Hready.
  - exists c, q. by apply wait_ready.
  - rewrite wait_unfold. destruct (forallb (ready c) jobs); [by eauto |].
    simpl. by apply IH.
Qed.

(** [wait] returns when every handle names a submitted unit that is
    terminal or still to report. *)
Lemma wait_complete units jobs arrivals c :
  consistent task units c ->
  (forall ar, ar ∈ jobs ->
              msg_id ar < length units
              /\ (is_Some (ResultTable c !! msg_id ar) \/ msg_id ar ∈ arrivals)) ->
  exists c' rest, wait task jobs arrivals c = Some (c', rest).
Proof.
  intros Hc Hjobs. rewrite <- (app_nil_r arrivals). apply wait_no_hang.
  apply all_ready_spec. intros ar Har.
  rewrite (deliver_table units) by done.
  destruct (Hjobs ar Har) as [Hlt [H | H]]; auto.
Qed.

(** Conversely [wait] only returns once every unit that was not terminal
    has reported. *)
Lemma wait_needs units jobs arrivals c c' rest :
  consistent task units c ->
  wait task jobs arrivals c = Some (c', rest) ->
  forall ar, ar ∈ jobs ->
             is_Some (ResultTable c !! msg_id ar) \/ msg_id ar ∈ arrivals.
Proof.
  intros Hc Hw ar Har.
  destruct (wait_returns _ _ _ _ _ Hw) as (used & -> & -> & Hall & _).
  rewrite all_ready_spec in Hall. specialize (Hall ar Har).
  rewrite (deliver_table units) in Hall by done.
  destruct Hall as [H | [H _]]; [by left | right].
  apply elem_of_app. by left.
Qed.


(** *** Inspecting a handle *)

Lemma get_ready (ar : AsyncResult) arrivals c (o : outcome Val) :
  ResultTable c !! msg_id ar = Some o ->
  get task ar arrivals c =
    Some (c, arrivals,
          match o with
          | Done v => Ok v
          | Failed e => Raise (RemoteError e)
          end).
Proof.
  intros Ho. unfold get. rewrite wait_ready.
  - simpl. by rewrite Ho.
  - simpl. unfold ready. by rewrite Ho.
Qed.

(** *** Submission *)

Lemma units_from_cons (first : nat) (a : Args) (argss : list Args) :
  units_from first (a :: argss)
  = {| unit_id := first; unit_args := a |} :: units_from (S first) argss.
Proof. reflexivity. Qed.

Lemma units_from_length (first : nat) (argss : list Args) :
  length (units_from first argss) = length argss.
Proof.
  unfold units_from. rewrite length_zip_with, length_seq. lia.
Qed.

Lemma units_from_lookup (first k : nat) (argss : list Args) (a : Args) :
  argss !! k = Some a ->
  units_from first argss !! k = Some {| unit_id := first + k; unit_args := a |}.
Proof.
  intros Ha. unfold units_from. rewrite lookup_zip_with.
  rewrite lookup_seq_lt by (by apply lookup_lt_Some in Ha). simpl. by rewrite Ha.
Qed.

Lemma submit_cons (a : Args) (argss : list Args) c (handles : list AsyncResult) :
  submit (a :: argss) (c, handles)
  = submit argss ((apply_async a c).1, handles ++ [(apply_async a c).2]).
Proof. reflexivity. Qed.

(** Submitting [argss] appends their units to the queue in order, hands
    back one handle per unit, and leaves table and log alone. *)
Lemma submit_spec (argss : list Args) : forall units c (handles : list AsyncResult),
  consistent task units c ->
  exists c',
    submit argss (c, handles)
      = (c', handles ++ map (fun id => {| msg_id := id |})
                            (seq (length units) (length argss)))
    /\ consistent task (units ++ units_from (length units) argss) c'
    /\ PendingQueue c' = PendingQueue c ++ units_from (length units) argss
    /\ ResultTable c' = ResultTable c
    /\ executed c' = executed c.
Proof.
  induction argss as [|a argss IH]; intros units c handles Hc.
  - exists c. simpl. by rewrite !app_nil_r.
  - pose proof (consistent_apply_async units c a Hc) as Hc'.
    destruct (IH _ _ (handles ++ [(apply_async a c).2]) Hc')
      as (c' & Hsub & Hcons & Hq & Ht & Hlog).
    exists c'. rewrite length_app in Hsub, Hcons, Hq.
    cbn [length] in Hsub, Hcons, Hq.
    rewrite Nat.add_1_r in Hsub, Hcons, Hq.
    rewrite units_from_cons, submit_cons. split_and!.
    + rewrite Hsub, <- app_assoc. simpl. by rewrite (ids_fresh _ _ _ Hc).
    + by rewrite <- app_assoc in Hcons.
    + rewrite Hq. unfold apply_async. cbn [fst PendingQueue].
      by rewrite <- app_assoc, (ids_fresh _ _ _ Hc).
    + by rewrite Ht.
    + by rewrite Hlog.
Qed.

(** *** Unit ids *)

Lemma units_ids units c :
  consistent task units c -> unit_id <$> units = seq 0 (length units).
Proof.
  intros Hc. apply list_eq. intros k. rewrite list_lookup_fmap.
  destruct (units !! k) as [u|] eqn:Hu; simpl.
  - rewrite (ids_in_order _ _ _ Hc k u Hu).
    apply lookup_lt_Some in Hu. by rewrite lookup_seq_lt.
  - apply lookup_ge_None in Hu. by rewrite lookup_seq_ge.
Qed.

(** No two outstanding units share an id. *)
Lemma pending_ids_NoDup units c :
  consistent task units c -> NoDup (unit_id <$> PendingQueue c).
Proof.
  intros Hc. rewrite (queue_spec _ _ _ Hc).
  apply (sublist_NoDup _ (unit_id <$> units)).
  - rewrite (units_ids units c Hc). apply NoDup_seq.
  - apply fmap_sublist, sublist_filter.
Qed.

(** With nothing outstanding, every submitted unit is terminal. *)
Lemma no_pending_terminal units c (id : nat) :
  consistent task units c -> PendingQueue c = [] -> id < length units ->
  is_Some (ResultTable c !! id).
Proof.
  intros Hc Hq Hid. destruct (lookup_lt_is_Some_2 units id Hid) as [u Hu].
  destruct (ResultTable c !! id) as [o|] eqn:Ho; [by eexists |].
  exfalso. rewrite (queue_spec _ _ _ Hc) in Hq.
  apply (filter_nil_not_elem_of _ _ u Hq).
  - by rewrite (ids_in_order _ _ _ Hc id u Hu).
  - by eapply list_elem_of_lookup_2.
Qed.

(** C3. [wait] returns exactly when every handle it was given is
    terminal. (1) When it returns it has taken a prefix of the reports,
    every handle is terminal, and after each shorter prefix some handle
    was not. (2) Once the reports taken make every handle terminal it
    returns, whatever follows; with every handle terminal at the call it
    returns at once and takes no report. (3) A [Failed] unit is terminal.
    (4) In a reachable state it returns whenever each handle names a
    submitted unit that is terminal or still to report. *)
Theorem wait_returns_exactly_when_terminal jobs arrivals c :
  (forall c' rest,
      wait task jobs arrivals c = Some (c', rest) ->
      exists used,
        arrivals = used ++ rest /\ c' = deliver task used c
        /\ (forall ar, ar ∈ jobs -> is_Some (ResultTable c' !! msg_id ar))
        /\ (forall n, n < length used ->
                exists ar, ar ∈ jobs
                  /\ ResultTable (deliver task (take n used) c) !! msg_id ar = None))
  /\ (forall used rest,
        arrivals = used ++ rest ->
        (forall ar, ar ∈ jobs ->
                    is_Some (ResultTable (deliver task used c) !! msg_id ar)) ->
        is_Some (wait task jobs arrivals c))
  /\ ((forall ar, ar ∈ jobs -> is_Some (ResultTable c !! msg_id ar)) ->
      wait task jobs arrivals c = Some (c, arrivals))
  /\ (forall ar e, ResultTable c !! msg_id ar = Some (Failed e) -> ready c ar = true)
  /\ (forall units,
        consistent task units c ->
        (forall ar, ar ∈ jobs ->
                    msg_id ar < length units
                    /\ (is_Some (ResultTable c !! msg_id ar) \/ msg_id ar ∈ arrivals)) ->
        is_Some (wait task jobs arrivals c)).
Proof.
  split_and!.
  - intros c' rest Hw.
    destruct (wait_returns _ _ _ _ _ Hw) as (used & Harr & Hc' & Hall & Hmin).
    exists used. split_and!; try done.
    + by apply all_ready_spec.
    + intros n Hn. specialize (Hmin n Hn).
      apply some_not_ready in Hmin as (ar & Har & Hnot).
      exists ar. split; [done |].
      unfold ready in Hnot. by destruct (ResultTable _ !! msg_id ar).
  - intros used rest -> Hall.
    destruct (wait_no_hang jobs used rest c) as (c' & rest' & Hw).
    + by apply all_ready_spec.
    + rewrite Hw. by eexists.
  - intros Hall. by apply wait_ready, all_ready_spec.
  - intros ar e Hfail. unfold ready. by rewrite Hfail.
  - intros units Hc Hjobs.
    destruct (wait_complete units jobs arrivals c Hc Hjobs) as (c' & rest & Hw).
    rewrite Hw. by eexists.
Qed.

End Facts.

(** Three units, the second of which raises; they report in the order
    2, 0, 1 and a stray report follows. *)
Lemma wait_returns_exactly_when_terminal_witness :
  is_Some (wait Scenario.second_raises (Scenario.three_units).2 [2; 0; 1; 0]
                (Scenario.three_units).1)
  /\ ready (deliver Scenario.second_raises [2; 0; 1] (Scenario.three_units).1)
           {| msg_id := 1 |} = true.
Proof.
  split.
  - apply (proj1 (proj2 (wait_returns_exactly_when_terminal Scenario.second_raises
                           (Scenario.three_units).2 [2; 0; 1; 0]
                           (Scenario.three_units).1))
             [2; 0; 1] [0] eq_refl).
    intros ar Har. vm_compute in Har.
    repeat (apply elem_of_cons in Har as [-> | Har]); try (by eexists).
    by apply elem_of_nil in Har.
  - apply (proj1 (proj2 (proj2 (proj2
             (wait_returns_exactly_when_terminal Scenario.second_raises
                (Scenario.three_units).2 [2; 0; 1; 0]
                (deliver Scenario.second_raises [2; 0; 1] (Scenario.three_units).1)))))
             {| msg_id := 1 |} ValueError).
    reflexivity.
Defined.

End ParallelFacts.

(** ** The notebook *)

Module NotebookFacts.

Import Parallel Notebook ParallelFacts.

Section Facts.

Context {F P : Type}.
Variable price_option : F -> F -> F -> F -> Z -> Z -> result (quote P).

Abbreviation task := (call_price_option price_option).
Abbreviation namespace := (gmap string (pyval F P)).

Implicit Types (g : namespace) (strikes sigmas : list F).
Implicit Types (c : Cluster (list (pyval F P)) (quote P)).
Implicit Types (handles : list AsyncResult) (arrivals : list nat).

Lemma name_bound (x : string) g (v : pyval F P) :
  g !! x = Some v -> name x g = Ok v.
Proof. intros H. unfold name. by rewrite H. Qed.

(** *** Submission *)

Section Submission.

Variables (g : namespace) (price rate days paths : pyval F P).
Variables (strikes sigmas : list F).
Hypothesis Hprice : g !! "price" = Some price.
Hypothesis Hrate : g !! "rate" = Some rate.
Hypothesis Hdays : g !! "days" = Some days.
Hypothesis Hpaths : g !! "paths" = Some paths.
Hypothesis Hstrikes : g !! "strike_vals" = Some (PyNdarray strikes).
Hypothesis Hsigmas : g !! "sigma_vals" = Some (PyNdarray sigmas).

Lemma submit_sigma_bound (strike sigma : F) st :
  submit_sigma g strike st sigma
  = Ok (submit [task_args price rate days paths strike sigma] st).
Proof using Hprice Hrate Hdays Hpaths.
  unfold submit_sigma.
  rewrite (name_bound _ _ _ Hprice), (name_bound _ _ _ Hrate),
    (name_bound _ _ _ Hdays), (name_bound _ _ _ Hpaths), !bind_Ok.
  by destruct st as [c handles].
Qed.

Lemma submit_strike_bound (strike : F) st :
  submit_strike g st strike
  = Ok (submit (map (task_args price rate days paths strike) sigmas) st).
Proof using Hprice Hrate Hdays Hpaths Hsigmas.
  unfold submit_strike. rewrite (name_bound _ _ _ Hsigmas), !bind_Ok.
  simpl. clear Hsigmas. revert st.
  induction sigmas as [|sigma sigmas' IH]; intros st; [done |].
  simpl. by rewrite submit_sigma_bound, bind_Ok, IH.
Qed.

(** The two loops submit the grid in row-major order. *)
Lemma submit_tasks_bound c :
  submit_tasks g c
  = Ok (submit (grid_args price rate days paths strikes sigmas) (c, [])).
Proof using Hprice Hrate Hdays Hpaths Hsigmas Hstrikes.
  unfold submit_tasks. rewrite (name_bound _ _ _ Hstrikes), !bind_Ok.
  simpl. clear Hstrikes. generalize (c, @nil AsyncResult). 
  induction strikes as [|strike strikes' IH]; intros st; [done |].
  simpl. rewrite submit_strike_bound, bind_Ok, IH.
  unfold grid_args, submit. simpl. by rewrite fold_left_app.
Qed.

End Submission.

Lemma grid_args_length (price rate days paths : pyval F P) strikes sigmas :
  length (grid_args price rate days paths strikes sigmas)
  = length strikes * length sigmas.
Proof.
  unfold grid_args. induction strikes as [|K strikes' IH]; [done |].
  simpl. by rewrite length_app, length_map, IH.
Qed.

(** Cell (i, j) of the grid is entry [i * n_sigmas + j] of the row-major
    list. *)
Lemma grid_args_lookup (price rate days paths : pyval F P) strikes sigmas
    (i j : nat) (K sigma : F) :
  strikes !! i = Some K -> sigmas !! j = Some sigma ->
  grid_args price rate days paths strikes sigmas !! (i * length sigmas + j)
  = Some (task_args price rate days paths K sigma).
Proof.
  intros HK Hs. unfold grid_args. revert i HK.
  induction strikes as [|K' strikes' IH]; intros i HK; [done |].
  simpl. destruct i as [|i]; simpl in *.
  - injection HK as ->. rewrite lookup_app_l.
    + by rewrite list_lookup_fmap, Hs.
    + rewrite length_map. by apply lookup_lt_Some in Hs.
  - rewrite lookup_app_r by (rewrite length_map; lia).
    rewrite length_map.
    replace (length sigmas + i * length sigmas + j - length sigmas)
      with (i * length sigmas + j) by lia.
    by apply IH.
Qed.

(** Conversely every entry of the row-major list is a cell of the grid. *)
Lemma grid_args_elem (price rate days paths : pyval F P) strikes sigmas
    (a : list (pyval F P)) :
  a ∈ grid_args price rate days paths strikes sigmas ->
  exists K sigma, K ∈ strikes /\ sigma ∈ sigmas
                  /\ a = task_args price rate days paths K sigma.
Proof.
  unfold grid_args. rewrite list_elem_of_In, in_flat_map.
  intros (K & HK & Ha). apply in_map_iff in Ha as (sigma & <- & Hs).
  exists K, sigma. by rewrite !list_elem_of_In.
Qed.

(** *** The names that the parameter cells bind *)

Section Setup.

Variables (price rate : F) (days paths : Z) (strikes sigmas : list F).

Lemma setup_price :
  (setup price rate days paths strikes sigmas : namespace) !! "price" = Some (PyFloat price).
Proof. reflexivity. Qed.
Lemma setup_rate :
  (setup price rate days paths strikes sigmas : namespace) !! "rate" = Some (PyFloat rate).
Proof. reflexivity. Qed.
Lemma setup_days :
  (setup price rate days paths strikes sigmas : namespace) !! "days" = Some (PyInt days).
Proof. reflexivity. Qed.
Lemma setup_paths :
  (setup price rate days paths strikes sigmas : namespace) !! "paths" = Some (PyInt paths).
Proof. reflexivity. Qed.
Lemma setup_strike_vals :
  (setup price rate days paths strikes sigmas : namespace) !! "strike_vals"
  = Some (PyNdarray strikes).
Proof. reflexivity. Qed.
Lemma setup_sigma_vals :
  (setup price rate days paths strikes sigmas : namespace) !! "sigma_vals"
  = Some (PyNdarray sigmas).
Proof. reflexivity. Qed.
Lemma setup_n_strikes :
  (setup price rate days paths strikes sigmas : namespace) !! "n_strikes"
  = Some (PyInt (Z.of_nat (length strikes))).
Proof. reflexivity. Qed.
Lemma setup_n_sigmas :
  (setup price rate days paths strikes sigmas : namespace) !! "n_sigmas"
  = Some (PyInt (Z.of_nat (length sigmas))).
Proof. reflexivity. Qed.

End Setup.

Lemma covered_spec (first n : nat) arrivals :
  covered first n arrivals <-> forall k, k < n -> first + k ∈ arrivals.
Proof.
  unfold covered. rewrite Forall_forall. split.
  - intros H k Hk. apply H, elem_of_seq. lia.
  - intros H id [H1 H2]%elem_of_seq.
    replace id with (first + (id - first)) by lia. apply H. lia.
Qed.

Lemma elem_of_handles_from (first n : nat) (ar : AsyncResult) :
  ar ∈ handles_from first n <-> first <= msg_id ar < first + n.
Proof.
  unfold handles_from. rewrite list_elem_of_fmap. split.
  - intros (id & -> & Hid%elem_of_seq). done.
  - intros Hid. exists (msg_id ar). split; [by destruct ar | by apply elem_of_seq].
Qed.

Lemma handles_from_length (first n : nat) : length (handles_from first n) = n.
Proof. unfold handles_from. by rewrite length_map, length_seq. Qed.

Lemma handles_from_lookup (first n k : nat) :
  k < n -> handles_from first n !! k = Some {| msg_id := first + k |}.
Proof.
  intros Hk. unfold handles_from.
  by rewrite list_lookup_fmap, lookup_seq_lt.
Qed.

Lemma handles_from_NoDup (first n : nat) :
  NoDup (msg_id <$> handles_from first n).
Proof.
  replace (msg_id <$> handles_from first n) with (seq first n); [apply NoDup_seq |].
  unfold handles_from. induction (seq first n) as [|x l IH]; [done |].
  cbn [map fmap list_fmap msg_id]. by rewrite IH at 1.
Qed.

(** *** The submission cell *)

Section Submit.

Variables (price rate : F) (days paths : Z) (strikes sigmas : list F).
Variable units0 : list (WorkUnit (list (pyval F P))).
Variable c0 : Cluster (list (pyval F P)) (quote P).
Hypothesis Hc0 : consistent task units0 c0.

Abbreviation argss :=
  (grid_args (P := P) (PyFloat price) (PyFloat rate) (PyInt days) (PyInt paths)
             strikes sigmas).
Abbreviation first := (length units0).
Abbreviation count := (length strikes * length sigmas).
Abbreviation units := (units0 ++ units_from first argss).
Abbreviation handles := (handles_from first count).
Abbreviation g0 := (setup price rate days paths strikes sigmas : namespace).

Lemma submit_tasks_start :
  exists c1,
    submit_tasks g0 c0 = Ok (c1, handles)
    /\ consistent task units c1
    /\ PendingQueue c1 = PendingQueue c0 ++ units_from first argss
    /\ ResultTable c1 = ResultTable c0
    /\ executed c1 = executed c0.
Proof using Hc0.
  destruct (submit_spec task argss units0 c0 [] Hc0)
    as (c1 & Hsub & Hcons & Hq & Ht & Hlog).
  exists c1. split_and!; try done.
  rewrite (submit_tasks_bound g0 (PyFloat price) (PyFloat rate) (PyInt days)
             (PyInt paths) strikes sigmas); try reflexivity.
  rewrite Hsub, grid_args_length. done.
Qed.

(** A handle just handed out is not terminal. *)
Lemma fresh_handle_pending c1 (ar : AsyncResult) :
  ResultTable c1 = ResultTable c0 -> ar ∈ handles ->
  ResultTable c1 !! msg_id ar = None.
Proof using Hc0.
  intros -> Har%elem_of_handles_from.
  apply (table_fresh task units0); [done | lia].
Qed.

Lemma units_length : length units = first + count.
Proof. by rewrite length_app, units_from_length, grid_args_length. Qed.

(** The unit behind the handle of cell (i, j). *)
Lemma units_lookup (i j : nat) (K sigma : F) :
  strikes !! i = Some K -> sigmas !! j = Some sigma ->
  units !! (first + (i * length sigmas + j))
  = Some {| unit_id := first + (i * length sigmas + j);
            unit_args := task_args (PyFloat price) (PyFloat rate) (PyInt days)
                                   (PyInt paths) K sigma |}.
Proof.
  intros HK Hs. rewrite lookup_app_r by lia.
  replace (first + (i * length sigmas + j) - first)
    with (i * length sigmas + j) by lia.
  apply units_from_lookup. by apply grid_args_lookup.
Qed.

(** When every submitted unit reports, the cell returns: it has taken a
    prefix [used] of the reports and every handle is terminal. *)
Lemma cell_submit_covered arrivals :
  covered first count arrivals ->
  exists c1 c' used rest,
    arrivals = used ++ rest
    /\ submit_tasks g0 c0 = Ok (c1, handles)
    /\ c' = deliver task used c1
    /\ cell_submit price_option
          (start price rate days paths strikes sigmas c0 arrivals)
        = Some (Ok {| globals := <["async_results" := PyHandles handles]> g0;
                      cluster := c';
                      network := rest |})
    /\ consistent task units c'
    /\ (forall ar, ar ∈ handles -> is_Some (ResultTable c' !! msg_id ar)).
Proof using Hc0.
  intros Hcov.
  destruct submit_tasks_start as (c1 & Hsub & Hcons & Hq & Ht & Hlog).
  destruct (wait_complete task units handles arrivals c1 Hcons) as (c' & rest & Hw).
  { intros ar Har. pose proof Har as Hid%elem_of_handles_from.
    rewrite units_length. split; [lia |]. right.
    rewrite covered_spec in Hcov.
    replace (msg_id ar) with (first + (msg_id ar - first)) by lia.
    apply Hcov. lia. }
  destruct (wait_returns task _ _ _ _ _ Hw) as (used & Harr & Hc' & Hall & _).
  exists c1, c', used, rest. split_and!; try done.
  - unfold cell_submit, start. simpl. by rewrite Hsub, Hw.
  - subst c'. by apply consistent_deliver.
  - by apply all_ready_spec.
Qed.

(** The cell does not return before every submitted unit has reported,
    and it never raises. *)
Lemma cell_submit_returns arrivals r :
  cell_submit price_option
    (start price rate days paths strikes sigmas c0 arrivals) = Some r ->
  covered first count arrivals.
Proof using Hc0.
  destruct submit_tasks_start as (c1 & Hsub & Hcons & Hq & Ht & Hlog).
  unfold cell_submit, start. simpl. rewrite Hsub.
  destruct (wait task handles arrivals c1) as [[c' rest]|] eqn:Hw; [| done].
  intros _. apply covered_spec. intros k Hk.
  assert (Har : {| msg_id := first + k |} ∈ handles).
  { apply elem_of_handles_from. simpl. lia. }
  destruct (wait_needs task units _ _ _ _ _ Hcons Hw _ Har) as [Hsome | Hin];
    [| done].
  rewrite (fresh_handle_pending c1) in Hsome by done. by destruct Hsome.
Qed.

End Submit.

(** *** Retrieval *)

Lemma get_all_cons (ar : AsyncResult) handles arrivals c :
  get_all price_option (ar :: handles) arrivals c =
    '(c1, arrivals1, r) ← get task ar arrivals c;
    match r with
    | Raise e => Some (c1, arrivals1, Raise e)
    | Ok v =>
        '(c2, arrivals2, rs) ← get_all price_option handles arrivals1 c1;
        Some (c2, arrivals2,
              match rs with Ok l => Ok (v :: l) | Raise e => Raise e end)
    end.
Proof. reflexivity. Qed.

(** With every unit [Done], the results come back in the order of the
    handles. *)
Lemma get_all_done handles arrivals c :
  (forall ar, ar ∈ handles -> exists v, ResultTable c !! msg_id ar = Some (Done v)) ->
  exists vs,
    get_all price_option handles arrivals c = Some (c, arrivals, Ok vs)
    /\ Forall2 (fun ar v => ResultTable c !! msg_id ar = Some (Done v)) handles vs.
Proof.
  induction handles as [|ar handles' IH]; intros Hdone.
  - exists []. by split.
  - destruct (Hdone ar) as [v Hv]; [by left |].
    destruct IH as (vs & Hget & Hall); [intros ar' Har'; apply Hdone; by right |].
    exists (v :: vs). split; [| by constructor].
    rewrite get_all_cons, (get_ready task ar arrivals c _ Hv). simpl.
    by rewrite Hget.
Qed.

(** The first [Failed] unit, in the order of the handles, ends the
    comprehension with its error. *)
Lemma get_all_failed (before : list AsyncResult) (ar : AsyncResult)
    (after : list AsyncResult) arrivals c (e : exn) :
  (forall ar', ar' ∈ before ->
               exists v, ResultTable c !! msg_id ar' = Some (Done v)) ->
  ResultTable c !! msg_id ar = Some (Failed e) ->
  get_all price_option (before ++ ar :: after) arrivals c
  = Some (c, arrivals, Raise (RemoteError e)).
Proof.
  intros Hdone Hfail. induction before as [|ar' before' IH]; simpl app.
  - by rewrite get_all_cons, (get_ready task ar arrivals c _ Hfail).
  - destruct (Hdone ar') as [v Hv]; [by left |].
    rewrite get_all_cons, (get_ready task ar' arrivals c _ Hv). simpl.
    rewrite IH; [done |]. intros ar'' Har''. apply Hdone. by right.
Qed.

(** Retrieval reads the table at the handles' ids and nothing else. *)
Lemma get_all_agree handles (arrivals1 arrivals2 : list nat) c1 c2 :
  (forall ar, ar ∈ handles ->
              is_Some (ResultTable c1 !! msg_id ar)
              /\ ResultTable c1 !! msg_id ar = ResultTable c2 !! msg_id ar) ->
  exists r,
    get_all price_option handles arrivals1 c1 = Some (c1, arrivals1, r)
    /\ get_all price_option handles arrivals2 c2 = Some (c2, arrivals2, r).
Proof.
  induction handles as [|ar handles' IH]; intros Hagree.
  - by exists (Ok []).
  - destruct (Hagree ar) as [[o Ho] Heq]; [by left |].
    rewrite Ho in Heq. symmetry in Heq.
    destruct IH as (r & Hget1 & Hget2); [intros ar' Har'; apply Hagree; by right |].
    rewrite !get_all_cons, (get_ready task ar arrivals1 c1 _ Ho),
      (get_ready task ar arrivals2 c2 _ Heq). simpl.
    destruct o as [v | e]; [| by eexists].
    rewrite Hget1, Hget2. simpl. by eexists.
Qed.

Lemma get_all_length handles : forall arrivals c c' arrivals' (rs : list (quote P)),
  get_all price_option handles arrivals c = Some (c', arrivals', Ok rs) ->
  length rs = length handles.
Proof.
  induction handles as [|ar handles' IH]; intros arrivals c c' arrivals' rs Hget.
  - by injection Hget as <- <- <-.
  - rewrite get_all_cons in Hget.
    destruct (get task ar arrivals c) as [[[c1 a1] [v|e]]|]; simpl in Hget;
      try discriminate.
    destruct (get_all price_option handles' a1 c1) as [[[c2 a2] [l|e]]|] eqn:Hrec;
      simpl in Hget; try discriminate.
    injection Hget as <- <- <-. simpl. f_equal. by eapply IH.
Qed.

Lemma cell_results_ready (nb : Notebook F P) handles
    (r : result (list (quote P))) :
  globals nb !! "async_results" = Some (PyHandles handles) ->
  get_all price_option handles (network nb) (cluster nb)
    = Some (cluster nb, network nb, r) ->
  cell_results price_option nb =
    Some (match r with
          | Ok results =>
              Ok {| globals := <["results" := PyList results]>
                                 (bind_last handles (globals nb));
                    cluster := cluster nb;
                    network := network nb |}
          | Raise e => Raise e
          end).
Proof.
  intros Hname Hget. unfold cell_results.
  rewrite (name_bound _ _ _ Hname), bind_Ok. simpl. rewrite Hget.
  by destruct r.
Qed.

Lemma bind_last_other handles g (x : string) :
  x ≠ "ar" -> bind_last handles g !! x = g !! x.
Proof.
  intros Hx. unfold bind_last. destruct (last handles); [| done].
  by rewrite lookup_insert_ne.
Qed.

(** *** Assembly *)

Lemma for_each_cons {A St : Type} (body : St -> A -> result St)
    (x : A) (l : list A) (s : St) :
  for_each body (x :: l) s = body s x ≫= for_each body l.
Proof. reflexivity. Qed.

Lemma for_each_app {A St : Type} (body : St -> A -> result St)
    (l1 l2 : list A) (s : St) :
  for_each body (l1 ++ l2) s = for_each body l1 s ≫= for_each body l2.
Proof.
  revert s. induction l1 as [|x l1 IH]; intros s; [done |].
  simpl. destruct (body s x) as [s'|e]; [| done]. rewrite !bind_Ok. apply IH.
Qed.

Lemma enumerate_snoc {A : Type} (l : list A) (x : A) :
  enumerate (l ++ [x]) = enumerate l ++ [(length l, x)].
Proof.
  unfold enumerate. rewrite length_app. simpl.
  rewrite seq_app. simpl.
  rewrite zip_with_app by (by rewrite length_seq). done.
Qed.

(** One iteration binds [i] and [price], writes one record of [prices],
    and touches no other name. *)
Lemma assemble_step_inv g (i : nat) (r : quote P) g' :
  assemble_step g (i, r) = Ok g' ->
  exists a a',
    g !! "prices" = Some (PyRecarray a)
    /\ setitem a i r = Ok a'
    /\ g' = <["prices" := PyRecarray a']>
              (<["price" := PyTuple r]> (<["i" := PyInt (Z.of_nat i)]> g)).
Proof.
  unfold assemble_step, name.
  rewrite !lookup_insert_ne by done.
  destruct (g !! "prices") as [[| | | | | | | a]|]; try done.
  rewrite !bind_Ok. simpl as_recarray. rewrite bind_Ok.
  destruct (setitem a i r) as [a'|e] eqn:Hset; [| done].
  rewrite bind_Ok. intros [= <-]. by exists a, a'.
Qed.

Lemma assemble_loop_frame (en : list (nat * quote P)) : forall g g',
  for_each assemble_step en g = Ok g' ->
  forall x : string, x ≠ "prices" -> x ≠ "i" -> x ≠ "price" -> g' !! x = g !! x.
Proof.
  induction en as [|[i r] en IH]; intros g g' Hloop x Hx1 Hx2 Hx3.
  - by injection Hloop as <-.
  - rewrite for_each_cons in Hloop.
    destruct (assemble_step g (i, r)) as [g1|e] eqn:Hstep; [| discriminate Hloop].
    rewrite bind_Ok in Hloop. rewrite (IH _ _ Hloop) by done.
    apply assemble_step_inv in Hstep as (a & a' & _ & _ & ->).
    by rewrite !lookup_insert_ne.
Qed.

(** After the loop [price] and [i] hold what its last iteration bound. *)
Lemma assemble_loop_last (en : list (nat * quote P)) (i : nat) (r : quote P) g g' :
  for_each assemble_step (en ++ [(i, r)]) g = Ok g' ->
  g' !! "price" = Some (PyTuple r) /\ g' !! "i" = Some (PyInt (Z.of_nat i)).
Proof.
  rewrite for_each_app.
  destruct (for_each assemble_step en g) as [g1|e]; [| by rewrite ?bind_Raise].
  rewrite bind_Ok, for_each_cons.
  destruct (assemble_step g1 (i, r)) as [g2|e] eqn:Hstep; [| by rewrite ?bind_Raise].
  rewrite bind_Ok. intros [= <-].
  apply assemble_step_inv in Hstep as (a & a' & _ & _ & ->).
  rewrite lookup_insert_ne by done. rewrite lookup_insert_eq.
  rewrite !lookup_insert_ne by done. by rewrite lookup_insert_eq.
Qed.

(** The loop fills the records from index [length filled] on, in order. *)
Lemma assemble_loop_cells (rs : list (quote P)) :
  forall (filled : list (quote P)) (extra : nat) (sh : list nat) g,
    g !! "prices"
      = Some (PyRecarray {| shape := sh;
                            cells := (Some <$> filled)
                                       ++ repeat None (length rs + extra) |}) ->
    exists g',
      for_each assemble_step (zip (seq (length filled) (length rs)) rs) g = Ok g'
      /\ g' !! "prices"
           = Some (PyRecarray {| shape := sh;
                                 cells := (Some <$> (filled ++ rs))
                                            ++ repeat None extra |}).
Proof.
  induction rs as [|r rs IH]; intros filled extra sh g Hprices.
  - exists g. by rewrite app_nil_r.
  - simpl. unfold assemble_step at 1, name.
    rewrite !lookup_insert_ne by done. rewrite Hprices, !bind_Ok.
    simpl as_recarray. rewrite bind_Ok.
    unfold setitem. simpl cells.
    destruct (decide _) as [Hlt | Hge].
    2: { exfalso. apply Hge. rewrite length_app, length_fmap. simpl. lia. }
    rewrite !bind_Ok.
    destruct (IH (filled ++ [r]) extra sh
                (<["prices" := PyRecarray
                     {| shape := sh;
                        cells := <[length filled := Some r]>
                                   ((Some <$> filled)
                                      ++ repeat None (length (r :: rs) + extra)) |}]>
                   (<["price" := PyTuple r]>
                      (<["i" := PyInt (Z.of_nat (length filled))]> g))))
      as (g' & Hloop & Hcells).
    { rewrite lookup_insert_eq. do 3 f_equal.
      rewrite insert_app_r_alt by (by rewrite length_fmap).
      rewrite length_fmap, Nat.sub_diag, fmap_app, <- app_assoc. done. }
    exists g'. rewrite length_app, Nat.add_1_r in Hloop. split; [exact Hloop |].
    by rewrite <- app_assoc in Hcells.
Qed.

Lemma np_empty_nat (n : nat) :
  np_empty (Z.of_nat n)
  = Ok ({| shape := [n]; cells := repeat None n |} : recarray P).
Proof.
  unfold np_empty. destruct (decide _) as [Hneg | _]; [lia |].
  by rewrite Nat2Z.id.
Qed.

(** With [results] holding [n_strikes * n_sigmas] tuples the cell builds
    the array of these tuples, in order, with shape (n_strikes, n_sigmas). *)
Lemma assemble_cells g (n m : nat) (rs : list (quote P)) :
  g !! "n_strikes" = Some (PyInt (Z.of_nat n)) ->
  g !! "n_sigmas" = Some (PyInt (Z.of_nat m)) ->
  g !! "results" = Some (PyList rs) ->
  length rs = n * m ->
  exists g',
    assemble g = Ok g'
    /\ Grid g' = Some {| shape := [n; m]; cells := Some <$> rs |}.
Proof.
  intros Hn Hm Hrs Hlen. unfold assemble.
  rewrite (name_bound _ _ _ Hn), (name_bound _ _ _ Hm), !bind_Ok.
  simpl as_int. rewrite !bind_Ok.
  rewrite <- Nat2Z.inj_mul, np_empty_nat, bind_Ok.
  rewrite (name_bound "results" _ (PyList rs)) by (by rewrite lookup_insert_ne).
  rewrite bind_Ok. simpl as_list. rewrite bind_Ok.
  destruct (assemble_loop_cells rs [] 0 [n * m]
              (<["prices" := PyRecarray {| shape := [n * m];
                                           cells := repeat None (n * m) |}]> g))
    as (g2 & Hloop & Hcells).
  { rewrite lookup_insert_eq. simpl. by rewrite Nat.add_0_r, Hlen. }
  simpl in Hloop, Hcells. unfold enumerate. rewrite Hloop, bind_Ok.
  rewrite (name_bound _ _ _ Hcells), bind_Ok. simpl as_recarray. rewrite bind_Ok.
  rewrite (name_bound "n_strikes" g2 (PyInt (Z.of_nat n))).
  2: { rewrite (assemble_loop_frame _ _ _ Hloop) by done.
       by rewrite lookup_insert_ne. }
  rewrite (name_bound "n_sigmas" g2 (PyInt (Z.of_nat m))).
  2: { rewrite (assemble_loop_frame _ _ _ Hloop) by done.
       by rewrite lookup_insert_ne. }
  rewrite !bind_Ok. simpl as_int. rewrite !bind_Ok.
  unfold set_shape. simpl cells.
  destruct (decide _) as [_ | Hbad].
  2: { exfalso. apply Hbad. rewrite app_nil_r, length_fmap, Hlen. lia. }
  rewrite bind_Ok. eexists. split; [reflexivity |].
  unfold Grid. rewrite lookup_insert_eq, !Nat2Z.id, app_nil_r. done.
Qed.

(** Whatever the namespace, a finished assembly has changed the names
    [prices], [i] and [price] only, and [price] holds the last result. *)
Lemma name_as_list_inv (x : string) g (rs : list (quote P)) :
  name x g ≫= as_list = Ok rs -> g !! x = Some (PyList rs).
Proof.
  unfold name. destruct (g !! x) as [[| | | | | | l |]|]; try done.
  by intros [= ->].
Qed.

Lemma assemble_inv g g' :
  assemble g = Ok g' ->
  exists (rs : list (quote P)) (a a' : recarray P) g2,
    g !! "results" = Some (PyList rs)
    /\ for_each assemble_step (enumerate rs) (<["prices" := PyRecarray a]> g) = Ok g2
    /\ g' = <["prices" := PyRecarray a']> g2.
Proof.
  unfold assemble.
  destruct (name "n_strikes" g ≫= as_int) as [n|e]; [| by rewrite ?bind_Raise]. rewrite bind_Ok.
  destruct (name "n_sigmas" g ≫= as_int) as [m|e]; [| by rewrite ?bind_Raise]. rewrite bind_Ok.
  destruct (np_empty (n * m)) as [a|e]; [| by rewrite ?bind_Raise]. rewrite bind_Ok.
  assert (Hname : name "results" (<["prices" := PyRecarray a]> g) = name "results" g).
  { unfold name. by rewrite lookup_insert_ne. }
  rewrite Hname.
  destruct (name "results" g ≫= as_list) as [rs|e] eqn:Hrs; [| by rewrite ?bind_Raise].
  apply name_as_list_inv in Hrs. rewrite bind_Ok.
  destruct (for_each assemble_step (enumerate rs) _) as [g2|e] eqn:Hloop; [| by rewrite ?bind_Raise].
  rewrite bind_Ok.
  destruct (name "prices" g2 ≫= as_recarray) as [a2|e]; [| by rewrite ?bind_Raise]. rewrite bind_Ok.
  destruct (name "n_strikes" g2 ≫= as_int) as [n2|e]; [| by rewrite ?bind_Raise]. rewrite bind_Ok.
  destruct (name "n_sigmas" g2 ≫= as_int) as [m2|e]; [| by rewrite ?bind_Raise]. rewrite bind_Ok.
  destruct (set_shape a2 n2 m2) as [a'|e]; [| by rewrite ?bind_Raise]. rewrite bind_Ok.
  intros [= <-]. by exists rs, a, a', g2.
Qed.

(** A finished assembly has rebound [prices], [i] and [price] and no
    other name; [price] and [i] hold what the last iteration bound. *)
Lemma assemble_frame g g' :
  assemble g = Ok g' ->
  (forall x : string, x ≠ "prices" -> x ≠ "i" -> x ≠ "price" -> g' !! x = g !! x)
  /\ (forall (rs : list (quote P)) (r : quote P),
        g !! "results" = Some (PyList (rs ++ [r])) ->
        g' !! "price" = Some (PyTuple r)
        /\ g' !! "i" = Some (PyInt (Z.of_nat (length rs)))).
Proof.
  intros (rs0 & a & a' & g2 & Hres & Hloop & ->)%assemble_inv. split.
  - intros x Hx1 Hx2 Hx3. rewrite lookup_insert_ne by done.
    rewrite (assemble_loop_frame _ _ _ Hloop) by done.
    by rewrite lookup_insert_ne.
  - intros rs r Hres'. rewrite Hres in Hres'. injection Hres' as ->.
    rewrite enumerate_snoc in Hloop.
    rewrite !lookup_insert_ne by done.
    by eapply assemble_loop_last.
Qed.

(** *** The whole run *)

Section Run.

Variables (price rate : F) (days paths : Z) (strikes sigmas : list F).
Variable units0 : list (WorkUnit (list (pyval F P))).
Variable c0 : Cluster (list (pyval F P)) (quote P).
Hypothesis Hc0 : consistent task units0 c0.

Abbreviation argss :=
  (grid_args (P := P) (PyFloat price) (PyFloat rate) (PyInt days) (PyInt paths)
             strikes sigmas).
Abbreviation first := (length units0).
Abbreviation count := (length strikes * length sigmas).
Abbreviation units := (units0 ++ units_from first argss).
Abbreviation handles := (handles_from first count).
Abbreviation g0 := (setup price rate days paths strikes sigmas : namespace).
Abbreviation g1 := (<["async_results" := PyHandles handles]> g0).

(** The unit of a handle is one of the grid's cells, and once terminal
    its table entry is the outcome of its pricing call. *)
Lemma handle_outcome c' (ar : AsyncResult) :
  consistent task units c' ->
  ar ∈ handles -> is_Some (ResultTable c' !! msg_id ar) ->
  exists K sigma,
    K ∈ strikes /\ sigma ∈ sigmas
    /\ ResultTable c' !! msg_id ar
       = Some (match price_option price K sigma rate days paths with
               | Ok v => Done v
               | Raise e => Failed e
               end).
Proof.
  intros Hc' Har%elem_of_handles_from Hsome.
  destruct (lookup_lt_is_Some_2 units (msg_id ar)) as [u Hu].
  { rewrite (units_length price rate days paths strikes sigmas units0). lia. }
  rewrite (table_value task units c' _ u Hc' Hu Hsome).
  rewrite lookup_app_r in Hu by lia.
  assert (Hin : unit_args u ∈ argss).
  { unfold units_from in Hu. apply lookup_zip_with_Some in Hu
      as (id & a & -> & _ & Ha). simpl. by eapply list_elem_of_lookup_2. }
  apply grid_args_elem in Hin as (K & sigma & HK & Hs & Ha).
  exists K, sigma. split_and!; try done.
  unfold run_unit. by rewrite Ha.
Qed.

Lemma cell_outcome c' (i j : nat) (K sigma : F) :
  consistent task units c' ->
  strikes !! i = Some K -> sigmas !! j = Some sigma ->
  is_Some (ResultTable c' !! (first + (i * length sigmas + j))) ->
  ResultTable c' !! (first + (i * length sigmas + j))
  = Some (match price_option price K sigma rate days paths with
          | Ok v => Done v
          | Raise e => Failed e
          end).
Proof.
  intros Hc' HK Hs Hsome.
  by rewrite (table_value task units c' _ _ Hc'
                (units_lookup price rate days paths strikes sigmas units0
                              i j K sigma HK Hs) Hsome).
Qed.

Lemma cell_index (i j : nat) (K sigma : F) :
  strikes !! i = Some K -> sigmas !! j = Some sigma ->
  i * length sigmas + j < count.
Proof.
  intros Hi%lookup_lt_Some Hj%lookup_lt_Some. nia.
Qed.

(** The names that the assembly reads, after the first two cells. *)
Lemma results_namespace (rs : list (quote P)) :
  let g2 := <["results" := PyList rs]> (bind_last handles g1) in
  g2 !! "n_strikes" = Some (PyInt (Z.of_nat (length strikes)))
  /\ g2 !! "n_sigmas" = Some (PyInt (Z.of_nat (length sigmas)))
  /\ g2 !! "results" = Some (PyList rs)
  /\ g2 !! "price" = Some (PyFloat price)
  /\ g2 !! "rate" = Some (PyFloat rate)
  /\ g2 !! "days" = Some (PyInt days)
  /\ g2 !! "paths" = Some (PyInt paths)
  /\ g2 !! "strike_vals" = Some (PyNdarray strikes)
  /\ g2 !! "sigma_vals" = Some (PyNdarray sigmas).
Proof.
  simpl. rewrite lookup_insert_eq.
  rewrite !lookup_insert_ne by done.
  rewrite !bind_last_other by done.
  rewrite !lookup_insert_ne by done.
  by split_and!.
Qed.

(** When every unit reports and the pricing function returns for every
    cell, the run ends with the array of the results in submission
    order. *)
Lemma run_done arrivals :
  covered first count arrivals ->
  (forall K sigma, K ∈ strikes -> sigma ∈ sigmas ->
                   exists v, price_option price K sigma rate days paths = Ok v) ->
  exists c' rest (vs : list (quote P)) g',
    cell_submit price_option
      (start price rate days paths strikes sigmas c0 arrivals)
    = Some (Ok {| globals := g1; cluster := c'; network := rest |})
    /\ consistent task units c'
    /\ Forall2 (fun ar v => ResultTable c' !! msg_id ar = Some (Done v)) handles vs
    /\ cell_results price_option {| globals := g1; cluster := c'; network := rest |}
       = Some (Ok {| globals := <["results" := PyList vs]> (bind_last handles g1);
                     cluster := c'; network := rest |})
    /\ assemble (<["results" := PyList vs]> (bind_last handles g1)) = Ok g'
    /\ Grid g' = Some {| shape := [length strikes; length sigmas];
                         cells := Some <$> vs |}
    /\ run price_option (start price rate days paths strikes sigmas c0 arrivals)
       = Some (Ok {| globals := g'; cluster := c'; network := rest |}).
Proof using Hc0.
  intros Hcov Htotal.
  destruct (cell_submit_covered price rate days paths strikes sigmas units0 c0
              Hc0 arrivals Hcov)
    as (c1 & c' & used & rest & _ & _ & _ & Hcell & Hc' & Hready).
  destruct (get_all_done handles rest c') as (vs & Hget & Hall).
  { intros ar Har.
    destruct (handle_outcome c' ar Hc' Har (Hready ar Har))
      as (K & sigma & HK & Hs & Ho).
    destruct (Htotal K sigma HK Hs) as [v Hv]. rewrite Hv in Ho. by exists v. }
  destruct (results_namespace vs) as (Hn & Hm & Hrs & _).
  destruct (assemble_cells _ _ _ vs Hn Hm Hrs) as (g' & Hasm & Hgrid).
  { rewrite <- (Forall2_length _ _ _ Hall). apply handles_from_length. }
  assert (Hres : cell_results price_option
                   {| globals := g1; cluster := c'; network := rest |}
                 = Some (Ok {| globals := <["results" := PyList vs]>
                                            (bind_last handles g1);
                               cluster := c'; network := rest |})).
  { rewrite (cell_results_ready _ handles (Ok vs));
      [done | by apply lookup_insert_eq | exact Hget]. }
  exists c', rest, vs, g'. split_and!; try done.
  unfold run. rewrite Hcell. simpl cell_bind. rewrite Hres.
  unfold cell_bind, cell_assemble. cbn [globals cluster network].
  by rewrite Hasm.
Qed.

(** C1. For every strike axis and volatility axis, when every unit
    reports and the pricing function returns for every pair, the run
    ends with a Grid of shape (n_strikes, n_sigmas) whose cell (i, j)
    holds the tuple that the pricing function computes from
    (strike_axis[i], sigma_axis[j]) and the fixed parameters; every cell
    is populated and no submitted unit is Failed. *)
Theorem grid_cell_holds_priced_tuple arrivals :
  covered first count arrivals ->
  (forall K sigma, K ∈ strikes -> sigma ∈ sigmas ->
                   exists v, price_option price K sigma rate days paths = Ok v) ->
  exists nb grid,
    run price_option (start price rate days paths strikes sigmas c0 arrivals)
      = Some (Ok nb)
    /\ Grid (globals nb) = Some grid
    /\ shape grid = [length strikes; length sigmas]
    /\ length (cells grid) = count
    /\ (forall i j K sigma,
          strikes !! i = Some K -> sigmas !! j = Some sigma ->
          exists v, price_option price K sigma rate days paths = Ok v
                    /\ grid_cell grid i j = Some v)
    /\ (forall ar, ar ∈ handles ->
                   exists v, ResultTable (cluster nb) !! msg_id ar = Some (Done v))
    /\ (units0 = [] -> failed_count (cluster nb) = 0).
Proof using Hc0.
  intros Hcov Htotal.
  destruct (run_done arrivals Hcov Htotal)
    as (c' & rest & vs & g' & Hcell & Hc' & Hall & _ & Hasm & Hgrid & Hrun).
  assert (Hdone : forall ar, ar ∈ handles ->
            exists v, ResultTable c' !! msg_id ar = Some (Done v)).
  { intros ar [k Hk]%list_elem_of_lookup.
    destruct (Forall2_lookup_l _ _ _ _ _ Hall Hk) as (v & _ & Hv). by exists v. }
  eexists _, _. split; [exact Hrun |]. simpl globals. simpl cluster.
  split; [exact Hgrid |]. split; [done |].
  split; [simpl; by rewrite length_fmap, <- (Forall2_length _ _ _ Hall),
            handles_from_length |].
  split; [| split; [exact Hdone |]].
  - intros i j K sigma HK Hs.
    pose proof (cell_index i j K sigma HK Hs) as Hlt.
    pose proof (handles_from_lookup first count _ Hlt) as Hh.
    destruct (Forall2_lookup_l _ _ _ _ _ Hall Hh) as (v & Hv & Htab).
    simpl in Htab.
    rewrite (cell_outcome c' i j K sigma Hc' HK Hs) in Htab by (by eexists).
    destruct (Htotal K sigma) as [v' Hv'];
      [by eapply list_elem_of_lookup_2 | by eapply list_elem_of_lookup_2 |].
    rewrite Hv' in Htab. injection Htab as ->.
    exists v. split; [done |].
    unfold grid_cell. cbn [shape cells]. cbv iota.
    apply lookup_lt_Some in HK, Hs.
    case_decide as Hdec; [| exfalso; apply Hdec; by split].
    by rewrite list_lookup_fmap, Hv.
  - intros Hnew. apply failed_count_zero. intros id o Ho.
    assert (Har : {| msg_id := id |} ∈ handles).
    { apply elem_of_handles_from. simpl.
      destruct (table_spec _ _ _ Hc' id o Ho) as (u & Hu%lookup_lt_Some & _).
      rewrite (units_length price rate days paths strikes sigmas units0) in Hu.
      assert (Hfirst : first = 0) by (by rewrite Hnew). lia. }
    destruct (Hdone _ Har) as [v Hv]. simpl in Hv.
    rewrite Ho in Hv. by injection Hv as ->.
Qed.

(** C5. The submission loops hand every unit of the grid to the
    cluster and give back one handle per unit without taking any
    report: the table and the log are as before. The units get fresh,
    pairwise different ids and join the tail of the queue in submission
    order, which is row-major: the unit of cell (i, j) is entry
    [i * n_sigmas + j], with the strike as the outer index. *)
Theorem submission_in_row_major_order :
  exists c1,
    submit_tasks g0 c0 = Ok (c1, handles)
    /\ length handles = length argss
    /\ PendingQueue c1 = PendingQueue c0 ++ units_from first argss
    /\ NoDup (unit_id <$> PendingQueue c1)
    /\ ResultTable c1 = ResultTable c0
    /\ executed c1 = executed c0
    /\ (forall i j K sigma,
          strikes !! i = Some K -> sigmas !! j = Some sigma ->
          units_from first argss !! (i * length sigmas + j)
            = Some {| unit_id := first + (i * length sigmas + j);
                      unit_args := task_args (PyFloat price) (PyFloat rate)
                                             (PyInt days) (PyInt paths) K sigma |}
          /\ handles !! (i * length sigmas + j)
             = Some {| msg_id := first + (i * length sigmas + j) |}).
Proof using Hc0.
  destruct (submit_tasks_start price rate days paths strikes sigmas units0 c0 Hc0)
    as (c1 & Hsub & Hcons & Hq & Ht & Hlog).
  exists c1. split_and!; try done.
  - by rewrite handles_from_length, grid_args_length.
  - by apply (pending_ids_NoDup task units).
  - intros i j K sigma HK Hs. split.
    + apply units_from_lookup. by apply grid_args_lookup.
    + apply handles_from_lookup. by eapply cell_index.
Qed.

(** C2. The submission cell returns when every submitted unit has
    reported, and then the table holds an entry for each of the N =
    n_strikes * n_sigmas handles, whose ids are pairwise different, and
    no entry for any other id handed out by this submission; on a
    cluster with nothing outstanding before, the table has exactly one
    entry per unit ever submitted (N on a new cluster) and the queue is
    empty. The array that a finished run assembles has N records, and the
    run does finish when the pricing function returns for every pair. *)
Theorem result_table_one_entry_per_unit arrivals :
  (covered first count arrivals ->
     exists nb1,
       cell_submit price_option
         (start price rate days paths strikes sigmas c0 arrivals) = Some (Ok nb1))
  /\ (forall nb1,
        cell_submit price_option
          (start price rate days paths strikes sigmas c0 arrivals) = Some (Ok nb1) ->
        globals nb1 !! "async_results" = Some (PyHandles handles)
        /\ length handles = count
        /\ NoDup (msg_id <$> handles)
        /\ (forall ar, ar ∈ handles ->
                       is_Some (ResultTable (cluster nb1) !! msg_id ar))
        /\ (forall id, first <= id ->
                       is_Some (ResultTable (cluster nb1) !! id) ->
                       exists ar, ar ∈ handles /\ msg_id ar = id)
        /\ (PendingQueue c0 = [] ->
              size (ResultTable (cluster nb1)) = first + count
              /\ PendingQueue (cluster nb1) = []))
  /\ (forall nb,
        run price_option (start price rate days paths strikes sigmas c0 arrivals)
          = Some (Ok nb) ->
        exists grid, Grid (globals nb) = Some grid /\ length (cells grid) = count)
  /\ (covered first count arrivals ->
      (forall K sigma, K ∈ strikes -> sigma ∈ sigmas ->
                       exists v, price_option price K sigma rate days paths = Ok v) ->
      exists nb grid,
        run price_option (start price rate days paths strikes sigmas c0 arrivals)
          = Some (Ok nb)
        /\ Grid (globals nb) = Some grid /\ length (cells grid) = count).
Proof using Hc0.
  assert (Hinv : forall nb1,
            cell_submit price_option
              (start price rate days paths strikes sigmas c0 arrivals)
              = Some (Ok nb1) ->
            exists c1 used,
              ResultTable c1 = ResultTable c0
              /\ consistent task units c1
              /\ cluster nb1 = deliver task used c1
              /\ globals nb1 = g1
              /\ consistent task units (cluster nb1)
              /\ (forall ar, ar ∈ handles ->
                             is_Some (ResultTable (cluster nb1) !! msg_id ar))).
  { intros nb1 Hcell.
    pose proof (cell_submit_returns price rate days paths strikes sigmas units0 c0
                  Hc0 arrivals _ Hcell) as Hcov.
    destruct (cell_submit_covered price rate days paths strikes sigmas units0 c0
                Hc0 arrivals Hcov)
      as (c1 & c' & used & rest & _ & Hsub & Hdel & Hcell' & Hc' & Hready).
    rewrite Hcell in Hcell'. injection Hcell' as ->.
    destruct (submit_tasks_start price rate days paths strikes sigmas units0 c0 Hc0)
      as (c1' & Hsub' & Hcons & _ & Ht & _).
    rewrite Hsub in Hsub'. injection Hsub' as <-.
    exists c1, used. by split_and!. }
  split_and!.
  - intros Hcov.
    destruct (cell_submit_covered price rate days paths strikes sigmas units0 c0
                Hc0 arrivals Hcov)
      as (c1 & c' & used & rest & _ & _ & _ & Hcell & _).
    by eexists.
  - intros nb1 Hcell.
    destruct (Hinv nb1 Hcell) as (c1 & used & Ht & Hc1 & Hdel & Hg & Hc' & Hready).
    split_and!.
    + rewrite Hg. apply lookup_insert_eq.
    + apply handles_from_length.
    + apply handles_from_NoDup.
    + exact Hready.
    + intros id Hid Hsome. exists {| msg_id := id |}. split; [| done].
      apply elem_of_handles_from. simpl.
      destruct Hsome as [o Ho].
      destruct (table_spec _ _ _ Hc' id o Ho) as (u & Hu%lookup_lt_Some & _).
      rewrite (units_length price rate days paths strikes sigmas units0) in Hu.
      lia.
    + intros Hq0.
      assert (Hall : forall id, id < first + count ->
                       is_Some (ResultTable (cluster nb1) !! id)).
      { intros id Hid. destruct (decide (id < first)) as [Hold | Hnew].
        - rewrite Hdel, (deliver_table task units) by done. left.
          rewrite Ht. by apply (no_pending_terminal task units0).
        - apply (Hready {| msg_id := id |}). apply elem_of_handles_from.
          simpl. lia. }
      split.
      * rewrite <- size_dom.
        replace (dom (ResultTable (cluster nb1)))
          with (set_seq 0 (first + count) : gset nat);
          [apply size_set_seq |].
        apply set_eq. intros id. rewrite elem_of_set_seq, elem_of_dom.
        split; [intros [_ Hid]; by apply Hall |].
        intros [o Ho].
        destruct (table_spec _ _ _ Hc' id o Ho) as (u & Hu%lookup_lt_Some & _).
        rewrite (units_length price rate days paths strikes sigmas units0) in Hu.
        lia.
      * rewrite (queue_spec _ _ _ Hc').
        destruct (filter _ units) as [|u l] eqn:Hf; [done |].
        assert (Hu : u ∈ filter (fun u => ResultTable (cluster nb1) !! unit_id u = None)
                                units) by (rewrite Hf; by left).
        apply list_elem_of_filter in Hu as [Hnone [k Hk]%list_elem_of_lookup].
        rewrite (ids_in_order _ _ _ Hc' k u Hk) in Hnone.
        apply lookup_lt_Some in Hk.
        rewrite (units_length price rate days paths strikes sigmas units0) in Hk.
        destruct (Hall k Hk) as [o Ho]. congruence.
  - intros nb Hrun. unfold run in Hrun.
    destruct (cell_submit price_option _) as [[nb1|e]|] eqn:Hcell;
      simpl in Hrun; try discriminate.
    destruct (Hinv nb1 eq_refl) as (c1 & used & _ & _ & _ & Hg & Hc' & Hready).
    destruct (get_all_agree handles (network nb1) (network nb1)
                (cluster nb1) (cluster nb1)) as (r & Hget & _).
    { intros ar Har. split; [by apply Hready | done]. }
    rewrite (cell_results_ready nb1 handles r) in Hrun;
      [| rewrite Hg; apply lookup_insert_eq | exact Hget].
    destruct r as [rs|e]; [| discriminate].
    pose proof (get_all_length _ _ _ _ _ _ Hget) as Hlen.
    rewrite handles_from_length in Hlen.
    unfold cell_bind, cell_assemble in Hrun.
    cbn [globals cluster network] in Hrun.
    rewrite Hg in Hrun.
    destruct (results_namespace rs) as (Hn & Hm & Hrs & _).
    destruct (assemble_cells _ _ _ rs Hn Hm Hrs Hlen) as (g' & Hasm & Hgrid).
    rewrite Hasm in Hrun. injection Hrun as <-.
    eexists. split; [exact Hgrid |]. simpl. by rewrite length_fmap.
  - intros Hcov Htotal.
    destruct (run_done arrivals Hcov Htotal)
      as (c' & rest & vs & g' & _ & _ & Hall & _ & _ & Hgrid & Hrun).
    eexists _, _. split; [exact Hrun |]. split; [exact Hgrid |].
    simpl. by rewrite length_fmap, <- (Forall2_length _ _ _ Hall), handles_from_length.
Qed.

(** C8. Whatever the pricing function does on the workers, the
    submission cell (submission and wait) finishes without raising
    once every unit has reported. Each unit has then been run exactly
    once, [Failed] or not, and a later report for it changes nothing; a
    unit whose pricing call raised is [Failed] with that error, and the
    error is raised, wrapped as [RemoteError], only by [get] on that
    unit's handle: [get] on the handle of a [Done] unit returns its
    value. *)
Theorem worker_error_surfaces_at_get arrivals :
  covered first count arrivals ->
  exists c' rest,
    cell_submit price_option
      (start price rate days paths strikes sigmas c0 arrivals)
    = Some (Ok {| globals := g1; cluster := c'; network := rest |})
    /\ NoDup (executed c')
    /\ (forall i j K sigma,
          strikes !! i = Some K -> sigmas !! j = Some sigma ->
          let ar := {| msg_id := first + (i * length sigmas + j) |} in
          msg_id ar ∈ executed c'
          /\ complete task (msg_id ar) c' = c'
          /\ match price_option price K sigma rate days paths with
             | Raise e =>
                 ResultTable c' !! msg_id ar = Some (Failed e)
                 /\ get task ar rest c' = Some (c', rest, Raise (RemoteError e))
             | Ok v =>
                 ResultTable c' !! msg_id ar = Some (Done v)
                 /\ get task ar rest c' = Some (c', rest, Ok v)
             end).
Proof using Hc0.
  intros Hcov.
  destruct (cell_submit_covered price rate days paths strikes sigmas units0 c0
              Hc0 arrivals Hcov)
    as (c1 & c' & used & rest & _ & _ & _ & Hcell & Hc' & Hready).
  exists c', rest. split; [exact Hcell |]. split; [by eapply log_nodup |].
  intros i j K sigma HK Hs ar.
  assert (Har : ar ∈ handles).
  { apply elem_of_handles_from. simpl.
    pose proof (cell_index i j K sigma HK Hs). lia. }
  pose proof (Hready ar Har) as Hsome.
  pose proof (cell_outcome c' i j K sigma Hc' HK Hs Hsome) as Ho.
  split; [by apply (log_spec _ _ _ Hc') |].
  split; [apply (complete_not_pending task units); [done | by left] |].
  destruct (price_option price K sigma rate days paths) as [v|e].
  - split; [exact Ho |]. by rewrite (get_ready task ar rest c' _ Ho).
  - split; [exact Ho |]. by rewrite (get_ready task ar rest c' _ Ho).
Qed.

(** Any two orders of arrival in which every unit reports leave the
    same namespace, or the same exception. *)
Lemma run_globals_covered (arrivals1 arrivals2 : list nat) :
  covered first count arrivals1 -> covered first count arrivals2 ->
  run_globals price_option (start price rate days paths strikes sigmas c0 arrivals1)
  = run_globals price_option (start price rate days paths strikes sigmas c0 arrivals2).
Proof using Hc0.
  intros Hcov1 Hcov2.
  destruct (cell_submit_covered price rate days paths strikes sigmas units0 c0
              Hc0 arrivals1 Hcov1)
    as (c1 & c' & used1 & rest1 & _ & _ & _ & Hcell1 & Hc' & Hready1).
  destruct (cell_submit_covered price rate days paths strikes sigmas units0 c0
              Hc0 arrivals2 Hcov2)
    as (c2 & c'' & used2 & rest2 & _ & _ & _ & Hcell2 & Hc'' & Hready2).
  destruct (get_all_agree handles rest1 rest2 c' c'') as (r & Hget1 & Hget2).
  { intros ar Har. split; [by apply Hready1 |].
    pose proof Har as Hid%elem_of_handles_from.
    destruct (lookup_lt_is_Some_2 units (msg_id ar)) as [u Hu].
    { rewrite (units_length price rate days paths strikes sigmas units0). lia. }
    rewrite (table_value task units c' _ u), (table_value task units c'' _ u); auto. }
  unfold run_globals, run. rewrite Hcell1, Hcell2. simpl cell_bind.
  rewrite (cell_results_ready _ handles r);
    [| by apply lookup_insert_eq | exact Hget1].
  rewrite (cell_results_ready _ handles r);
    [| by apply lookup_insert_eq | exact Hget2].
  destruct r as [rs|e]; [| done].
  unfold cell_bind, cell_assemble. cbn [globals cluster network].
  by destruct (assemble _).
Qed.

(** When some unit never reports, the run never returns. *)
Lemma run_globals_not_covered arrivals :
  ¬ covered first count arrivals ->
  run_globals price_option (start price rate days paths strikes sigmas c0 arrivals)
  = None.
Proof using Hc0.
  intros Hnot. unfold run_globals, run.
  destruct (cell_submit price_option _) as [r|] eqn:Hcell; [| done].
  exfalso. apply Hnot.
  by eapply (cell_submit_returns price rate days paths strikes sigmas units0 c0).
Qed.

(** C6. The outcome of the run, and with it the assembled Grid, does not
    depend on the order in which the workers' results arrive: two runs
    whose arrival orders are permutations of each other leave the same
    namespace (the same array [prices]), or raise the same exception,
    or both never return. *)
Theorem assembly_ignores_arrival_order (arrivals1 arrivals2 : list nat) :
  arrivals1 ≡ₚ arrivals2 ->
  run_globals price_option (start price rate days paths strikes sigmas c0 arrivals1)
  = run_globals price_option (start price rate days paths strikes sigmas c0 arrivals2).
Proof using Hc0.
  intros Hperm.
  assert (Hiff : covered first count arrivals1 <-> covered first count arrivals2).
  { unfold covered. rewrite !Forall_forall.
    split; intros H id Hid; specialize (H id Hid);
      [by rewrite <- Hperm | by rewrite Hperm]. }
  destruct (decide (Forall (fun id => id ∈ arrivals1) (seq first count)))
    as [Hcov | Hnot].
  - apply run_globals_covered; [done | by apply Hiff].
  - rewrite !run_globals_not_covered; [done | | done].
    intros Hcov. apply Hnot. by apply Hiff.
Qed.

(** Entry [k] of the row-major order is a cell (i, j) of the grid. *)
Lemma grid_index (k : nat) :
  k < count ->
  exists i j K sigma,
    strikes !! i = Some K /\ sigmas !! j = Some sigma
    /\ k = i * length sigmas + j.
Proof.
  intros Hk.
  assert (Hm : length sigmas ≠ 0) by (intros Hz; rewrite Hz in Hk; lia).
  destruct (lookup_lt_is_Some_2 strikes (k / length sigmas)) as [K HK].
  { apply Nat.Div0.div_lt_upper_bound. lia. }
  destruct (lookup_lt_is_Some_2 sigmas (k mod length sigmas)) as [sigma Hs].
  { by apply Nat.mod_upper_bound. }
  exists (k / length sigmas), (k mod length sigmas), K, sigma.
  split_and!; try done.
  rewrite (Nat.div_mod_eq k (length sigmas)) at 1. lia.
Qed.

(** Among terminal handles of which one is [Failed], retrieval stops at
    the first [Failed] one. *)
Lemma get_all_first_failed (hs : list AsyncResult) arrivals c :
  (forall ar, ar ∈ hs -> is_Some (ResultTable c !! msg_id ar)) ->
  (exists ar e, ar ∈ hs /\ ResultTable c !! msg_id ar = Some (Failed e)) ->
  exists before ar after e,
    hs = before ++ ar :: after
    /\ (forall ar', ar' ∈ before ->
                    exists v, ResultTable c !! msg_id ar' = Some (Done v))
    /\ ResultTable c !! msg_id ar = Some (Failed e)
    /\ get_all price_option hs arrivals c
       = Some (c, arrivals, Raise (RemoteError e)).
Proof.
  intros Hready Hfailed.
  assert (Hsplit : exists before ar after e,
             hs = before ++ ar :: after
             /\ (forall ar', ar' ∈ before ->
                             exists v, ResultTable c !! msg_id ar' = Some (Done v))
             /\ ResultTable c !! msg_id ar = Some (Failed e)).
  { induction hs as [|ar hs' IH].
    - destruct Hfailed as (ar & e & Har%elem_of_nil & _). done.
    - destruct (Hready ar) as [[v|e] Ho]; [by left | |].
      + destruct IH as (before & ar' & after & e & -> & Hbefore & Hfail).
        * intros ar' Har'. apply Hready. by right.
        * destruct Hfailed as (ar' & e & [-> | Har']%elem_of_cons & Hfail);
            [congruence | by exists ar', e].
        * exists (ar :: before), ar', after, e. split_and!; try done.
          intros ar'' [-> | Har'']%elem_of_cons; [by exists v | by apply Hbefore].
      + exists [], ar, hs', e. split_and!; try done.
        by intros ar' Har'%elem_of_nil. }
  destruct Hsplit as (before & ar & after & e & -> & Hbefore & Hfail).
  exists before, ar, after, e. split_and!; try done.
  by apply get_all_failed.
Qed.

(** C7, as the code has it. If the pricing call of some unit raised,
    then the run fails loudly once every unit has reported: the
    retrieval that precedes the assembly raises, as a [RemoteError],
    the error of the first [Failed] unit in submission order, so that
    no Grid is assembled and no value is substituted for the missing
    cell. The submission cell itself has finished, and in the table
    every unit whose pricing call returned is [Done] with its value. *)
Theorem failed_unit_fails_retrieval arrivals :
  covered first count arrivals ->
  (exists K sigma e,
      K ∈ strikes /\ sigma ∈ sigmas
      /\ price_option price K sigma rate days paths = Raise e) ->
  exists c' rest i j K sigma e,
    cell_submit price_option
      (start price rate days paths strikes sigmas c0 arrivals)
    = Some (Ok {| globals := g1; cluster := c'; network := rest |})
    /\ strikes !! i = Some K /\ sigmas !! j = Some sigma
    /\ price_option price K sigma rate days paths = Raise e
    /\ (forall i' j' K' sigma',
          strikes !! i' = Some K' -> sigmas !! j' = Some sigma' ->
          i' * length sigmas + j' < i * length sigmas + j ->
          exists v, price_option price K' sigma' rate days paths = Ok v)
    /\ run price_option (start price rate days paths strikes sigmas c0 arrivals)
       = Some (Raise (RemoteError e))
    /\ class_name (RemoteError e) = "RemoteError"
    /\ (forall i' j' K' sigma' v,
          strikes !! i' = Some K' -> sigmas !! j' = Some sigma' ->
          price_option price K' sigma' rate days paths = Ok v ->
          ResultTable c' !! (first + (i' * length sigmas + j')) = Some (Done v)).
Proof using Hc0.
  intros Hcov (K0 & sigma0 & e0 & [i0 HK0]%list_elem_of_lookup
               & [j0 Hs0]%list_elem_of_lookup & Hraise0).
  destruct (cell_submit_covered price rate days paths strikes sigmas units0 c0
              Hc0 arrivals Hcov)
    as (c1 & c' & used & rest & _ & _ & _ & Hcell & Hc' & Hready).
  assert (Hcellready : forall i j K sigma,
            strikes !! i = Some K -> sigmas !! j = Some sigma ->
            is_Some (ResultTable c' !! (first + (i * length sigmas + j)))).
  { intros i j K sigma HK Hs.
    apply (Hready {| msg_id := first + (i * length sigmas + j) |}).
    apply elem_of_handles_from. simpl.
    pose proof (cell_index i j K sigma HK Hs). lia. }
  destruct (get_all_first_failed handles rest c' Hready)
    as (before & ar & after & e & Hsplit & Hbefore & Hfail & Hget).
  { exists {| msg_id := first + (i0 * length sigmas + j0) |}, e0. split.
    - apply elem_of_handles_from. simpl.
      pose proof (cell_index i0 j0 K0 sigma0 HK0 Hs0). lia.
    - simpl. rewrite (cell_outcome c' i0 j0 K0 sigma0 Hc' HK0 Hs0) by eauto.
      by rewrite Hraise0. }
  assert (Hlen : length before < count).
  { rewrite <- (handles_from_length first count), Hsplit, length_app. simpl. lia. }
  assert (Har : ar = {| msg_id := first + length before |}).
  { pose proof (handles_from_lookup first count _ Hlen) as Hl.
    rewrite Hsplit, list_lookup_middle in Hl by done. congruence. }
  destruct (grid_index _ Hlen) as (i & j & K & sigma & HK & Hs & Hk).
  exists c', rest, i, j, K, sigma, e.
  assert (Hraise : price_option price K sigma rate days paths = Raise e).
  { rewrite Har in Hfail. simpl in Hfail. rewrite Hk in Hfail.
    rewrite (cell_outcome c' i j K sigma Hc' HK Hs) in Hfail by eauto.
    destruct (price_option price K sigma rate days paths); congruence. }
  split_and!; try done.
  - intros i' j' K' sigma' HK' Hs' Hlt.
    destruct (Hbefore {| msg_id := first + (i' * length sigmas + j') |}) as [v Hv].
    { apply list_elem_of_lookup. exists (i' * length sigmas + j').
      assert (Hlt' : i' * length sigmas + j' < length before) by lia.
      pose proof (handles_from_lookup first count (i' * length sigmas + j')) as Hl.
      rewrite Hsplit, lookup_app_l in Hl by done. apply Hl. lia. }
    simpl in Hv.
    rewrite (cell_outcome c' i' j' K' sigma' Hc' HK' Hs') in Hv by eauto.
    destruct (price_option price K' sigma' rate days paths) as [v'|e'];
      [by exists v' | congruence].
  - unfold run. rewrite Hcell. simpl cell_bind.
    rewrite (cell_results_ready _ handles (Raise (RemoteError e)));
      [done | by apply lookup_insert_eq | exact Hget].
  - intros i' j' K' sigma' v HK' Hs' Hv.
    rewrite (cell_outcome c' i' j' K' sigma' Hc' HK' Hs') by eauto.
    by rewrite Hv.
Qed.

(** C10. The assembly cell writes more than the array: its loop
    variables are notebook names. Whatever the namespace, a finished
    assembly has changed no name other than [prices], [i] and [price].
    In the run, every task was submitted with the float bound to
    [price] as its first argument, the namespace before the assembly
    still binds [price] to that float, and after the assembly [price]
    is bound to the last result tuple (the one of the last strike and
    the last volatility) while [rate], [days], [paths], [strike_vals]
    and [sigma_vals] are bound as before. *)
Theorem assembly_rebinds_price arrivals (K sigma : F) :
  covered first count arrivals ->
  (forall K' sigma', K' ∈ strikes -> sigma' ∈ sigmas ->
                     exists v, price_option price K' sigma' rate days paths = Ok v) ->
  last strikes = Some K -> last sigmas = Some sigma ->
  (forall (g g' : namespace),
      assemble g = Ok g' ->
      forall x : string,
        x ≠ "prices" -> x ≠ "i" -> x ≠ "price" -> g' !! x = g !! x)
  /\ (forall a, a ∈ argss -> a !! 0 = Some (PyFloat price))
  /\ exists c' rest g2 g' r,
       cell_bind (cell_submit price_option
                    (start price rate days paths strikes sigmas c0 arrivals))
                 (cell_results price_option)
         = Some (Ok {| globals := g2; cluster := c'; network := rest |})
       /\ g2 !! "price" = Some (PyFloat price)
       /\ assemble g2 = Ok g'
       /\ run price_option (start price rate days paths strikes sigmas c0 arrivals)
          = Some (Ok {| globals := g'; cluster := c'; network := rest |})
       /\ price_option price K sigma rate days paths = Ok r
       /\ g' !! "price" = Some (PyTuple r)
       /\ g' !! "price" ≠ Some (PyFloat price)
       /\ g' !! "rate" = Some (PyFloat rate)
       /\ g' !! "days" = Some (PyInt days)
       /\ g' !! "paths" = Some (PyInt paths)
       /\ g' !! "strike_vals" = Some (PyNdarray strikes)
       /\ g' !! "sigma_vals" = Some (PyNdarray sigmas).
Proof using Hc0.
  intros Hcov Htotal HK Hs.
  split; [intros g g' Hasm; by apply assemble_frame |].
  split; [by intros a (K' & sigma' & _ & _ & ->)%grid_args_elem |].
  destruct (run_done arrivals Hcov Htotal)
    as (c' & rest & vs & g' & Hcell & Hc' & Hall & Hres & Hasm & Hgrid & Hrun).
  destruct (results_namespace vs)
    as (_ & _ & Hvs & Hprice & Hrate & Hdays & Hpaths & Hstrikes & Hsigmas).
  destruct (assemble_frame _ _ Hasm) as [Hframe Hlast].
  rewrite last_lookup in HK, Hs.
  pose proof (lookup_lt_Some _ _ _ HK) as Hn.
  pose proof (lookup_lt_Some _ _ _ Hs) as Hm.
  pose proof (cell_index _ _ K sigma HK Hs) as Hlt.
  pose proof (handles_from_lookup first count _ Hlt) as Hh.
  destruct (Forall2_lookup_l _ _ _ _ _ Hall Hh) as (r & Hr & Htab).
  simpl in Htab.
  assert (Hlen : length vs = count).
  { rewrite <- (Forall2_length _ _ _ Hall). apply handles_from_length. }
  assert (Hlastvs : last vs = Some r).
  { rewrite last_lookup, <- Hr. f_equal. rewrite Hlen. nia. }
  apply last_Some in Hlastvs as [vs' ->].
  destruct (Hlast vs' r Hvs) as [Hp _].
  assert (Hcall : price_option price K sigma rate days paths = Ok r).
  { rewrite (cell_outcome c' _ _ K sigma Hc' HK Hs) in Htab by eauto.
    destruct (price_option price K sigma rate days paths); congruence. }
  exists c', rest, (<["results" := PyList (vs' ++ [r])]> (bind_last handles g1)), g', r.
  split_and!; try done.
  - rewrite Hcell. simpl cell_bind. exact Hres.
  - by rewrite Hp.
  - by rewrite Hframe.
  - by rewrite Hframe.
  - by rewrite Hframe.
  - by rewrite Hframe.
  - by rewrite Hframe.
Qed.

End Run.

End Facts.

End NotebookFacts.

(** ** The scenarios *)

Module ScenarioFacts.

Import Parallel Notebook ParallelFacts NotebookFacts Scenario.
Import PrimFloat.

Lemma two_workers_covered : covered 0 9 two_workers.
Proof.
  apply covered_spec. intros k Hk. unfold two_workers.
  rewrite !elem_of_cons, elem_of_nil. simpl. lia.
Qed.

Lemma two_workers_permutation : two_workers ≡ₚ seq 0 9.
Proof.
  unfold two_workers. apply NoDup_Permutation.
  - repeat (apply NoDup_cons_2;
              [rewrite ?elem_of_cons, ?elem_of_nil; lia |]).
    apply NoDup_nil_2.
  - apply NoDup_seq.
  - intros x. rewrite elem_of_seq, !elem_of_cons, elem_of_nil. lia.
Qed.

Lemma stub_total (K sigma : float) :
  K ∈ strike_axis -> sigma ∈ sigma_axis ->
  exists v, stub 100 K sigma 0.05 260 10000 = Ok v.
Proof. intros _ _. by eexists. Qed.

Lemma raising_stub_raises :
  raising_stub 100 100 0.25 0.05 260 10000 = Raise (PyException "RuntimeError").
Proof. reflexivity. Qed.

Lemma raising_stub_error (S0 K sigma r : float) (days paths : Z) (e : exn) :
  raising_stub S0 K sigma r days paths = Raise e -> e = PyException "RuntimeError".
Proof.
  unfold raising_stub, stub.
  destruct (PrimFloat.eqb K 100 && PrimFloat.eqb sigma 0.25)%bool; congruence.
Qed.

(** The first scenario of the specification: Grid[0][0] is
    (90, 0.1, 90, 0.1), the nine cells are populated and no unit is Failed. *)
Lemma grid_cell_holds_priced_tuple_witness :
  exists nb grid,
    run stub (scenario two_workers) = Some (Ok nb)
    /\ Grid (globals nb) = Some grid
    /\ length (cells grid) = 9
    /\ grid_cell grid 0 0 = Some (90, 0.1, 90, 0.1)%float
    /\ (forall i j, i < 3 -> j < 3 -> is_Some (grid_cell grid i j))
    /\ failed_count (cluster nb) = 0.
Proof.
  destruct (grid_cell_holds_priced_tuple stub 100%float 0.05%float 260 10000
              strike_axis sigma_axis [] new_cluster (consistent_new _)
              two_workers two_workers_covered stub_total)
    as (nb & grid & Hrun & Hgrid & Hshape & Hlen & Hcells & Hdone & Hfail).
  exists nb, grid. split; [exact Hrun |]. split; [exact Hgrid |].
  split; [exact Hlen |]. split; [| split; [| by apply Hfail]].
  - destruct (Hcells 0 0 _ _ eq_refl eq_refl) as (v & Hv & Hcell).
    injection Hv as <-. exact Hcell.
  - intros i j Hi Hj.
    destruct i as [|[|[|i]]]; [| | | lia];
      (destruct j as [|[|[|j]]]; [| | | lia]);
      match goal with
      | |- is_Some (grid_cell _ ?i ?j) =>
          destruct (Hcells i j _ _ eq_refl eq_refl) as (v & _ & Hcell)
      end;
      rewrite Hcell; by eexists.
Defined.

(** On a new cluster the table ends with nine entries. *)
Lemma result_table_one_entry_per_unit_witness :
  exists nb1,
    cell_submit stub (scenario two_workers) = Some (Ok nb1)
    /\ size (ResultTable (cluster nb1)) = 9
    /\ PendingQueue (cluster nb1) = [].
Proof.
  pose proof (result_table_one_entry_per_unit stub 100%float 0.05%float 260 10000
                strike_axis sigma_axis [] new_cluster (consistent_new _) two_workers)
    as (Hreturns & Htable & _ & _).
  destruct (Hreturns two_workers_covered) as [nb1 Hcell].
  exists nb1. split; [exact Hcell |].
  destruct (Htable nb1 Hcell) as (_ & _ & _ & _ & _ & Hsize).
  exact (Hsize eq_refl).
Defined.

(** The unit of strike 100 and volatility 0.4 is the sixth in the queue. *)
Lemma submission_in_row_major_order_witness :
  exists c1,
    submit_tasks (setup 100%float 0.05%float 260 10000 strike_axis sigma_axis) new_cluster
      = Ok (c1, handles_from 0 9)
    /\ PendingQueue c1 !! 5
       = Some {| unit_id := 5;
                 unit_args := task_args (P := float) (PyFloat 100%float) (PyFloat 0.05%float)
                                        (PyInt 260) (PyInt 10000) 100%float 0.4%float |}.
Proof.
  destruct (submission_in_row_major_order stub 100%float 0.05%float 260 10000
              strike_axis sigma_axis [] new_cluster (consistent_new _))
    as (c1 & Hsub & _ & Hq & _ & _ & _ & Hcells).
  exists c1. split; [exact Hsub |].
  rewrite Hq. exact (proj1 (Hcells 1 2 _ _ eq_refl eq_refl)).
Defined.

(** Two workers against in-order arrival. *)
Lemma assembly_ignores_arrival_order_witness :
  run_globals stub (scenario two_workers) = run_globals stub (scenario (seq 0 9)).
Proof.
  exact (assembly_ignores_arrival_order stub 100%float 0.05%float 260 10000
           strike_axis sigma_axis [] new_cluster (consistent_new _)
           two_workers (seq 0 9) two_workers_permutation).
Defined.

(** The second scenario of the specification, as the code runs it: the
    other eight units are Done and the run raises the worker's error. *)
Lemma failed_unit_fails_retrieval_witness :
  exists c' rest,
    cell_submit raising_stub (scenario two_workers)
      = Some (Ok {| globals := <["async_results" := PyHandles (handles_from 0 9)]>
                                 (setup 100%float 0.05%float 260 10000 strike_axis sigma_axis);
                    cluster := c'; network := rest |})
    /\ run raising_stub (scenario two_workers)
       = Some (Raise (RemoteError (PyException "RuntimeError")))
    /\ (forall id, id < 9 -> id ≠ 4 ->
                   exists v, ResultTable c' !! id = Some (Done v)).
Proof.
  destruct (failed_unit_fails_retrieval raising_stub 100%float 0.05%float 260 10000
              strike_axis sigma_axis [] new_cluster (consistent_new _)
              two_workers two_workers_covered)
    as (c' & rest & i & j & K & sigma & e & Hcell & _ & _ & Hraise & _ & Hrun & _ & Hdone).
  { exists 100%float, 0.25%float, (PyException "RuntimeError").
    split; [unfold strike_axis; rewrite !elem_of_cons; tauto |].
    split; [unfold sigma_axis; rewrite !elem_of_cons; tauto |].
    exact raising_stub_raises. }
  apply raising_stub_error in Hraise. subst e. exists c', rest. split; [exact Hcell |]. split; [exact Hrun |].
  intros id Hid Hne.
  destruct id as [|[|[|[|[|[|[|[|[|id]]]]]]]]]; try lia; eexists.
  - exact (Hdone 0 0 _ _ _ eq_refl eq_refl eq_refl).
  - exact (Hdone 0 1 _ _ _ eq_refl eq_refl eq_refl).
  - exact (Hdone 0 2 _ _ _ eq_refl eq_refl eq_refl).
  - exact (Hdone 1 0 _ _ _ eq_refl eq_refl eq_refl).
  - exact (Hdone 1 2 _ _ _ eq_refl eq_refl eq_refl).
  - exact (Hdone 2 0 _ _ _ eq_refl eq_refl eq_refl).
  - exact (Hdone 2 1 _ _ _ eq_refl eq_refl eq_refl).
  - exact (Hdone 2 2 _ _ _ eq_refl eq_refl eq_refl).
Defined.

(** C7 as stated fails: in the scenario with one raising unit the run
    raises a [RemoteError], not an IncompleteGridError. *)
Lemma incomplete_grid_error_is_not_raised :
  run_globals raising_stub (scenario two_workers)
    = Some (Raise (RemoteError (PyException "RuntimeError")))
  /\ ~ (exists e,
          run_globals raising_stub (scenario two_workers) = Some (Raise e)
          /\ class_name e = "IncompleteGridError").
Proof.
  assert (Hrun : run_globals raising_stub (scenario two_workers)
                 = Some (Raise (RemoteError (PyException "RuntimeError"))))
    by (vm_compute; reflexivity).
  split; [exact Hrun |].
  intros (e & He & Hname). rewrite Hrun in He. injection He as <-.
  discriminate Hname.
Qed.

(** The error of the raising unit comes out of [get] on its handle, and
    only there. *)
Lemma worker_error_surfaces_at_get_witness :
  exists c' rest,
    cell_submit raising_stub (scenario two_workers)
      = Some (Ok {| globals := <["async_results" := PyHandles (handles_from 0 9)]>
                                 (setup 100%float 0.05%float 260 10000 strike_axis sigma_axis);
                    cluster := c'; network := rest |})
    /\ get (call_price_option raising_stub) {| msg_id := 4 |} rest c'
       = Some (c', rest, Raise (RemoteError (PyException "RuntimeError")))
    /\ get (call_price_option raising_stub) {| msg_id := 0 |} rest c'
       = Some (c', rest, Ok (90, 0.1, 90, 0.1)%float).
Proof.
  destruct (worker_error_surfaces_at_get raising_stub 100%float 0.05%float 260 10000
              strike_axis sigma_axis [] new_cluster (consistent_new _)
              two_workers two_workers_covered)
    as (c' & rest & Hcell & _ & Hunits).
  exists c', rest. split; [exact Hcell |]. split.
  - exact (proj2 (proj2 (proj2 (Hunits 1 1 _ _ eq_refl eq_refl)))).
  - exact (proj2 (proj2 (proj2 (Hunits 0 0 _ _ eq_refl eq_refl)))).
Defined.

(** After the run of the first scenario [price] is the last result. *)
Lemma assembly_rebinds_price_witness :
  exists nb,
    run stub (scenario two_workers) = Some (Ok nb)
    /\ globals nb !! "price" = Some (PyTuple (110, 0.4, 110, 0.4)%float)
    /\ globals nb !! "rate" = Some (PyFloat 0.05%float).
Proof.
  destruct (assembly_rebinds_price stub 100%float 0.05%float 260 10000
              strike_axis sigma_axis [] new_cluster (consistent_new _)
              two_workers 110%float 0.4%float two_workers_covered stub_total eq_refl eq_refl)
    as (_ & _ & c' & rest & g2 & g' & r & _ & _ & _ & Hrun & Hr & Hprice & _ & Hrate & _).
  injection Hr as <-. eexists. split; [exact Hrun |]. by split.
Defined.

End ScenarioFacts.


(** ** The notebook from its first submission cell to the plots *)

Module SessionFacts.

Import Parallel Notebook Session.
Import ParallelFacts NotebookFacts.

Section Facts.

Context {F P : Type}.
Variable price_option : F -> F -> F -> F -> Z -> Z -> result (quote P).

Abbreviation task := (call_price_option price_option).
Abbreviation namespace := (gmap string (pyval F P)).

Implicit Types (g : namespace) (strikes sigmas : list F).
Implicit Types (c : Cluster (list (pyval F P)) (quote P)).

(** *** The assembly cell on any list of results *)

(** Once the array is full the next iteration of the loop raises. *)
Lemma assemble_loop_overflow (rs : list (quote P)) :
  forall (filled : list (quote P)) (r : quote P) (rest : list (quote P))
         (sh : list nat) g,
    g !! "prices"
      = Some (PyRecarray {| shape := sh;
                            cells := (Some <$> filled) ++ repeat None (length rs) |}) ->
    for_each assemble_step
             (zip (seq (length filled) (length (rs ++ r :: rest))) (rs ++ r :: rest)) g
    = Raise IndexError.
Proof.
  induction rs as [|r0 rs IH]; intros filled r rest sh g Hprices.
  - simpl. unfold assemble_step at 1, name.
    rewrite !lookup_insert_ne by done. rewrite Hprices, !bind_Ok.
    simpl as_recarray. rewrite bind_Ok.
    unfold setitem. simpl cells.
    destruct (decide _) as [Hlt | Hge]; [| by rewrite !bind_Raise].
    exfalso. rewrite app_nil_r, length_fmap in Hlt. lia.
  - simpl. unfold assemble_step at 1, name.
    rewrite !lookup_insert_ne by done. rewrite Hprices, !bind_Ok.
    simpl as_recarray. rewrite bind_Ok.
    unfold setitem. simpl cells.
    destruct (decide _) as [Hlt | Hge].
    2: { exfalso. apply Hge. rewrite length_app, length_fmap. simpl. lia. }
    rewrite !bind_Ok.
    pose proof (IH (filled ++ [r0]) r rest sh
                (<["prices" := PyRecarray
                     {| shape := sh;
                        cells := <[length filled := Some r0]>
                                   ((Some <$> filled)
                                      ++ repeat None (length (r0 :: rs))) |}]>
                   (<["price" := PyTuple r0]>
                      (<["i" := PyInt (Z.of_nat (length filled))]> g)))) as Hloop.
    rewrite length_app, Nat.add_1_r in Hloop. apply Hloop.
    rewrite lookup_insert_eq. do 3 f_equal.
    rewrite insert_app_r_alt by (by rewrite length_fmap).
    rewrite length_fmap, Nat.sub_diag, fmap_app, <- app_assoc. done.
Qed.

(** With at most [n_strikes * n_sigmas] results the cell finishes: the
    records beyond the results stay as [np.empty] left them. *)
Lemma assemble_short g (n m : nat) (rs : list (quote P)) :
  g !! "n_strikes" = Some (PyInt (Z.of_nat n)) ->
  g !! "n_sigmas" = Some (PyInt (Z.of_nat m)) ->
  g !! "results" = Some (PyList rs) ->
  length rs <= n * m ->
  exists g',
    assemble g = Ok g'
    /\ Grid g' = Some {| shape := [n; m];
                         cells := (Some <$> rs) ++ repeat None (n * m - length rs) |}.
Proof.
  intros Hn Hm Hrs Hlen. unfold assemble.
  rewrite (name_bound _ _ _ Hn), (name_bound _ _ _ Hm), !bind_Ok.
  simpl as_int. rewrite !bind_Ok.
  rewrite <- Nat2Z.inj_mul, np_empty_nat, bind_Ok.
  rewrite (name_bound "results" _ (PyList rs)) by (by rewrite lookup_insert_ne).
  rewrite bind_Ok. simpl as_list. rewrite bind_Ok.
  destruct (assemble_loop_cells rs [] (n * m - length rs) [n * m]
              (<["prices" := PyRecarray {| shape := [n * m];
                                           cells := repeat None (n * m) |}]> g))
    as (g2 & Hloop & Hcells).
  { rewrite lookup_insert_eq. simpl. do 4 f_equal. lia. }
  simpl in Hloop, Hcells. unfold enumerate. rewrite Hloop, bind_Ok.
  rewrite (name_bound _ _ _ Hcells), bind_Ok. simpl as_recarray. rewrite bind_Ok.
  rewrite (name_bound "n_strikes" g2 (PyInt (Z.of_nat n))).
  2: { rewrite (assemble_loop_frame _ _ _ Hloop) by done.
       by rewrite lookup_insert_ne. }
  rewrite (name_bound "n_sigmas" g2 (PyInt (Z.of_nat m))).
  2: { rewrite (assemble_loop_frame _ _ _ Hloop) by done.
       by rewrite lookup_insert_ne. }
  rewrite !bind_Ok. simpl as_int. rewrite !bind_Ok.
  unfold set_shape. simpl cells.
  destruct (decide _) as [_ | Hbad].
  2: { exfalso. apply Hbad. rewrite length_app, length_fmap, repeat_length. lia. }
  rewrite bind_Ok. eexists. split; [reflexivity |].
  unfold Grid. by rewrite lookup_insert_eq, !Nat2Z.id.
Qed.

(** With more results than records the loop runs out of the array. *)
Lemma assemble_long g (n m : nat) (rs : list (quote P)) :
  g !! "n_strikes" = Some (PyInt (Z.of_nat n)) ->
  g !! "n_sigmas" = Some (PyInt (Z.of_nat m)) ->
  g !! "results" = Some (PyList rs) ->
  n * m < length rs ->
  assemble g = Raise IndexError.
Proof.
  intros Hn Hm Hrs Hlen. unfold assemble.
  rewrite (name_bound _ _ _ Hn), (name_bound _ _ _ Hm), !bind_Ok.
  simpl as_int. rewrite !bind_Ok.
  rewrite <- Nat2Z.inj_mul, np_empty_nat, bind_Ok.
  rewrite (name_bound "results" _ (PyList rs)) by (by rewrite lookup_insert_ne).
  rewrite bind_Ok. simpl as_list. rewrite bind_Ok.
  assert (Hsplit : exists rs1 r rest, rs = rs1 ++ r :: rest /\ length rs1 = n * m).
  { destruct (drop (n * m) rs) as [|r rest] eqn:Hdrop.
    - apply (f_equal length) in Hdrop. rewrite length_drop in Hdrop. simpl in Hdrop. lia.
    - exists (take (n * m) rs), r, rest. split.
      + by rewrite <- Hdrop, take_drop.
      + rewrite length_take. lia. }
  destruct Hsplit as (rs1 & r & rest & -> & Hlen1).
  unfold enumerate.
  rewrite (assemble_loop_overflow rs1 [] r rest [n * m]); [done |].
  rewrite lookup_insert_eq. simpl. by rewrite Hlen1.
Qed.

Lemma name_as_int_inv (x : string) g (n : Z) :
  name x g ≫= as_int = Ok n -> g !! x = Some (PyInt n).
Proof.
  unfold name. destruct (g !! x) as [[]|]; simpl; try discriminate.
  by intros [= ->].
Qed.

(** A finished assembly has read two natural numbers and a list that is
    not longer than their product. *)
Lemma assemble_Ok_inv g g' :
  assemble g = Ok g' ->
  exists (n m : nat) (rs : list (quote P)),
    g !! "n_strikes" = Some (PyInt (Z.of_nat n))
    /\ g !! "n_sigmas" = Some (PyInt (Z.of_nat m))
    /\ g !! "results" = Some (PyList rs)
    /\ length rs <= n * m.
Proof.
  intros Hasm. pose proof Hasm as Hasm0. unfold assemble in Hasm.
  destruct (name "n_strikes" g ≫= as_int) as [nz|e] eqn:Hn; [| discriminate Hasm].
  apply name_as_int_inv in Hn. rewrite bind_Ok in Hasm.
  destruct (name "n_sigmas" g ≫= as_int) as [mz|e] eqn:Hm; [| discriminate Hasm].
  apply name_as_int_inv in Hm. rewrite bind_Ok in Hasm.
  destruct (np_empty (nz * mz)) as [a|e] eqn:Hempty; [| discriminate Hasm].
  rewrite bind_Ok in Hasm.
  destruct (name "results" (<["prices" := PyRecarray a]> g) ≫= as_list)
    as [rs|e] eqn:Hrs; [| discriminate Hasm].
  apply name_as_list_inv in Hrs. rewrite lookup_insert_ne in Hrs by done.
  rewrite bind_Ok in Hasm.
  destruct (for_each assemble_step (enumerate rs) (<["prices" := PyRecarray a]> g))
    as [g2|e] eqn:Hloop; [| discriminate Hasm].
  rewrite bind_Ok in Hasm.
  destruct (name "prices" g2 ≫= as_recarray) as [a2|e]; [| discriminate Hasm].
  rewrite bind_Ok in Hasm.
  assert (Hn2 : name "n_strikes" g2 = Ok (PyInt nz)).
  { apply name_bound. rewrite (assemble_loop_frame _ _ _ Hloop) by done.
    by rewrite lookup_insert_ne. }
  assert (Hm2 : name "n_sigmas" g2 = Ok (PyInt mz)).
  { apply name_bound. rewrite (assemble_loop_frame _ _ _ Hloop) by done.
    by rewrite lookup_insert_ne. }
  rewrite Hn2, Hm2, !bind_Ok in Hasm. simpl as_int in Hasm. rewrite !bind_Ok in Hasm.
  unfold set_shape in Hasm.
  destruct (decide _) as [(Hnz & Hmz & _) | _]; [| discriminate Hasm].
  exists (Z.to_nat nz), (Z.to_nat mz), rs.
  rewrite !Z2Nat.id by done. split_and!; try done.
  destruct (decide (length rs <= Z.to_nat nz * Z.to_nat mz)) as [Hle | Hgt]; [done |].
  rewrite (assemble_long g (Z.to_nat nz) (Z.to_nat mz) rs) in Hasm0;
    [discriminate | by rewrite Z2Nat.id | by rewrite Z2Nat.id | done | lia].
Qed.

(** Without results the loop binds nothing: only [prices] changes. *)
Lemma assemble_empty_frame g g' :
  assemble g = Ok g' -> g !! "results" = Some (PyList []) ->
  forall x : string, x ≠ "prices" -> g' !! x = g !! x.
Proof.
  intros Hasm Hrs x Hx.
  destruct (assemble_inv _ _ Hasm) as (rs & a & a' & g2 & Hrs' & Hloop & ->).
  rewrite Hrs in Hrs'. injection Hrs' as <-. simpl in Hloop. injection Hloop as <-.
  by rewrite !lookup_insert_ne.
Qed.

Lemma Grid_lookup g (a : recarray P) :
  Grid g = Some a -> g !! "prices" = Some (PyRecarray a).
Proof.
  unfold Grid. destruct (g !! "prices") as [[]|]; congruence.
Qed.

(** *** A cell after another *)

(** Reports that follow the ones a wait needs are left for later. *)
Lemma wait_app (jobs : list AsyncResult) (a b : list nat) : forall c c' rest,
  wait task jobs a c = Some (c', rest) ->
  wait task jobs (a ++ b) c = Some (c', rest ++ b).
Proof.
  induction a as [|id a IH]; intros c c' rest Hw; rewrite wait_unfold in Hw;
    destruct (forallb (ready c) jobs) eqn:Hready; try discriminate.
  - injection Hw as <- <-. by apply wait_ready.
  - injection Hw as <- <-. by apply wait_ready.
  - rewrite <- app_comm_cons, wait_unfold, Hready. by apply IH.
Qed.


Section Cell.

Variables (price rate : F) (days paths : Z) (strikes sigmas : list F).
Variable units0 : list (WorkUnit (list (pyval F P))).
Variable c0 : Cluster (list (pyval F P)) (quote P).
Hypothesis Hc0 : consistent task units0 c0.

Abbreviation argss :=
  (grid_args (P := P) (PyFloat price) (PyFloat rate) (PyInt days) (PyInt paths)
             strikes sigmas).
Abbreviation first := (length units0).
Abbreviation count := (length strikes * length sigmas).
Abbreviation units := (units0 ++ units_from first argss).
Abbreviation handles := (handles_from first count).
Abbreviation g0 := (setup price rate days paths strikes sigmas : namespace).
Abbreviation g1 := (<["async_results" := PyHandles handles]> g0).

(** The submission cell reads the parameters and the axes only: an
    earlier [async_results] is overwritten. *)
Lemma cell_submit_again (hs : list AsyncResult) c arrivals :
  cell_submit price_option
    {| globals := <["async_results" := PyHandles hs]> g0;
       cluster := c; network := arrivals |}
  = cell_submit price_option (start price rate days paths strikes sigmas c arrivals).
Proof.
  unfold cell_submit, start. cbn [globals cluster network].
  rewrite (submit_tasks_bound g0 (PyFloat price) (PyFloat rate) (PyInt days)
             (PyInt paths) strikes sigmas);
    [| apply setup_price | apply setup_rate | apply setup_days | apply setup_paths
     | apply setup_strike_vals | apply setup_sigma_vals].
  rewrite (submit_tasks_bound (<["async_results" := PyHandles hs]> g0)
             (PyFloat price) (PyFloat rate) (PyInt days) (PyInt paths) strikes sigmas);
    [| rewrite lookup_insert_ne by done ..];
    [| apply setup_price | apply setup_rate | apply setup_days | apply setup_paths
     | apply setup_strike_vals | apply setup_sigma_vals].
  destruct (submit _ _) as [c1 hs1].
  destruct (wait _ _ _ _) as [[c' rest]|]; [| done].
  by rewrite insert_insert_eq.
Qed.

Lemma cell_submit_app (a b : list nat) c' rest g :
  cell_submit price_option (start price rate days paths strikes sigmas c0 a)
    = Some (Ok {| globals := g; cluster := c'; network := rest |}) ->
  cell_submit price_option (start price rate days paths strikes sigmas c0 (a ++ b))
    = Some (Ok {| globals := g; cluster := c'; network := rest ++ b |}).
Proof.
  unfold cell_submit, start. cbn [globals cluster network].
  destruct (submit_tasks _ _) as [[c1 hs]|e]; [| done].
  destruct (wait task hs a c1) as [[c2 r2]|] eqn:Hw; [| done].
  intros [= <- <- <-]. by rewrite (wait_app _ _ b _ _ _ Hw).
Qed.

(** The submission cell leaves the outcomes that the table held. *)
Lemma cell_submit_keeps arrivals c' rest g (id : nat) :
  covered first count arrivals ->
  cell_submit price_option (start price rate days paths strikes sigmas c0 arrivals)
    = Some (Ok {| globals := g; cluster := c'; network := rest |}) ->
  is_Some (ResultTable c0 !! id) -> is_Some (ResultTable c' !! id).
Proof using Hc0.
  intros Hcov Hcell Hid.
  destruct (submit_tasks_start price_option price rate days paths strikes sigmas
              units0 c0 Hc0) as (c1 & Hsub & Hc1 & _ & Htab & _).
  destruct (cell_submit_covered price_option price rate days paths strikes sigmas
              units0 c0 Hc0 arrivals Hcov)
    as (c1b & c'b & used & restb & _ & Hsubb & Hdef & Hcellb & _ & _).
  rewrite Hsub in Hsubb. injection Hsubb as <-.
  rewrite Hcell in Hcellb. injection Hcellb as _ -> _.
  rewrite Hdef, (deliver_table task units) by done. left. by rewrite Htab.
Qed.

(** When every pair raises the same error, the run raises it at the
    retrieval, once every unit has reported. *)
Lemma run_uniform_failure arrivals (e : exn) :
  covered first count arrivals -> 0 < count ->
  (forall K sigma, K ∈ strikes -> sigma ∈ sigmas ->
                   price_option price K sigma rate days paths = Raise e) ->
  run price_option (start price rate days paths strikes sigmas c0 arrivals)
  = Some (Raise (RemoteError e)).
Proof using Hc0.
  intros Hcov Hpos Hraise.
  destruct (cell_submit_covered price_option price rate days paths strikes sigmas
              units0 c0 Hc0 arrivals Hcov)
    as (c1 & c' & used & rest & _ & _ & _ & Hcell & Hc' & Hready).
  assert (Hfailed : forall ar, ar ∈ handles ->
            ResultTable c' !! msg_id ar = Some (Failed e)).
  { intros ar Har.
    destruct (handle_outcome price_option price rate days paths strikes sigmas
                units0 c' ar Hc' Har (Hready ar Har)) as (K & sigma & HK & Hs & Ho).
    by rewrite (Hraise K sigma HK Hs) in Ho. }
  destruct (get_all_first_failed price_option handles rest c' Hready)
    as (before & ar & after & e' & Hsplit & _ & Hfail & Hget).
  { exists {| msg_id := first |}, e. split.
    - apply elem_of_handles_from. simpl. lia.
    - apply Hfailed, elem_of_handles_from. simpl. lia. }
  assert (Har : ar ∈ handles).
  { rewrite Hsplit. apply elem_of_app. right. by left. }
  rewrite (Hfailed ar Har) in Hfail. injection Hfail as <-.
  unfold run. rewrite Hcell. simpl cell_bind.
  rewrite (cell_results_ready price_option _ handles (Raise (RemoteError e)));
    [done | by apply lookup_insert_eq | exact Hget].
Qed.


(** When every unit reports and the pricing function returns for every
    pair, the run ends with the Grid of the pairs' prices and leaves the
    axes as they were. *)
Lemma run_cells arrivals :
  covered first count arrivals ->
  (forall K sigma, K ∈ strikes -> sigma ∈ sigmas ->
                   exists v, price_option price K sigma rate days paths = Ok v) ->
  exists nb grid,
    run price_option (start price rate days paths strikes sigmas c0 arrivals)
      = Some (Ok nb)
    /\ Grid (globals nb) = Some grid
    /\ shape grid = [length strikes; length sigmas]
    /\ globals nb !! "strike_vals" = Some (PyNdarray strikes)
    /\ globals nb !! "sigma_vals" = Some (PyNdarray sigmas)
    /\ (forall i j K sigma,
          strikes !! i = Some K -> sigmas !! j = Some sigma ->
          exists v, price_option price K sigma rate days paths = Ok v
                    /\ grid_cell grid i j = Some v).
Proof using Hc0.
  intros Hcov Htotal.
  destruct (run_done price_option price rate days paths strikes sigmas units0 c0
              Hc0 arrivals Hcov Htotal)
    as (c' & rest & vs & g' & Hcell & Hc' & Hall & _ & Hasm & Hgrid & Hrun).
  destruct (results_namespace price rate days paths strikes sigmas units0 vs)
    as (_ & _ & _ & _ & _ & _ & _ & Hstrikes & Hsigmas).
  destruct (assemble_frame _ _ Hasm) as [Hframe _].
  eexists _, _. split; [exact Hrun |]. cbn [globals].
  split; [exact Hgrid |]. split; [done |].
  split; [by rewrite Hframe |]. split; [by rewrite Hframe |].
  intros i j K sigma HK Hs.
  pose proof (cell_index _ _ i j K sigma HK Hs) as Hlt.
  pose proof (handles_from_lookup first count _ Hlt) as Hh.
  destruct (Forall2_lookup_l _ _ _ _ _ Hall Hh) as (v & Hv & Htab).
  simpl in Htab.
  rewrite (cell_outcome price_option price rate days paths strikes sigmas units0
             c' i j K sigma Hc' HK Hs) in Htab by (by eexists).
  destruct (Htotal K sigma) as [v' Hv'];
    [by eapply list_elem_of_lookup_2 | by eapply list_elem_of_lookup_2 |].
  rewrite Hv' in Htab. injection Htab as ->.
  exists v. split; [done |].
  unfold grid_cell. cbn [shape cells]. cbv iota.
  apply lookup_lt_Some in HK, Hs.
  case_decide as Hdec; [| exfalso; apply Hdec; by split].
  by rewrite list_lookup_fmap, Hv.
Qed.

End Cell.

(** X8. The assembly cell never compares the number of results with the
    size of the array. With fewer results than [n_strikes * n_sigmas] it
    finishes without an error and the records beyond the results stay as
    [np.empty] left them; with more it raises [IndexError]. *)
Theorem assembly_by_length g (n m : nat) (rs : list (quote P)) :
  g !! "n_strikes" = Some (PyInt (Z.of_nat n)) ->
  g !! "n_sigmas" = Some (PyInt (Z.of_nat m)) ->
  g !! "results" = Some (PyList rs) ->
  (length rs <= n * m ->
     exists g' grid,
       assemble g = Ok g' /\ Grid g' = Some grid
       /\ shape grid = [n; m]
       /\ cells grid = (Some <$> rs) ++ repeat None (n * m - length rs))
  /\ (n * m < length rs -> assemble g = Raise IndexError).
Proof.
  intros Hn Hm Hrs. split.
  - intros Hlen. destruct (assemble_short g n m rs Hn Hm Hrs Hlen) as (g' & Hasm & Hgrid).
    by eexists g', _.
  - by apply assemble_long.
Qed.

(** X9. Running the assembly cell a second time changes nothing, when
    there are as many results as records: the cell finishes, every record
    of [prices] is written, and on the namespace that it leaves the cell
    finishes again, with the same namespace. *)
Theorem assembly_idempotent g (n m : nat) (rs : list (quote P)) :
  g !! "n_strikes" = Some (PyInt (Z.of_nat n)) ->
  g !! "n_sigmas" = Some (PyInt (Z.of_nat m)) ->
  g !! "results" = Some (PyList rs) ->
  length rs = n * m ->
  exists g' grid,
    assemble g = Ok g'
    /\ Grid g' = Some grid
    /\ cells grid = Some <$> rs
    /\ assemble g' = Ok g'.
Proof.
  intros Hn Hm Hrs Hfull.
  assert (Hlen : length rs <= n * m) by lia.
  destruct (assemble_short g n m rs Hn Hm Hrs Hlen) as (g' & Hasm & Hgrid).
  destruct (assemble_frame _ _ Hasm) as [Hframe Hlast].
  exists g'. eexists. split; [exact Hasm |]. split; [exact Hgrid |].
  split; [cbn [cells]; by rewrite Hfull, Nat.sub_diag, app_nil_r |].
  assert (Hn' : g' !! "n_strikes" = Some (PyInt (Z.of_nat n))) by (by rewrite Hframe).
  assert (Hm' : g' !! "n_sigmas" = Some (PyInt (Z.of_nat m))) by (by rewrite Hframe).
  assert (Hrs' : g' !! "results" = Some (PyList rs)) by (by rewrite Hframe).
  destruct (assemble_short g' n m rs Hn' Hm' Hrs' Hlen) as (g2 & Hasm2 & Hgrid2).
  rewrite Hasm2. f_equal. apply map_eq. intros x.
  destruct (assemble_frame _ _ Hasm2) as [Hframe2 Hlast2].
  destruct (decide (x = "prices")) as [-> | Hprices].
  { by rewrite (Grid_lookup _ _ Hgrid), (Grid_lookup _ _ Hgrid2). }
  destruct (decide (rs = [])) as [-> | Hne].
  { by apply (assemble_empty_frame _ _ Hasm2). }
  destruct (exists_last Hne) as (rs0 & r & ->).
  destruct (Hlast _ _ Hrs) as [Hp Hi]. destruct (Hlast2 _ _ Hrs') as [Hp2 Hi2].
  destruct (decide (x = "price")) as [-> | Hprice]; [by rewrite Hp, Hp2 |].
  destruct (decide (x = "i")) as [-> | Hx]; [by rewrite Hi, Hi2 |].
  by apply Hframe2.
Qed.

(** *** The cells in the notebook's order *)

Section Run.

Variables (price rate : F) (days paths : Z) (strikes sigmas : list F).
Variable units0 : list (WorkUnit (list (pyval F P))).
Variable c0 : Cluster (list (pyval F P)) (quote P).
Hypothesis Hc0 : consistent task units0 c0.

Abbreviation argss :=
  (grid_args (P := P) (PyFloat price) (PyFloat rate) (PyInt days) (PyInt paths)
             strikes sigmas).
Abbreviation first := (length units0).
Abbreviation count := (length strikes * length sigmas).
Abbreviation units := (units0 ++ units_from first argss).
Abbreviation handles := (handles_from first count).
Abbreviation g0 := (setup price rate days paths strikes sigmas : namespace).
Abbreviation g1 := (<["async_results" := PyHandles handles]> g0).

(** X10. Running the submission cell again after the assembly does not
    price the same grid: the assembly has rebound [price], so every unit
    of the second submission carries the last result tuple, not the
    initial price, as its first argument. *)
Theorem resubmission_takes_last_result_as_spot arrivals (K sigma : F) :
  covered first count arrivals ->
  (forall K' sigma', K' ∈ strikes -> sigma' ∈ sigmas ->
                     exists v, price_option price K' sigma' rate days paths = Ok v) ->
  last strikes = Some K -> last sigmas = Some sigma ->
  exists nb r,
    run price_option (start price rate days paths strikes sigmas c0 arrivals)
      = Some (Ok nb)
    /\ price_option price K sigma rate days paths = Ok r
    /\ submit_tasks (globals nb) (cluster nb)
       = Ok (submit (grid_args (PyTuple r) (PyFloat rate) (PyInt days) (PyInt paths)
                               strikes sigmas)
                    (cluster nb, []))
    /\ (forall a, a ∈ grid_args (P := P) (PyTuple r) (PyFloat rate) (PyInt days)
                                (PyInt paths) strikes sigmas ->
                   a !! 0 = Some (PyTuple r) /\ a !! 0 ≠ Some (PyFloat price)).
Proof using Hc0.
  intros Hcov Htotal HK Hs.
  destruct (run_done price_option price rate days paths strikes sigmas units0 c0
              Hc0 arrivals Hcov Htotal)
    as (c' & rest & vs & g' & Hcell & Hc' & Hall & Hres & Hasm & Hgrid & Hrun).
  destruct (results_namespace price rate days paths strikes sigmas units0 vs)
    as (_ & _ & Hvs & Hprice & Hrate & Hdays & Hpaths & Hstrikes & Hsigmas).
  destruct (assemble_frame _ _ Hasm) as [Hframe Hlast].
  rewrite last_lookup in HK, Hs.
  pose proof (lookup_lt_Some _ _ _ HK) as Hn.
  pose proof (lookup_lt_Some _ _ _ Hs) as Hm.
  pose proof (cell_index _ _ _ _ K sigma HK Hs) as Hlt.
  pose proof (handles_from_lookup first count _ Hlt) as Hh.
  destruct (Forall2_lookup_l _ _ _ _ _ Hall Hh) as (r & Hr & Htab).
  simpl in Htab.
  assert (Hlen : length vs = count).
  { rewrite <- (Forall2_length _ _ _ Hall). apply handles_from_length. }
  assert (Hlastvs : last vs = Some r).
  { rewrite last_lookup, <- Hr. f_equal. rewrite Hlen. nia. }
  apply last_Some in Hlastvs as [vs' ->].
  destruct (Hlast vs' r Hvs) as [Hp _].
  assert (Hcall : price_option price K sigma rate days paths = Ok r).
  { rewrite (cell_outcome price_option price rate days paths strikes sigmas units0
               c' _ _ K sigma Hc' HK Hs) in Htab by eauto.
    destruct (price_option price K sigma rate days paths); congruence. }
  exists {| globals := g'; cluster := c'; network := rest |}, r.
  split; [exact Hrun |]. split; [exact Hcall |]. cbn [globals cluster]. split.
  - apply submit_tasks_bound; rewrite ?Hframe by done; done.
  - intros a (K' & sigma' & _ & _ & ->)%grid_args_elem. by split.
Qed.

(** X11. The notebook submits the grid twice, first on the view of one
    engine and then on the view of all engines, and each cell resets
    [async_results]. When the reports of the first submission are followed
    by those of the second, the whole notebook finishes; [async_results]
    then holds the [n_strikes * n_sigmas] handles of the second submission
    only, the Grid holds the prices of the second submission, and each
    pair has been run exactly twice, once per submission. *)
Theorem serial_then_parallel (a1 a2 : list nat) :
  covered first count a1 -> covered (first + count) count a2 ->
  (forall K sigma, K ∈ strikes -> sigma ∈ sigmas ->
                   exists v, price_option price K sigma rate days paths = Ok v) ->
  exists nb grid,
    run_all price_option (start price rate days paths strikes sigmas c0 (a1 ++ a2))
      = Some (Ok nb)
    /\ globals nb !! "async_results"
       = Some (PyHandles (handles_from (first + count) count))
    /\ cell_len nb = Ok count
    /\ Grid (globals nb) = Some grid
    /\ shape grid = [length strikes; length sigmas]
    /\ NoDup (executed (cluster nb))
    /\ (forall i j K sigma,
          strikes !! i = Some K -> sigmas !! j = Some sigma ->
          exists v,
            price_option price K sigma rate days paths = Ok v
            /\ grid_cell grid i j = Some v
            /\ ResultTable (cluster nb) !! (first + count + (i * length sigmas + j))
               = Some (Done v)
            /\ first + (i * length sigmas + j) ∈ executed (cluster nb)
            /\ first + count + (i * length sigmas + j) ∈ executed (cluster nb)).
Proof using Hc0.
  intros Hcov1 Hcov2 Htotal.
  destruct (cell_submit_covered price_option price rate days paths strikes sigmas
              units0 c0 Hc0 a1 Hcov1)
    as (c1 & c' & used & rest & _ & _ & _ & Hcell & Hc' & Hready).
  apply (cell_submit_app price rate days paths strikes sigmas c0 a1 a2)
    in Hcell.
  pose proof (units_length price rate days paths strikes sigmas units0) as Hlen1.
  assert (Hcov2' : covered (length units) count (rest ++ a2)).
  { rewrite Hlen1. apply covered_spec. intros k Hk. apply elem_of_app. right.
    by apply (proj1 (covered_spec _ _ _) Hcov2). }
  destruct (run_done price_option price rate days paths strikes sigmas units c'
              Hc' (rest ++ a2) Hcov2' Htotal)
    as (c'' & rest2 & vs & g' & Hcell2 & Hc'' & Hall & Hres & Hasm & Hgrid & Hrun).
  destruct (assemble_frame _ _ Hasm) as [Hframe _].
  assert (Hars : g' !! "async_results"
                 = Some (PyHandles (handles_from (first + count) count))).
  { rewrite Hframe by done. rewrite lookup_insert_ne by done.
    rewrite bind_last_other by done. by rewrite lookup_insert_eq, Hlen1. }
  exists {| globals := g'; cluster := c''; network := rest2 |},
         {| shape := [length strikes; length sigmas]; cells := Some <$> vs |}.
  cbn [globals cluster network shape].
  split.
  { unfold run_all. rewrite Hcell. simpl cell_bind.
    unfold run at 1. rewrite cell_submit_again. exact Hrun. }
  split; [exact Hars |].
  split.
  { unfold cell_len. cbn [globals]. rewrite (name_bound _ _ _ Hars), bind_Ok.
    simpl as_handles. by rewrite bind_Ok, handles_from_length. }
  split; [exact Hgrid |]. split; [done |].
  split; [exact (log_nodup _ _ _ Hc'') |].
  intros i j K sigma HK Hs.
  pose proof (cell_index _ _ i j K sigma HK Hs) as Hlt.
  pose proof (handles_from_lookup (length units) count _ Hlt) as Hh.
  destruct (Forall2_lookup_l _ _ _ _ _ Hall Hh) as (v & Hv & Htab).
  simpl in Htab.
  pose proof Htab as Htab'.
  rewrite (cell_outcome price_option price rate days paths strikes sigmas units
             c'' i j K sigma Hc'' HK Hs) in Htab' by (by eexists).
  destruct (Htotal K sigma) as [v' Hv'];
    [by eapply list_elem_of_lookup_2 | by eapply list_elem_of_lookup_2 |].
  rewrite Hv' in Htab'. injection Htab' as ->.
  rewrite Hlen1 in Htab.
  exists v. split; [done |]. split.
  { unfold grid_cell. cbn [shape cells]. cbv iota.
    apply lookup_lt_Some in HK, Hs.
    case_decide as Hdec; [| exfalso; apply Hdec; by split].
    by rewrite list_lookup_fmap, Hv. }
  split; [exact Htab |]. split.
  - apply (log_spec _ _ _ Hc'').
    apply (cell_submit_keeps price rate days paths strikes sigmas
             units c' Hc' (rest ++ a2) c'' rest2 _ _ Hcov2' Hcell2).
    apply (Hready {| msg_id := first + (i * length sigmas + j) |}).
    apply elem_of_handles_from. simpl. lia.
  - apply (log_spec _ _ _ Hc''). by rewrite Htab.
Qed.

(** X12. With an empty axis the run returns at once, whatever the
    cluster is doing: no unit is submitted and no report is taken, so the
    run cannot be left waiting; [async_results] and [results] are empty,
    the Grid has the shape (n_strikes, n_sigmas) and no record, and
    [price] is still the initial price. *)
Theorem empty_axis_runs_at_once arrivals :
  strikes = [] \/ sigmas = [] ->
  exists nb grid,
    run price_option (start price rate days paths strikes sigmas c0 arrivals)
      = Some (Ok nb)
    /\ network nb = arrivals
    /\ PendingQueue (cluster nb) = PendingQueue c0
    /\ ResultTable (cluster nb) = ResultTable c0
    /\ executed (cluster nb) = executed c0
    /\ globals nb !! "async_results" = Some (PyHandles [])
    /\ globals nb !! "results" = Some (PyList [])
    /\ Grid (globals nb) = Some grid
    /\ shape grid = [length strikes; length sigmas]
    /\ cells grid = []
    /\ globals nb !! "price" = Some (PyFloat price).
Proof using Hc0.
  intros Hempty.
  assert (Hcount : count = 0) by (destruct Hempty as [-> | ->]; simpl; lia).
  destruct (submit_tasks_start price_option price rate days paths strikes sigmas
              units0 c0 Hc0) as (c1 & Hsub & Hc1 & Hqueue & Htab & Hlog).
  assert (Hunits : units_from first argss = []).
  { unfold units_from. by rewrite grid_args_length, Hcount. }
  rewrite Hunits, app_nil_r in Hqueue.
  assert (Hcell : cell_submit price_option
                    (start price rate days paths strikes sigmas c0 arrivals)
                  = Some (Ok {| globals := g1; cluster := c1; network := arrivals |})).
  { unfold cell_submit, start. cbn [globals cluster network]. rewrite Hsub.
    rewrite (wait_ready task) by (by rewrite Hcount). done. }
  destruct (results_namespace price rate days paths strikes sigmas units0 [])
    as (Hn & Hm & Hrs & Hprice & _).
  destruct (assemble_cells _ _ _ [] Hn Hm Hrs) as (g' & Hasm & Hgrid);
    [simpl; lia |].
  destruct (assemble_frame _ _ Hasm) as [Hframe _].
  exists {| globals := g'; cluster := c1; network := arrivals |},
         {| shape := [length strikes; length sigmas]; cells := Some <$> [] |}.
  cbn [globals cluster network shape cells]. split_and!; try done.
  - unfold run. rewrite Hcell. simpl cell_bind.
    rewrite (cell_results_ready price_option _ handles (Ok []));
      [| by apply lookup_insert_eq | by cbn [cluster network]; rewrite Hcount].
    unfold cell_bind, cell_assemble. cbn [globals cluster network]. by rewrite Hasm.
  - rewrite Hframe by done. rewrite lookup_insert_ne by done.
    rewrite bind_last_other by done. by rewrite lookup_insert_eq, Hcount.
  - rewrite Hframe by done. apply lookup_insert_eq.
  - by rewrite (assemble_empty_frame _ _ Hasm Hrs).
Qed.

(** X13. What the four plots read. When every unit has reported and the
    pricing function returned for every pair, [prices] has the shape
    (len(strike_vals), len(sigma_vals)) that [contourf(sigma_vals,
    strike_vals, ...)] is given, the two axes are still bound to the arrays
    that were priced, and at (i, j) the fields [ecall], [eput], [acall] and
    [aput] hold, in this order, the four components of the tuple that
    [price_option] returned for strike_vals[i] and sigma_vals[j]: the
    fields of the dtype and the returned tuple agree in their order. *)
Theorem plotted_fields_are_the_prices arrivals (i j : nat) (K sigma : F) :
  covered first count arrivals ->
  (forall K' sigma', K' ∈ strikes -> sigma' ∈ sigmas ->
                     exists v, price_option price K' sigma' rate days paths = Ok v) ->
  strikes !! i = Some K -> sigmas !! j = Some sigma ->
  exists nb grid euro_call euro_put asian_call asian_put,
    run price_option (start price rate days paths strikes sigmas c0 arrivals)
      = Some (Ok nb)
    /\ Grid (globals nb) = Some grid
    /\ shape grid = [length strikes; length sigmas]
    /\ globals nb !! "strike_vals" = Some (PyNdarray strikes)
    /\ globals nb !! "sigma_vals" = Some (PyNdarray sigmas)
    /\ price_option price K sigma rate days paths
       = Ok (euro_call, euro_put, asian_call, asian_put)
    /\ field_cell ecall grid i j = Some euro_call
    /\ field_cell eput grid i j = Some euro_put
    /\ field_cell acall grid i j = Some asian_call
    /\ field_cell aput grid i j = Some asian_put.
Proof using Hc0.
  intros Hcov Htotal HK Hs.
  destruct (run_cells price rate days paths strikes sigmas units0 c0 Hc0
              arrivals Hcov Htotal)
    as (nb & grid & Hrun & Hgrid & Hshape & Hstrikes & Hsigmas & Hcells).
  destruct (Hcells i j K sigma HK Hs) as ([[[ec ep] ac] ap] & Hv & Hcell).
  exists nb, grid, ec, ep, ac, ap.
  split_and!; try done; unfold field_cell; by rewrite Hcell.
Qed.

End Run.

End Facts.

(** *** The run with [price_option] on the engines *)

Section Engines.

Variable p : Pricing.Platform.
Variable price_option :
  PrimFloat.float -> PrimFloat.float -> PrimFloat.float -> PrimFloat.float
  -> Z -> Z -> result (quote PrimFloat.float).
Hypothesis Hengine : on_engine p price_option.

Variables (price rate : PrimFloat.float) (days paths : Z).
Variables (strikes sigmas : list PrimFloat.float).
Variable units0 : list (WorkUnit (list (pyval PrimFloat.float PrimFloat.float))).
Variable c0 : Cluster (list (pyval PrimFloat.float PrimFloat.float))
                      (quote PrimFloat.float).
Hypothesis Hc0 : consistent (call_price_option price_option) units0 c0.

Abbreviation first := (length units0).
Abbreviation count := (length strikes * length sigmas).

(** X14. [days = 0] fails the whole run, and only at the retrieval: every
    call of [price_option] divides by zero at [h = 1.0/days], whatever its
    draws, so with a grid that is not empty, once every unit has reported,
    the run ends with a [RemoteError] that wraps [ZeroDivisionError]; no
    Grid is assembled. *)
Theorem zero_days_fail_the_run arrivals :
  covered first count arrivals -> strikes ≠ [] -> sigmas ≠ [] -> days = 0%Z ->
  run price_option (start price rate days paths strikes sigmas c0 arrivals)
  = Some (Raise (RemoteError ZeroDivisionError)).
Proof using Hengine Hc0.
  intros Hcov Hstrikes Hsigmas Hdays.
  assert (Hpos : 0 < count).
  { destruct strikes; [done |]. destruct sigmas; [done |]. simpl. lia. }
  apply (run_uniform_failure price_option price rate days paths strikes sigmas
           units0 c0 Hc0 arrivals ZeroDivisionError Hcov Hpos).
  intros K sigma _ _.
  destruct (Hengine price K sigma rate days paths) as [normal ->].
  rewrite Hdays. apply PricingFacts.price_option_zero_days.
Qed.


(** X17. The run away from the overflow. For [days >= 1] and [paths >= 1],
    when for every volatility of the axis the two arguments of [math.exp]
    are at most 709, every call of [price_option] returns: once every unit
    has reported the run finishes, and no field of a record of the Grid is
    below zero; each is a number [>= 0], [+inf] included, or nan. *)
Theorem run_in_range_never_negative arrivals :
  Pricing.ieee p ->
  (1 <= days <= Pricing.capacity p)%Z -> (1 <= paths <= Pricing.capacity p)%Z ->
  covered first count arrivals ->
  (forall sigma, sigma ∈ sigmas ->
                 Pricing.exp_in_range (Pricing.Float64 sigma) rate days = true) ->
  exists nb grid,
    run price_option (start price rate days paths strikes sigmas c0 arrivals)
      = Some (Ok nb)
    /\ Grid (globals nb) = Some grid
    /\ shape grid = [length strikes; length sigmas]
    /\ forall i j, i < length strikes -> j < length sigmas ->
         exists euro_call euro_put asian_call asian_put,
           grid_cell grid i j = Some (euro_call, euro_put, asian_call, asian_put)
           /\ Pricing.never_negative euro_call /\ Pricing.never_negative euro_put
           /\ Pricing.never_negative asian_call /\ Pricing.never_negative asian_put.
Proof using Hengine Hc0.
  intros Hp Hdays Hpaths Hcov Hrange.
  destruct (run_cells price_option price rate days paths strikes sigmas units0 c0
              Hc0 arrivals Hcov)
    as (nb & grid & Hrun & Hgrid & Hshape & _ & _ & Hcells).
  { intros K sigma _ Hs.
    destruct (Hengine price K sigma rate days paths) as [normal ->].
    destruct (PricingFacts.exp_in_range_inv _ _ _ (Hrange sigma Hs))
      as (x1 & x2 & Hargs & Hx1 & Hx2).
    apply (PricingFacts.price_option_in_range p normal price K _ rate days paths x1 x2);
      try done; lia. }
  exists nb, grid. split_and!; try done.
  intros i j Hi Hj.
  destruct (lookup_lt_is_Some_2 strikes i Hi) as [K HK].
  destruct (lookup_lt_is_Some_2 sigmas j Hj) as [sigma Hs].
  destruct (Hcells i j K sigma HK Hs) as ([[[ec ep] ac] ap] & Hv & Hcell).
  exists ec, ep, ac, ap. split; [exact Hcell |].
  destruct (Hengine price K sigma rate days paths) as [normal Heq].
  rewrite Heq in Hv.
  by apply (PricingFacts.price_option_never_negative p normal price K
              (Pricing.Float64 sigma) rate days paths).
Qed.

End Engines.

(** *** The assembly on concrete inputs *)

Lemma assembly_by_length_witness :
  (exists g' grid,
      assemble (<["results" := PyList [(1, 2, 3, 4)%Z]]>
                  (<["n_sigmas" := PyInt 1]> (<["n_strikes" := PyInt 2]> ∅))
                : gmap string (pyval Z Z)) = Ok g'
      /\ Grid g' = Some grid
      /\ shape grid = [2; 1]
      /\ cells grid = [Some (1, 2, 3, 4)%Z; None])
  /\ assemble (<["results" := PyList [(1, 2, 3, 4)%Z; (5, 6, 7, 8)%Z; (9, 10, 11, 12)%Z]]>
                 (<["n_sigmas" := PyInt 1]> (<["n_strikes" := PyInt 2]> ∅))
               : gmap string (pyval Z Z)) = Raise IndexError.
Proof.
  split.
  - refine (proj1 (assembly_by_length _ 2 1 [(1, 2, 3, 4)%Z] _ _ _) _);
      [reflexivity | reflexivity | reflexivity | simpl; lia].
  - refine (proj2 (assembly_by_length _ 2 1
                     [(1, 2, 3, 4)%Z; (5, 6, 7, 8)%Z; (9, 10, 11, 12)%Z] _ _ _) _);
      [reflexivity | reflexivity | reflexivity | simpl; lia].
Defined.

Lemma assembly_idempotent_witness :
  exists (g' : gmap string (pyval Z Z)) grid,
    assemble (<["results" := PyList [(1, 2, 3, 4)%Z; (5, 6, 7, 8)%Z]]>
                (<["n_sigmas" := PyInt 1]> (<["n_strikes" := PyInt 2]> ∅))) = Ok g'
    /\ Grid g' = Some grid
    /\ cells grid = Some <$> [(1, 2, 3, 4)%Z; (5, 6, 7, 8)%Z]
    /\ assemble g' = Ok g'.
Proof.
  refine (assembly_idempotent _ 2 1 [(1, 2, 3, 4)%Z; (5, 6, 7, 8)%Z] _ _ _ _);
    reflexivity.
Defined.

End SessionFacts.

(** ** The notebook's order of cells on the scenario of the specification *)

Module SessionScenarioFacts.

Import Parallel Notebook Session Scenario.
Import ParallelFacts NotebookFacts ScenarioFacts SessionFacts.
Import PrimFloat.

(** The reports of a second submission of the nine units. *)
Lemma second_batch_covered : covered (0 + 9) 9 [9; 10; 11; 12; 13; 14; 15; 16; 17].
Proof.
  apply covered_spec. intros k Hk.
  rewrite !elem_of_cons, elem_of_nil. simpl. lia.
Qed.

(** The engines of the witnesses: [price_option] on the sample platform,
    every draw being zero. *)
Lemma sample_engine :
  on_engine Pricing.sample_platform
    (fun S K sigma r days paths =>
       Pricing.price_option Pricing.sample_platform (fun _ _ => 0%float)
                            S K (Pricing.Float64 sigma) r days paths).
Proof. intros S K sigma r days paths. by eexists. Qed.

Lemma zero_days_fail_the_run_witness :
  run (fun S K sigma r days paths =>
         Pricing.price_option Pricing.sample_platform (fun _ _ => 0%float)
                              S K (Pricing.Float64 sigma) r days paths)
      (start 100%float 0.05%float 0 10000 Scenario.strike_axis Scenario.sigma_axis
             new_cluster Scenario.two_workers)
  = Some (Raise (RemoteError ZeroDivisionError)).
Proof.
  apply (zero_days_fail_the_run Pricing.sample_platform _ sample_engine
           100%float 0.05%float 0 10000 Scenario.strike_axis Scenario.sigma_axis
           [] new_cluster (consistent_new _) Scenario.two_workers
           ScenarioFacts.two_workers_covered);
    [discriminate | discriminate | reflexivity].
Defined.


Lemma run_in_range_never_negative_witness :
  exists nb grid,
    run (fun S K sigma r days paths =>
           Pricing.price_option Pricing.sample_platform (fun _ _ => 0%float)
                                S K (Pricing.Float64 sigma) r days paths)
        (start 100%float 0.05%float 260 10000 strike_axis sigma_axis
               new_cluster two_workers)
      = Some (Ok nb)
    /\ Grid (globals nb) = Some grid
    /\ shape grid = [3; 3]
    /\ forall i j, i < 3 -> j < 3 ->
         exists euro_call euro_put asian_call asian_put,
           grid_cell grid i j = Some (euro_call, euro_put, asian_call, asian_put)
           /\ Pricing.never_negative euro_call /\ Pricing.never_negative euro_put
           /\ Pricing.never_negative asian_call /\ Pricing.never_negative asian_put.
Proof.
  apply (run_in_range_never_negative Pricing.sample_platform _ sample_engine
           100%float 0.05%float 260 10000 strike_axis sigma_axis
           [] new_cluster (consistent_new _) two_workers
           PricingFacts.sample_platform_ieee);
    [change (Pricing.capacity Pricing.sample_platform) with (2 ^ 31 - 1)%Z; lia
    | change (Pricing.capacity Pricing.sample_platform) with (2 ^ 31 - 1)%Z; lia
    | exact two_workers_covered |].
  intros sigma Hs. unfold sigma_axis in Hs.
  rewrite !elem_of_cons, elem_of_nil in Hs.
  destruct Hs as [-> | [-> | [-> | []]]]; reflexivity.
Defined.

Lemma resubmission_takes_last_result_as_spot_witness :
  exists nb,
    run stub (scenario two_workers) = Some (Ok nb)
    /\ submit_tasks (globals nb) (cluster nb)
       = Ok (submit (grid_args (PyTuple (110, 0.4, 110, 0.4)%float)
                               (PyFloat 0.05%float) (PyInt 260) (PyInt 10000)
                               strike_axis sigma_axis)
                    (cluster nb, [])).
Proof.
  destruct (resubmission_takes_last_result_as_spot stub 100%float 0.05%float 260 10000
              strike_axis sigma_axis [] new_cluster (consistent_new _)
              two_workers 110%float 0.4%float two_workers_covered stub_total
              eq_refl eq_refl)
    as (nb & r & Hrun & Hr & Hsub & _).
  injection Hr as <-. exists nb. split; [exact Hrun | exact Hsub].
Defined.

Lemma plotted_fields_are_the_prices_witness :
  exists nb grid,
    run stub (scenario two_workers) = Some (Ok nb)
    /\ Grid (globals nb) = Some grid
    /\ shape grid = [3; 3]
    /\ field_cell ecall grid 2 0 = Some 110%float
    /\ field_cell eput grid 2 0 = Some 0.1%float
    /\ field_cell acall grid 2 0 = Some 110%float
    /\ field_cell aput grid 2 0 = Some 0.1%float.
Proof.
  destruct (plotted_fields_are_the_prices stub 100%float 0.05%float 260 10000
              strike_axis sigma_axis [] new_cluster (consistent_new _)
              two_workers 2 0 110%float 0.1%float two_workers_covered stub_total
              eq_refl eq_refl)
    as (nb & grid & ec & ep & ac & ap & Hrun & Hgrid & Hshape & _ & _ & Hv
        & Hec & Hep & Hac & Hap).
  injection Hv as <- <- <- <-.
  exists nb, grid. split; [exact Hrun |]. split; [exact Hgrid |].
  split; [exact Hshape |]. split; [exact Hec |]. split; [exact Hep |].
  split; [exact Hac | exact Hap].
Defined.

Lemma serial_then_parallel_witness :
  exists nb,
    run_all stub (scenario (two_workers ++ [9; 10; 11; 12; 13; 14; 15; 16; 17]))
      = Some (Ok nb)
    /\ globals nb !! "async_results" = Some (PyHandles (handles_from 9 9))
    /\ cell_len nb = Ok 9
    /\ NoDup (executed (cluster nb))
    /\ 0 ∈ executed (cluster nb)
    /\ 9 ∈ executed (cluster nb).
Proof.
  destruct (serial_then_parallel stub 100%float 0.05%float 260 10000
              strike_axis sigma_axis [] new_cluster (consistent_new _)
              two_workers [9; 10; 11; 12; 13; 14; 15; 16; 17]
              two_workers_covered second_batch_covered stub_total)
    as (nb & grid & Hrun & Hars & Hlen & _ & _ & Hnodup & Hcells).
  destruct (Hcells 0 0 _ _ eq_refl eq_refl) as (v & _ & _ & _ & Hfirst & Hsecond).
  exists nb. split; [exact Hrun |]. split; [exact Hars |]. split; [exact Hlen |].
  split; [exact Hnodup |]. split; [exact Hfirst | exact Hsecond].
Defined.

Lemma empty_axis_runs_at_once_witness :
  exists nb grid,
    run stub (start 100%float 0.05%float 260 10000 [] sigma_axis new_cluster [])
      = Some (Ok nb)
    /\ network nb = []
    /\ Grid (globals nb) = Some grid
    /\ shape grid = [0; 3]
    /\ cells grid = []
    /\ globals nb !! "price" = Some (PyFloat 100%float).
Proof.
  destruct (empty_axis_runs_at_once stub 100%float 0.05%float 260 10000
              [] sigma_axis [] new_cluster (consistent_new _) [] (or_introl eq_refl))
    as (nb & grid & Hrun & Hnet & _ & _ & _ & _ & _ & Hgrid & Hshape & Hcells & Hprice).
  exists nb, grid. split; [exact Hrun |]. split; [exact Hnet |].
  split; [exact Hgrid |]. split; [exact Hshape |]. split; [exact Hcells | exact Hprice].
Defined.

End SessionScenarioFacts.
